(** * naksu: the VBoxManage layer and the routines around it

    A shallow embedding of package [vboxmanage] (src/naksu/host/host.go from
    line 86 on, and its older copy src/unnamed/part_001) together with the
    properties the specification states about it; and, after it, of what
    else the sources hold: the free-disk check of package [host], the file
    routines of [mebroutines], [start.Server], the network status line,
    the configuration file and the progress dialog.

    Go strings are [string]; a Go [error] is a value carrying its message and
    [nil] is [None]; the package-level variables ([vBoxResponseCache],
    [vBoxManageStarted]) and the outside world (the hypervisor CLI, the clock)
    are threaded through a state monad.  [log.Debug] is fire-and-forget and
    has no influence on results, so the calls are left out. *)

From Stdlib Require Import ZArith Lia Bool List Ascii DecimalString.
From Stdlib Require Import DecimalFacts DecimalPos DecimalN.
From stdpp Require Import base strings gmap.
Import ListNotations.

Local Open Scope string_scope.
Local Open Scope list_scope.
Local Open Scope Z_scope.

(** ** Go's [strings] package, as far as the code uses it *)

Module strings.

(** [strings.HasPrefix(s, prefix)] *)
Fixpoint HasPrefix (s prefix : string) {struct prefix} : bool :=
  match prefix with
  | EmptyString => true
  | String p prefix' =>
      match s with
      | EmptyString => false
      | String c s' => if Ascii.eqb c p then HasPrefix s' prefix' else false
      end
  end.

(** [strings.Contains(s, substr)]: [substr] occurs somewhere in [s]. *)
Fixpoint Contains (s substr : string) : bool :=
  HasPrefix s substr ||
  match s with
  | EmptyString => false
  | String _ s' => Contains s' substr
  end.

(** [strings.Join(elems, sep)] *)
Definition Join (elems : list string) (sep : string) : string :=
  String.concat sep elems.

End strings.

(** ** Go's [regexp] package

    Patterns are kept in compiled form: [regexp.MustCompile] turns the
    pattern text into a program, and the abstract syntax below is that
    program.  Counted repetition and the flags are written out with what is
    here: x{2,3} is xx(x|), x+? is x followed by x*?, (?i)a is the class
    [Aa].  [FindStringSubmatch] is the leftmost match that a backtracking
    search prefers, which is what Go's engine returns for its Perl-like
    syntax. *)

Module regexp.

Inductive Regexp : Type :=
| Empty                                   (* matches the empty string *)
| Chr (class : ascii -> bool)             (* one character of a class *)
| Cat (r1 r2 : Regexp)                    (* r1r2 *)
| Alt (r1 r2 : Regexp)                    (* r1|r2, r1 preferred *)
| Star (r : Regexp)                       (* r*, greedy *)
| StarLazy (r : Regexp)                   (* r*?, prefers fewer *)
| Group (i : nat) (r : Regexp)            (* the i-th (...) *)
| Assert (cond : option ascii -> option ascii -> bool).
                                          (* matches no text; looks at the
                                             character before and the
                                             character after *)

(** x+ is xx*, x? is x|empty. *)
Definition Plus (r : Regexp) : Regexp := Cat r (Star r).
Definition Quest (r : Regexp) : Regexp := Alt r Empty.

(** A literal string. *)
Fixpoint Lit (s : string) : Regexp :=
  match s with
  | EmptyString => Empty
  | String c s' => Cat (Chr (Ascii.eqb c)) (Lit s')
  end.

(** Perl character classes, ASCII only as in Go:
    \d = [0-9], \w = [0-9A-Za-z_], \s = [\t\n\f\r ], . = [^\n]. *)
Definition between (lo hi : N) (c : ascii) : bool :=
  (lo <=? N_of_ascii c)%N && (N_of_ascii c <=? hi)%N.

Definition digit (c : ascii) : bool := between 48 57 c.

Definition word (c : ascii) : bool :=
  between 48 57 c || between 65 90 c || between 97 122 c
  || (N_of_ascii c =? 95)%N.

Definition space (c : ascii) : bool :=
  let n := N_of_ascii c in
  ((n =? 9) || (n =? 10) || (n =? 12) || (n =? 13) || (n =? 32))%N.

Definition anyNoNL (c : ascii) : bool := negb (N_of_ascii c =? 10)%N.

Definition isNone {A : Type} (o : option A) : bool :=
  match o with
  | None => true
  | Some _ => false
  end.

Definition isWord (o : option ascii) : bool :=
  match o with
  | Some c => word c
  | None => false
  end.

Definition isLF (o : option ascii) : bool :=
  match o with
  | Some c => (N_of_ascii c =? 10)%N
  | None => false
  end.

(** The empty-width assertions: ^ and $ (beginning and end of text), their
    (?m) forms (beginning and end of line), \b and \B. *)
Definition Bol : Regexp := Assert (fun before _ => isNone before).
Definition Eol : Regexp := Assert (fun _ after => isNone after).
Definition BolLine : Regexp :=
  Assert (fun before _ => isNone before || isLF before).
Definition EolLine : Regexp :=
  Assert (fun _ after => isNone after || isLF after).
Definition WordBoundary : Regexp :=
  Assert (fun before after => xorb (isWord before) (isWord after)).
Definition NoWordBoundary : Regexp :=
  Assert (fun before after => negb (xorb (isWord before) (isWord after))).

(** Capture registers: the text of every group that took part in the
    match, latest binding first. *)
Definition Caps : Type := list (nat * string).

Fixpoint getCap (i : nat) (caps : Caps) : string :=
  match caps with
  | [] => EmptyString
  | (j, v) :: caps' => if Nat.eqb i j then v else getCap i caps'
  end.

(** Every capture register holds the empty string. *)
Definition allEmpty (caps : Caps) : Prop :=
  Forall (fun p => snd p = EmptyString) caps.

Definition resEmpty (res : option (nat * Caps)) : Prop :=
  match res with
  | Some (_, caps) => allEmpty caps
  | None => True
  end.

(** The character [s] begins with, if any. *)
Definition peek (s : string) : option ascii :=
  match s with
  | String c _ => Some c
  | EmptyString => None
  end.

(** A thread of the search: [pos] characters of the text are consumed, the
    last of them is [before], [s] is what remains. *)
Definition Cont : Type :=
  nat -> option ascii -> string -> Caps -> option (nat * Caps).

(** Backtracking matcher in continuation-passing style.  An iteration of
    [*] that consumes nothing is not repeated, so the loop runs at most
    once per remaining character. *)
Fixpoint run (r : Regexp) (pos : nat) (before : option ascii) (s : string)
  (caps : Caps) (k : Cont) {struct r} : option (nat * Caps) :=
  match r with
  | Empty => k pos before s caps
  | Chr class =>
      match s with
      | String c s' => if class c then k (S pos) (Some c) s' caps else None
      | EmptyString => None
      end
  | Cat r1 r2 =>
      run r1 pos before s caps
        (fun pos1 before1 s1 caps1 => run r2 pos1 before1 s1 caps1 k)
  | Alt r1 r2 =>
      match run r1 pos before s caps k with
      | Some m => Some m
      | None => run r2 pos before s caps k
      end
  | Star r1 =>
      (fix loop (n : nat) (pos : nat) (before : option ascii) (s : string)
         (caps : Caps) : option (nat * Caps) :=
         match n with
         | O => k pos before s caps
         | S n' =>
             match run r1 pos before s caps
                     (fun pos1 before1 s1 caps1 =>
                        if Nat.ltb pos pos1
                        then loop n' pos1 before1 s1 caps1
                        else None) with
             | Some m => Some m
             | None => k pos before s caps
             end
         end) (String.length s) pos before s caps
  | StarLazy r1 =>
      (fix loop (n : nat) (pos : nat) (before : option ascii) (s : string)
         (caps : Caps) : option (nat * Caps) :=
         match n with
         | O => k pos before s caps
         | S n' =>
             match k pos before s caps with
             | Some m => Some m
             | None =>
                 run r1 pos before s caps
                   (fun pos1 before1 s1 caps1 =>
                      if Nat.ltb pos pos1
                      then loop n' pos1 before1 s1 caps1
                      else None)
             end
         end) (String.length s) pos before s caps
  | Group i r1 =>
      run r1 pos before s caps
        (fun pos1 before1 s1 caps1 =>
           k pos1 before1 s1
             ((i, String.substring 0 (pos1 - pos) s) :: caps1))
  | Assert cond =>
      if cond before (peek s) then k pos before s caps else None
  end.

(** A result reported [d] characters further to the right. *)
Definition shift (d : nat) (m : nat * Caps) : nat * Caps :=
  (d + fst m, snd m)%nat.

(** Number of capture groups: the largest group index. *)
Fixpoint NumSubexp (r : Regexp) : nat :=
  match r with
  | Empty | Chr _ | Assert _ => O
  | Cat r1 r2 | Alt r1 r2 => Nat.max (NumSubexp r1) (NumSubexp r2)
  | Star r1 | StarLazy r1 => NumSubexp r1
  | Group i r1 => Nat.max i (NumSubexp r1)
  end.

(** Try every start position from the left. *)
Fixpoint search (r : Regexp) (pos : nat) (before : option ascii) (s : string)
  : option (string * Caps) :=
  match run r pos before s [] (fun pos1 _ _ caps1 => Some (pos1, caps1)) with
  | Some (pos1, caps1) => Some (String.substring 0 (pos1 - pos) s, caps1)
  | None =>
      match s with
      | EmptyString => None
      | String c s' => search r (S pos) (Some c) s'
      end
  end.

(** [re.FindStringSubmatch(s)]: [nil] ([None]) when there is no match,
    else the match followed by the text of groups 1..n, with the empty
    string for a group that did not take part. *)
Definition FindStringSubmatch (r : Regexp) (s : string)
  : option (list string) :=
  match search r O None s with
  | None => None
  | Some (whole, caps) =>
      Some (whole :: map (fun i => getCap i caps) (seq 1 (NumSubexp r)))
  end.

End regexp.

(** ** Errors

    A Go [error] is an interface value; all the code does with one is pass it
    on or print it with [%v], which prints [Error()].  [nil] is [None] of
    [option error]. *)

Inductive error : Type := errors_New (msg : string).

Definition Error (e : error) : string := let 'errors_New msg := e in msg.

(** [fmt.Errorf] with one verb and with two: the format string with the
    verbs filled in, as in
    [fmt.Errorf("failed to execute %s: %v", command, err)]. *)
Definition Errorf1 (before : string) (a : string) (after : string) : error :=
  errors_New (before +:+ a +:+ after).

Definition Errorf2 (before : string) (a : string) (between : string)
  (b : string) (after : string) : error :=
  errors_New (before +:+ a +:+ between +:+ b +:+ after).

(** ** github.com/blang/semver/v4 *)

Module semver.

Record PRVersion : Type :=
  { VersionStr : string; VersionNum : N; IsNum : bool }.

Record Version : Type :=
  { Major : N; Minor : N; Patch : N;
    Pre : list PRVersion; Build : list string }.

(** [semver.Version{}] *)
Definition zero : Version :=
  {| Major := 0; Minor := 0; Patch := 0; Pre := []; Build := [] |}.

Definition isNumber (c : ascii) : bool := regexp.digit c.

Definition isAlphanum (c : ascii) : bool :=
  regexp.between 97 122 c || regexp.between 65 90 c
  || (N_of_ascii c =? 45)%N || regexp.digit c.

Fixpoint containsOnly (s : string) (set : ascii -> bool) : bool :=
  match s with
  | EmptyString => true
  | String c s' => set c && containsOnly s' set
  end.

(** [len(s) > 1 && s[0] == '0'] *)
Definition hasLeadingZeroes (s : string) : bool :=
  match s with
  | String c (String _ _) => Ascii.eqb c "0"
  | _ => false
  end.

(** Value of a string of decimal digits, most significant first. *)
Fixpoint digitsValue (acc : N) (s : string) : N :=
  match s with
  | EmptyString => acc
  | String c s' => digitsValue (10 * acc + (N_of_ascii c - 48))%N s'
  end.

(** [strconv.ParseUint(s, 10, 64)]: no sign, no empty string, and the
    value has to fit 64 bits. *)
Definition ParseUint (s : string) : N + error :=
  match s with
  | EmptyString => inr (errors_New "strconv.ParseUint: parsing : invalid syntax")
  | _ =>
      if negb (containsOnly s isNumber) then
        inr (errors_New ("strconv.ParseUint: parsing " +:+ s +:+ ": invalid syntax"))
      else if (digitsValue 0 s <? 2 ^ 64)%N then inl (digitsValue 0 s)
      else inr (errors_New ("strconv.ParseUint: parsing " +:+ s +:+ ": value out of range"))
  end.

(** [strings.IndexRune]-style cut: the text before the first [sep] and,
    when [sep] occurs, the text after it. *)
Fixpoint cut (sep : ascii) (s : string) : string * option string :=
  match s with
  | EmptyString => (EmptyString, None)
  | String c s' =>
      if Ascii.eqb c sep then (EmptyString, Some s')
      else let '(a, b) := cut sep s' in (String c a, b)
  end.

(** [strings.Split(s, ".")]: every piece between dots; the recursion is on
    the text. *)
Fixpoint splitDots (cur : string) (s : string) : list string :=
  match s with
  | EmptyString => [cur]
  | String c s' =>
      if Ascii.eqb c "." then cur :: splitDots EmptyString s'
      else splitDots (cur +:+ String c EmptyString) s'
  end.

(** One numeric component: digits only, no leading zero, 64 bits. *)
Definition parseNumber (what : string) (s : string) : N + error :=
  if negb (containsOnly s isNumber) then
    inr (errors_New ("Invalid character(s) found in " +:+ what +:+ " number " +:+ s))
  else if hasLeadingZeroes s then
    inr (errors_New (what +:+ " number must not contain leading zeroes " +:+ s))
  else ParseUint s.

Definition NewPRVersion (s : string) : PRVersion + error :=
  match s with
  | EmptyString => inr (errors_New "Prerelease is empty")
  | _ =>
      if containsOnly s isNumber then
        if hasLeadingZeroes s then
          inr (errors_New ("Numeric PreRelease version must not contain leading zeroes " +:+ s))
        else
          match ParseUint s with
          | inl num => inl {| VersionStr := EmptyString; VersionNum := num; IsNum := true |}
          | inr e => inr e
          end
      else if containsOnly s isAlphanum then
        inl {| VersionStr := s; VersionNum := 0; IsNum := false |}
      else
        inr (errors_New ("Invalid character(s) found in prerelease " +:+ s))
  end.

Fixpoint parsePre (l : list string) : list PRVersion + error :=
  match l with
  | [] => inl []
  | s :: l' =>
      match NewPRVersion s with
      | inr e => inr e
      | inl p =>
          match parsePre l' with
          | inr e => inr e
          | inl ps => inl (p :: ps)
          end
      end
  end.

Fixpoint parseBuild (l : list string) : list string + error :=
  match l with
  | [] => inl []
  | s :: l' =>
      match s with
      | EmptyString => inr (errors_New "Build meta data is empty")
      | _ =>
          if negb (containsOnly s isAlphanum) then
            inr (errors_New ("Invalid character(s) found in build meta data " +:+ s))
          else
            match parseBuild l' with
            | inr e => inr e
            | inl bs => inl (s :: bs)
            end
      end
  end.

(** Modelled from the spec: the semantic-version library is not part of
    the repository; the spec asks for a strict parse of
    [major.minor.patch], and this follows the library's [Parse]: split at
    the first two dots, each number without sign, blank or leading zero
    and within 64 bits, then an optional [-prerelease] and [+build]. *)
Definition Make (s : string) : Version + error :=
  match s with
  | EmptyString => inr (errors_New "Version string empty")
  | _ =>
      match cut "." s with
      | (_, None) => inr (errors_New "No Major.Minor.Patch elements found")
      | (p0, Some rest) =>
          match cut "." rest with
          | (_, None) => inr (errors_New "No Major.Minor.Patch elements found")
          | (p1, Some p2) =>
              match parseNumber "Major" p0 with
              | inr e => inr e
              | inl major =>
              match parseNumber "Minor" p1 with
              | inr e => inr e
              | inl minor =>
                  let '(patchStr, build) :=
                    match cut "+" p2 with
                    | (a, Some b) => (a, splitDots EmptyString b)
                    | (a, None) => (a, [])
                    end in
                  let '(patchStr, prerelease) :=
                    match cut "-" patchStr with
                    | (a, Some b) => (a, splitDots EmptyString b)
                    | (a, None) => (a, [])
                    end in
                  match parseNumber "Patch" patchStr with
                  | inr e => inr e
                  | inl patch =>
                  match parsePre prerelease with
                  | inr e => inr e
                  | inl pre =>
                  match parseBuild build with
                  | inr e => inr e
                  | inl bld =>
                      inl {| Major := major; Minor := minor; Patch := patch;
                             Pre := pre; Build := bld |}
                  end end end
              end end
          end
      end
  end.

(** Decimal text of a number, [strconv.FormatUint(n, 10)]. *)
Definition FormatUint (n : N) : string :=
  NilZero.string_of_uint (N.to_uint n).

Definition PRString (p : PRVersion) : string :=
  if IsNum p then FormatUint (VersionNum p) else VersionStr p.

(** [v.String()]: the canonical text. *)
Definition String_ (v : Version) : string :=
  FormatUint (Major v) +:+ "." +:+ FormatUint (Minor v) +:+ "."
  +:+ FormatUint (Patch v)
  +:+ match Pre v with
      | [] => EmptyString
      | _ => "-" +:+ String.concat "." (map PRString (Pre v))
      end
  +:+ match Build v with
      | [] => EmptyString
      | _ => "+" +:+ String.concat "." (Build v)
      end.

End semver.

(** ** github.com/paulusrobin/go-memory-cache *)

Module memory_cache.

(** One entry: the stored value and the instant it stops being served.
    Every value the package stores is a string, and [fmt.Sprintf("%v", v)]
    of a string is the string. *)
Record Item : Type := { value : string; expiresAt : Z }.

(** [memory_cache.New()] *)
Definition New : gmap string Item := ∅.

(** Modelled from the spec: the cache library is not part of the
    repository.  [Get(key)] is a hit only for an entry that was set and
    has not expired; never set and expired both give the miss, which the
    library reports as a non-nil error ([None] here). *)
Definition Get (c : gmap string Item) (now : Z) (key : string)
  : option string :=
  match c !! key with
  | Some it => if now <? expiresAt it then Some (value it) else None
  | None => None
  end.

(** Modelled from the spec: [Set(key, value, ttl)] always replaces the
    entry and counts its expiry from the time of the call. *)
Definition Set_ (c : gmap string Item) (now : Z) (key : string)
  (v : string) (ttl : Z) : gmap string Item :=
  <[key := {| value := v; expiresAt := now + ttl |}]> c.

End memory_cache.

(** ** Package state and the world outside *)

(** What an instrumented process runner records: every start of the
    hypervisor CLI with its full command line, and every time the
    duplicate-disk remediator is asked to look at a failed output. *)
Inductive Call : Type :=
| Exec (argv : list string)
| Remediate (failedOutput : string).

Record State (World : Type) : Type :=
  { vBoxResponseCache : gmap string memory_cache.Item;
    vBoxManageStarted : Z;
    calls : list Call;
    world : World }.

Arguments vBoxResponseCache {World} _.
Arguments vBoxManageStarted {World} _.
Arguments calls {World} _.
Arguments world {World} _.

(** The state with its record of calls and its world replaced. *)
Definition after {World : Type} (s : State World) (cs : list Call) (w : World)
  : State World :=
  {| vBoxResponseCache := vBoxResponseCache s;
     vBoxManageStarted := vBoxManageStarted s;
     calls := cs;
     world := w |}.

(** The state monad the package functions live in. *)
Definition M (World A : Type) : Type := State World -> A * State World.

Definition ret {World A : Type} (a : A) : M World A := fun s => (a, s).

Definition bind {World A B : Type} (m : M World A) (f : A -> M World B)
  : M World B :=
  fun s => let '(a, s') := m s in f a s'.

Declare Scope go_scope.
Delimit Scope go_scope with go.
Notation "'let*' p ':=' m 'in' k" := (bind m (fun p => k))
  (at level 10, p pattern, m at level 100, k at level 200) : go_scope.
Notation "m ;;; k" := (bind m (fun _ => k))
  (at level 100, right associativity) : go_scope.

(** [0 .. 240]: the polling ceiling of the serializer, and its interval. *)
Definition maxTries : nat := 240.
Definition pollInterval : Z := 500 * 1000000.       (* 500 * time.Millisecond *)

(** [t.Unix()] of an instant counted in nanoseconds. *)
Definition Unix (t : Z) : Z := t / 1000000000.

Definition vBoxManageOutputNoVMInstalled : string :=
  "Could not find a registered machine named".

(** The line feed and the double quote. *)
Definition LF : ascii := ascii_of_N 10.
Definition DQ : ascii := ascii_of_N 34.

(** The fixed patterns of the package. *)

(** [^(\d+\.\d+\.\d+)] *)
Definition reVersion : regexp.Regexp :=
  regexp.Cat regexp.Bol
    (regexp.Group 1
       (regexp.Cat (regexp.Plus (regexp.Chr regexp.digit))
       (regexp.Cat (regexp.Lit ".")
       (regexp.Cat (regexp.Plus (regexp.Chr regexp.digit))
       (regexp.Cat (regexp.Lit ".")
                   (regexp.Plus (regexp.Chr regexp.digit))))))).

(** [Value:\s*(\w+)] *)
Definition rePropertyValue : regexp.Regexp :=
  regexp.Cat (regexp.Lit "Value:")
    (regexp.Cat (regexp.Star (regexp.Chr regexp.space))
                (regexp.Group 1 (regexp.Plus (regexp.Chr regexp.word)))).

(** [Value: (.+)], the pattern of the older copy *)
Definition reBoxPropertyValue : regexp.Regexp :=
  regexp.Cat (regexp.Lit "Value: ")
             (regexp.Group 1 (regexp.Plus (regexp.Chr regexp.anyNoNL))).

(** [VMState="(.+)"] *)
Definition reVMState : regexp.Regexp :=
  regexp.Cat (regexp.Lit "VMState=")
    (regexp.Cat (regexp.Chr (Ascii.eqb DQ))
    (regexp.Cat (regexp.Group 1 (regexp.Plus (regexp.Chr regexp.anyNoNL)))
                (regexp.Chr (Ascii.eqb DQ)))).

(** Version 6.1.26. *)
Definition version_6_1_26 : semver.Version :=
  {| semver.Major := 6; semver.Minor := 1; semver.Patch := 26;
     semver.Pre := []; semver.Build := [] |}.

(** [result[1]] when [len(result) > 1]. *)
Definition firstGroup (result : option (list string)) : option string :=
  match result with
  | Some (_ :: g1 :: _) => Some g1
  | _ => None
  end.

(** ** Package vboxmanage (host.go, lines 86 to 417) *)

Module vboxmanage.
Section package.

(** The world outside the package: the clock, the file system the
    hypervisor CLI lives in, the CLI itself.  The collaborators below are
    not under src/ (or only in an older form) and are taken as given. *)
Context {World : Type}.

(** [time.Now()], in nanoseconds, and [time.Sleep(d)]. *)
Variable Now : World -> Z.
Variable Sleep : Z -> World -> World.

(** [getVBoxManagePath()] *)
Variable getVBoxManagePath : World -> string.

(** [mebroutines.RunAndGetOutput(runArgs, logOutput)]: combined output and
    an error exactly when the process failed. *)
Variable RunAndGetOutput :
  list string -> bool -> World -> (string * option error) * World.

(** [detectAndFixDuplicateHardDiskProblem(output)]: [(fixed, fixErr)].  It
    talks to the process runner directly and has no access to the
    package's cache or flag. *)
Variable detectAndFixDuplicateHardDiskProblem :
  string -> World -> (bool * option error) * World.

(** [constants.VBoxManageCacheTimeout], [constants.VBoxRunningCacheTimeout] *)
Variable VBoxManageCacheTimeout : Z.
Variable VBoxRunningCacheTimeout : Z.

Local Open Scope go_scope.

Local Abbreviation M := (M World).
Local Abbreviation State := (State World).

(** *** Primitive actions on the state *)

Definition getStarted : M Z := fun s => (vBoxManageStarted s, s).

Definition setStarted (v : Z) : M unit :=
  fun s =>
    (tt, {| vBoxResponseCache := vBoxResponseCache s;
            vBoxManageStarted := v;
            calls := calls s;
            world := world s |}).

Definition timeNow : M Z := fun s => (Now (world s), s).

Definition timeSleep (d : Z) : M unit :=
  fun s =>
    (tt, {| vBoxResponseCache := vBoxResponseCache s;
            vBoxManageStarted := vBoxManageStarted s;
            calls := calls s;
            world := Sleep d (world s) |}).

Definition vboxmanagepath : M string :=
  fun s => (getVBoxManagePath (world s), s).

(** One start of the external process, recorded. *)
Definition execProcess (runArgs : list string) (logOutput : bool)
  : M (string * option error) :=
  fun s =>
    let '(r, w') := RunAndGetOutput runArgs logOutput (world s) in
    (r, {| vBoxResponseCache := vBoxResponseCache s;
           vBoxManageStarted := vBoxManageStarted s;
           calls := (calls s ++ [Exec runArgs])%list;
           world := w' |}).

(** One call of the remediator, recorded. *)
Definition remediate (output : string) : M (bool * option error) :=
  fun s =>
    let '(r, w') := detectAndFixDuplicateHardDiskProblem output (world s) in
    (r, {| vBoxResponseCache := vBoxResponseCache s;
           vBoxManageStarted := vBoxManageStarted s;
           calls := (calls s ++ [Remediate output])%list;
           world := w' |}).

(** [vBoxResponseCache.Get(key)]; the miss is [None]. *)
Definition cacheGet (key : string) : M (option string) :=
  fun s => (memory_cache.Get (vBoxResponseCache s) (Now (world s)) key, s).

(** [vBoxResponseCache.Set(key, value, ttl)] *)
Definition cacheSet (key : string) (v : string) (ttl : Z) : M unit :=
  fun s =>
    (tt, {| vBoxResponseCache :=
              memory_cache.Set_ (vBoxResponseCache s) (Now (world s)) key v ttl;
            vBoxManageStarted := vBoxManageStarted s;
            calls := calls s;
            world := world s |}).

(** [ResetVBoxResponseCache()] *)
Definition ResetVBoxResponseCache : M unit :=
  fun s =>
    (tt, {| vBoxResponseCache := memory_cache.New;
            vBoxManageStarted := vBoxManageStarted s;
            calls := calls s;
            world := world s |}).

(** *** runVBoxManage (host.go 153-184) *)

Definition runVBoxManage (args : list string) (logOutput : bool)
  : M (string * option error) :=
  let* path := vboxmanagepath in
  let runArgs := ([path] ++ args)%list in
  let* (vBoxManageOutput, err) := execProcess runArgs logOutput in
  match err with
  | Some e =>
      let command := strings.Join runArgs " " in
      let* (fixed, fixErr) := remediate vBoxManageOutput in
      if negb fixed && bool_decide (fixErr <> None) then
        ret (EmptyString,
             Some (Errorf2 "failed to execute " command ": " (Error e)
                           EmptyString))
      else if fixed then
        (* We need to re-run the command only if problem was fixed *)
        execProcess runArgs logOutput
      else ret (vBoxManageOutput, err)
  | None => ret (vBoxManageOutput, err)
  end.

(** *** runCommand (host.go 124-140)

    The loop [for (vBoxManageStarted != 0) && (tryCounter < 240)] counts
    [tryCounter] up from 0; [left] is [240 - tryCounter].  Run by one
    caller alone, nobody else writes the flag while it sleeps. *)
Fixpoint waitForVBoxManage (left : nat) : M unit :=
  match left with
  | O => ret tt
  | S left' =>
      let* started := getStarted in
      if negb (started =? 0) then
        timeSleep pollInterval ;;; waitForVBoxManage left'
      else ret tt
  end.

Definition runCommand (args : list string) (logOutput : bool)
  : M (string * option error) :=
  waitForVBoxManage maxTries ;;;
  let* now := timeNow in
  setStarted (Unix now) ;;;
  let* (vBoxManageOutput, err) := runVBoxManage args logOutput in
  setStarted 0 ;;;
  ret (vBoxManageOutput, err).

Definition RunCommand (args : list string) : M (string * option error) :=
  runCommand args true.

Definition RunCommandWithoutLogging (args : list string)
  : M (string * option error) :=
  runCommand args false.

(** [RunCommands]: stops at the first error. *)
Fixpoint RunCommands (commands : list (list string)) : M (option error) :=
  match commands with
  | [] => ret None
  | c :: commands' =>
      let* (_, err) := RunCommand c in
      match err with
      | Some e => ret (Some e)
      | None => RunCommands commands'
      end
  end.

(** *** GetVMInfoByRegexp and getVMInfo (host.go 203-240)

    [vmRegexp] is the pattern as [regexp.MustCompile] compiled it. *)
Definition getVMInfo (vmName : string) : M string :=
  let* rawVMInfoInterface := cacheGet "showvminfo" in
  match rawVMInfoInterface with
  | None =>
      let* (rawVMInfo, err) :=
        RunCommandWithoutLogging ["showvminfo"; "--machinereadable"; vmName] in
      let rawVMInfo :=
        match err with
        | Some _ => EmptyString
        | None => rawVMInfo
        end in
      cacheSet "showvminfo" rawVMInfo VBoxManageCacheTimeout ;;;
      ret rawVMInfo
  | Some v => ret v
  end.

Definition GetVMInfoByRegexp (vmName : string) (vmRegexp : regexp.Regexp)
  : M string :=
  let* rawVMInfo := getVMInfo vmName in
  let result := regexp.FindStringSubmatch vmRegexp rawVMInfo in
  match firstGroup result with
  | Some g1 => ret g1
  | None => ret EmptyString
  end.

(** *** GetVBoxManageVersion (host.go 242-288) *)

Definition getVBoxManageVersionSemanticPart : M (string * option error) :=
  let* (output, errVBM) := RunCommand ["--version"] in
  match errVBM with
  | Some e =>
      ret (EmptyString,
           Some (Errorf1 "failed to get vboxmanage version: " (Error e)
                         EmptyString))
  | None =>
      match regexp.FindStringSubmatch reVersion output with
      | Some matches => ret (nth 1 matches EmptyString, None)
      | None =>
          ret (EmptyString,
               Some (Errorf1
                       "could not find semantic version string from vboxmanage version '"
                       output "'"))
      end
  end.

Definition GetVBoxManageVersion : M (semver.Version * option error) :=
  let* cachedVBoxManageVersion := cacheGet "vboxmanageversion" in
  match cachedVBoxManageVersion with
  | None =>
      let* (vBoxManageVersionString, errVersionString) :=
        getVBoxManageVersionSemanticPart in
      match errVersionString with
      | Some e => ret (semver.zero, Some e)
      | None =>
          match semver.Make vBoxManageVersionString with
          | inr errSemVer =>
              ret (semver.zero,
                   Some (Errorf2 "vboxmanage version " vBoxManageVersionString
                                 " is not a semantic version number: "
                                 (Error errSemVer) EmptyString))
          | inl vBoxManageVersion =>
              cacheSet "vboxmanageversion" (semver.String_ vBoxManageVersion)
                       VBoxManageCacheTimeout ;;;
              ret (vBoxManageVersion, None)
          end
      end
  | Some cached =>
      match semver.Make cached with
      | inr err =>
          ret (semver.zero,
               Some (Errorf2 "getting semantic version object from '" cached
                             "' caused error: " (Error err) EmptyString))
      | inl cachedVBoxManageVersionSemVer =>
          ret (cachedVBoxManageVersionSemVer, None)
      end
  end.

(** *** GetVMProperty (host.go 290-319) *)

Definition GetVMProperty (vmName : string) (property : string) : M string :=
  let* propertyValueInterface := cacheGet property in
  match propertyValueInterface with
  | None =>
      let* (output, errVBoxManage) :=
        RunCommand ["guestproperty"; "get"; vmName; property] in
      let output :=
        match errVBoxManage with
        | Some _ => EmptyString
        | None => output
        end in
      let propMatches := regexp.FindStringSubmatch rePropertyValue output in
      let propertyValue :=
        match propMatches with
        | Some matches => nth 1 matches EmptyString
        | None => EmptyString
        end in
      cacheSet property propertyValue VBoxManageCacheTimeout ;;;
      ret propertyValue
  | Some v => ret v
  end.

(** *** getVMState and IsVMRunning (host.go 321-379) *)

Definition getVMStateFromOutput (output : string) : string :=
  match firstGroup (regexp.FindStringSubmatch reVMState output) with
  | Some g1 => g1
  | None => EmptyString
  end.

Definition getVMState (vmName : string) : M (string * option error) :=
  let* cached := cacheGet "vmstate" in
  match cached with
  | None =>
      let* (rawVMInfo, err) :=
        RunCommandWithoutLogging ["showvminfo"; "--machinereadable"; vmName] in
      (* Check whether VM is installed *)
      if strings.Contains rawVMInfo vBoxManageOutputNoVMInstalled then
        ret (EmptyString, None)
      else
        (* Process other VBoxManage errors *)
        match err with
        | Some e => ret (EmptyString, Some e)
        | None =>
            (* Extract state string *)
            let vmState := getVMStateFromOutput rawVMInfo in
            if String.eqb vmState EmptyString then
              ret (EmptyString,
                   Some (errors_New "could not find vm state from the vm info"))
            else
              cacheSet "vmstate" vmState VBoxRunningCacheTimeout ;;;
              ret (vmState, None)
        end
  | Some vmState => ret (vmState, None)
  end.

Definition IsVMRunning (vmName : string) : M (bool * option error) :=
  let* (vmState, err) := getVMState vmName in
  match err with
  | Some e => ret (false, Some e)
  | None => ret (String.eqb vmState "running", None)
  end.

(** *** IsVMInstalled (host.go 381-397) *)

Definition IsVMInstalled (vmName : string) : M (bool * option error) :=
  let* (rawVMInfo, err) :=
    RunCommandWithoutLogging ["showvminfo"; "--machinereadable"; vmName] in
  match err with
  | Some e =>
      if strings.Contains rawVMInfo vBoxManageOutputNoVMInstalled then
        ret (false, None)
      else
        (* Other error, return it to the caller *)
        ret (false, Some e)
  | None =>
      (* We got the showvminfo all right, so the machine is installed *)
      ret (true, None)
  end.

(** *** IsInstalled (host.go 399-417) *)

Definition IsInstalled : M bool :=
  let* path := vboxmanagepath in
  if String.eqb path EmptyString then ret false
  else
    let* (vBoxManageVersion, err) := RunCommand ["--version"] in
    match err with
    | Some _ => ret false        (* No VBoxManage was found *)
    | None => ret true
    end.

End package.
End vboxmanage.

(** ** Package host (host.go, lines 1 to 84) *)

Module host.
Section package.

(** [mebroutines.GetDiskFree(path)]: the free bytes, or an error. *)
Variable GetDiskFree : string -> N + error.

(** [LowDiskSizeError] *)
Record LowDiskSizeError : Type :=
  { Err : string; LowPath : string; LowSize : N }.

(** [CheckFreeDisk(limit, directories)] (host.go 66-84): [nil] is [None]. *)
Fixpoint CheckFreeDisk (limit : N) (directories : list string)
  : option LowDiskSizeError :=
  match directories with
  | [] => None
  | thisDirectory :: directories' =>
      match GetDiskFree thisDirectory with
      | inr _ => CheckFreeDisk limit directories'
      | inl freeDisk =>
          if (freeDisk <? limit)%N then
            Some {| Err := "disk size is too low";
                    LowPath := thisDirectory; LowSize := freeDisk |}
          else CheckFreeDisk limit directories'
      end
  end.

End package.
End host.

(** ** The older copy of the package (src/unnamed/part_001) *)

Module vboxmanage_old.
Section package.

Context {World : Type}.
Variable Now : World -> Z.
Variable Sleep : Z -> World -> World.

(** [mebroutines.RunVBoxManage(args)], the runner of that version. *)
Variable RunVBoxManage :
  list string -> World -> (string * option error) * World.

Variable VBoxManageCacheTimeout : Z.

Local Open Scope go_scope.

Local Abbreviation M := (M World).

Definition execVBoxManage (args : list string) : M (string * option error) :=
  fun s =>
    let '(r, w') := RunVBoxManage args (world s) in
    (r, {| vBoxResponseCache := vBoxResponseCache s;
           vBoxManageStarted := vBoxManageStarted s;
           calls := (calls s ++ [Exec args])%list;
           world := w' |}).

(** [CallRunVBoxManage] (part_001 20-36) *)
Definition CallRunVBoxManage (args : list string)
  : M (string * option error) :=
  vboxmanage.waitForVBoxManage Sleep maxTries ;;;
  let* now := vboxmanage.timeNow Now in
  vboxmanage.setStarted (Unix now) ;;;
  let* (vBoxManageOutput, err) := execVBoxManage args in
  vboxmanage.setStarted 0 ;;;
  ret (vBoxManageOutput, err).

(** [ensureVBoxResponseCacheInitialised()]: the state always holds a
    constructed cache, so there is nothing left to do. *)
Definition ensureVBoxResponseCacheInitialised : M unit := ret tt.

(** [GetVMInfoRegexp] (part_001 68-98) *)
Definition GetVMInfoRegexp (boxName : string) (vmRegexp : regexp.Regexp)
  : M string :=
  ensureVBoxResponseCacheInitialised ;;;
  let* rawVMInfoInterface := vboxmanage.cacheGet Now "showvminfo" in
  let* rawVMInfo :=
    match rawVMInfoInterface with
    | None =>
        let* (rawVMInfo, err) :=
          CallRunVBoxManage ["showvminfo"; "--machinereadable"; boxName] in
        let rawVMInfo :=
          match err with
          | Some _ => EmptyString
          | None => rawVMInfo
          end in
        vboxmanage.cacheSet Now "showvminfo" rawVMInfo VBoxManageCacheTimeout ;;;
        ret rawVMInfo
    | Some v => ret v
    end in
  match firstGroup (regexp.FindStringSubmatch vmRegexp rawVMInfo) with
  | Some g1 => ret g1
  | None => ret EmptyString
  end.

(** [GetBoxProperty] (part_001 100-131) *)
Definition GetBoxProperty (boxName : string) (property : string) : M string :=
  ensureVBoxResponseCacheInitialised ;;;
  let* propertyValueInterface := vboxmanage.cacheGet Now property in
  match propertyValueInterface with
  | None =>
      let* (output, errVBoxManage) :=
        CallRunVBoxManage ["guestproperty"; "get"; boxName; property] in
      let output :=
        match errVBoxManage with
        | Some _ => EmptyString
        | None => output
        end in
      let propMatches := regexp.FindStringSubmatch reBoxPropertyValue output in
      let propertyValue :=
        match propMatches with
        | Some [_; g1] => g1                   (* len(propMatches) == 2 *)
        | _ => EmptyString
        end in
      vboxmanage.cacheSet Now property propertyValue VBoxManageCacheTimeout ;;;
      ret propertyValue
  | Some v => ret v
  end.

End package.
End vboxmanage_old.

(** ** Two callers at once: the serializer of runCommand, interleaved

    [runCommand] (and [CallRunVBoxManage], line for line the same) protects
    the process with a plain variable.  Every read and every write of
    [vBoxManageStarted] is one step of one caller; the scheduler picks who
    moves next. *)

Module serializer.

(** Where a caller is inside [runCommand]; [tryCounter] is carried along. *)
Inductive Pc : Type :=
| AtLoopTest (tryCounter : nat)     (* line 129: about to test the flag *)
| AtSleep (tryCounter : nat)        (* lines 130-131: inside the loop *)
| AtStore (tryCounter : nat)        (* line 135: about to set the flag *)
| Invoking (tryCounter : nat)       (* line 136: VBoxManage is running *)
| AtClear (tryCounter : nat)        (* line 137: about to clear the flag *)
| Returned.                         (* line 139 *)

Record Config : Type :=
  { flag : Z;                       (* vBoxManageStarted *)
    clock : Z;                      (* time.Now(), nanoseconds *)
    callers : list Pc }.

(** One step of one caller on the shared variables. *)
Definition stepPc (pc : Pc) (fl : Z) (clk : Z) : Pc * Z * Z :=
  match pc with
  | AtLoopTest n =>
      if negb (fl =? 0) && (n <? maxTries)%nat then (AtSleep n, fl, clk)
      else (AtStore n, fl, clk)
  | AtSleep n => (AtLoopTest (S n), fl, clk + pollInterval)
  | AtStore n => (Invoking n, Unix clk, clk)
  | Invoking n => (AtClear n, fl, clk)
  | AtClear n => (Returned, 0, clk)
  | Returned => (Returned, fl, clk)
  end.

(** Caller [i] moves. *)
Definition step (i : nat) (c : Config) : Config :=
  match callers c !! i with
  | None => c
  | Some pc =>
      let '(pc', fl', clk') := stepPc pc (flag c) (clock c) in
      {| flag := fl'; clock := clk'; callers := <[i := pc']> (callers c) |}
  end.

(** A schedule is the order in which the callers move. *)
Definition run (schedule : list nat) (c : Config) : Config :=
  fold_left (fun c i => step i c) schedule c.

(** A caller holds the slot from its store to its clear: this is when
    its VBoxManage process is started or running. *)
Definition holds (pc : Pc) : bool :=
  match pc with
  | Invoking _ | AtClear _ => true
  | _ => false
  end.

(** How often the caller had polled when it went on. *)
Definition tries (pc : Pc) : nat :=
  match pc with
  | AtLoopTest n | AtSleep n | AtStore n | Invoking n | AtClear n => n
  | Returned => O
  end.

(** The holders that went on before the ceiling of 240 polls. *)
Definition exclusiveHolders (c : Config) : list Pc :=
  List.filter (fun pc => holds pc && (tries pc <? maxTries)%nat) (callers c).

(** The serializer's promise: of any two callers that hold the slot at the
    same time, one has waited to the ceiling; that is, at most one holder
    went on before the ceiling. *)
Definition exclusive (c : Config) : Prop :=
  (length (exclusiveHolders c) <= 1)%nat.

(** Two callers enter [runCommand] while nothing is running. *)
Definition twoCallers : Config :=
  {| flag := 0; clock := 1700000000 * 1000000000;
     callers := [AtLoopTest 0; AtLoopTest 0] |}.

(** One caller enters while a process started earlier never returns. *)
Definition behindStuckProcess : Config :=
  {| flag := 1699999000; clock := 1700000000 * 1000000000;
     callers := [AtLoopTest 0] |}.

End serializer.

(** ** Package mebroutines: files (mebroutines.go, and its newer copy that
    follows start.go) *)

Module mebroutines.

(** The bits of [os.FileMode] that tell the kind of a file. *)
Definition ModeDir : Z := Z.shiftl 1 31.
Definition ModeSymlink : Z := Z.shiftl 1 27.
Definition ModeDevice : Z := Z.shiftl 1 26.
Definition ModeNamedPipe : Z := Z.shiftl 1 25.
Definition ModeSocket : Z := Z.shiftl 1 24.
Definition ModeCharDevice : Z := Z.shiftl 1 21.
Definition ModeIrregular : Z := Z.shiftl 1 19.

Definition ModeType : Z :=
  Z.lor ModeDir (Z.lor ModeSymlink (Z.lor ModeNamedPipe (Z.lor ModeSocket
    (Z.lor ModeDevice (Z.lor ModeCharDevice ModeIrregular))))).

(** The kinds of file that are not regular files. *)
Definition kinds : list Z :=
  [ModeDir; ModeSymlink; ModeNamedPipe; ModeSocket; ModeDevice;
   ModeCharDevice; ModeIrregular].

(** [m.IsDir()] and [m.IsRegular()] *)
Definition IsDir (m : Z) : bool := negb (Z.land m ModeDir =? 0).
Definition IsRegular (m : Z) : bool := Z.land m ModeType =? 0.

(** What is done to the file system, in the order it is done.  An open
    file is a handle. *)
Inductive Op (File : Type) : Type :=
| OpOpen (path : string) (result : option File)
| OpCreate (path : string) (result : option File)
| OpCopy (dst src : File)
| OpSync (f : File)
| OpClose (f : File).

Arguments OpOpen {File} _ _.
Arguments OpCreate {File} _ _.
Arguments OpCopy {File} _ _.
Arguments OpSync {File} _.
Arguments OpClose {File} _.

(** How a call ends: it returns, or [golog.Fatal] ends the process. *)
Inductive Exit (A : Type) : Type :=
| Return (a : A)
| Fatal (e : error).

Arguments Return {A} _.
Arguments Fatal {A} _.

(** The files a sequence of operations opened, and the files it closed. *)
Fixpoint opened {File : Type} (ops : list (Op File)) : list File :=
  match ops with
  | [] => []
  | OpOpen _ (Some f) :: ops' => f :: opened ops'
  | OpCreate _ (Some f) :: ops' => f :: opened ops'
  | _ :: ops' => opened ops'
  end.

Fixpoint closed {File : Type} (ops : list (Op File)) : list File :=
  match ops with
  | [] => []
  | OpClose f :: ops' => f :: closed ops'
  | _ :: ops' => closed ops'
  end.

Section package.

Context {World File : Type}.

(** [os.Lstat(path)]: the mode of the file, or an error. *)
Variable os_Lstat : string -> World -> Z + error.

(** [os.Open], [os.Create], [io.Copy], [f.Sync()], [f.Close()],
    [os.Remove]. *)
Variable os_Open : string -> World -> (File + error) * World.
Variable os_Create : string -> World -> (File + error) * World.
Variable io_Copy : File -> File -> World -> option error * World.
Variable Sync : File -> World -> option error * World.
Variable file_Close : File -> World -> option error * World.
Variable os_Remove : string -> World -> option error * World.

(** [filepath.Walk(root, fn)], as the sequence of calls of [fn] it makes as
    long as [fn] answers nil: the path visited and the error Walk met
    there. *)
Variable filepath_Walk : string -> World -> list (string * option error).

(** The file system with the record of what was done to it. *)
Definition FS : Type := list (Op File) * World.

(** [getFileMode] (mebroutines.go 54-61) *)
Definition getFileMode (path : string) (w : World) : Z * option error :=
  match os_Lstat path w with
  | inl mode => (mode, None)
  | inr err => (0, Some err)
  end.

(** [ExistsDir] (mebroutines.go 64-72) *)
Definition ExistsDir (path : string) (w : World) : bool :=
  let '(mode, err) := getFileMode path w in
  if bool_decide (err = None) && IsDir mode then true else false.

(** [ExistsFile] (mebroutines.go 75-83) *)
Definition ExistsFile (path : string) (w : World) : bool :=
  let '(mode, err) := getFileMode path w in
  if bool_decide (err = None) && IsRegular mode then true else false.

(** [ExistsCharDevice] (mebroutines.go 86-90) *)
Definition ExistsCharDevice (path : string) (w : World) : bool :=
  let '(mode, err) := getFileMode path w in
  bool_decide (err = None) && negb (Z.land mode ModeDevice =? 0)
  && negb (Z.land mode ModeCharDevice =? 0).

(** [Close] (mebroutines.go 25-30), run as the deferred [Close(in)]: the
    call that deferred it returns [err] unless closing fails, which ends
    the process. *)
Definition Close (c : File) (err : option error) (fs : FS)
  : Exit (option error) * FS :=
  let '(ops, w) := fs in
  let '(cerr, w') := file_Close c w in
  match cerr with
  | Some e => (Fatal e, (ops ++ [OpClose c], w'))
  | None => (Return err, (ops ++ [OpClose c], w'))
  end.

(** The deferred function of CopyFile (mebroutines.go 135-140), followed by
    the deferred [Close(in)]: [err] is the named result as the return
    statement left it. *)
Definition closeOut (out in_ : File) (err : option error) (fs : FS)
  : Exit (option error) * FS :=
  let '(ops, w) := fs in
  let '(cerr, w') := file_Close out w in
  let err := match err with
             | None => cerr
             | Some _ => err
             end in
  Close in_ err (ops ++ [OpClose out], w').

(** [CopyFile] (mebroutines.go 114-151) *)
Definition CopyFile (src dst : string) (w : World)
  : Exit (option error) * FS :=
  if negb (ExistsFile src w) then
    (Return (Some (errors_New "could not find source file")), ([], w))
  else
    let '(r, w) := os_Open src w in
    match r with
    | inr err =>
        (Return (Some (Errorf1 "could not open source file: " (Error err)
                               EmptyString)),
         ([OpOpen src None], w))
    | inl in_ =>
        let ops := [OpOpen src (Some in_)] in
        let '(r, w) := os_Create dst w in
        match r with
        | inr err =>
            Close in_
              (Some (Errorf1 "could not open destination file: " (Error err)
                             EmptyString))
              (ops ++ [OpCreate dst None], w)
        | inl out =>
            let ops := ops ++ [OpCreate dst (Some out)] in
            let '(err, w) := io_Copy out in_ w in
            let ops := ops ++ [OpCopy out in_] in
            match err with
            | Some e =>
                closeOut out in_
                  (Some (Errorf1 "error when copying data: " (Error e)
                                 EmptyString))
                  (ops, w)
            | None =>
                let '(err, w) := Sync out w in
                let ops := ops ++ [OpSync out] in
                match err with
                | Some e =>
                    closeOut out in_
                      (Some (Errorf1 "error when syncing destination file: "
                                     (Error e) EmptyString))
                      (ops, w)
                | None => closeOut out in_ None (ops, w)
                end
            end
        end
    end.

(** The function handed to [filepath.Walk] (start.go 147-153), called for
    one visit after the other until it answers an error. *)
Fixpoint walkFn (visits : list (string * option error)) (paths : list string)
  : list string * option error :=
  match visits with
  | [] => (paths, None)
  | (newPath, err) :: visits' =>
      match err with
      | Some e => (paths, Some e)
      | None => walkFn visits' (paths ++ [newPath])
      end
  end.

(** [for n := len(paths) - 1; n >= 0; n--] (start.go 160-165); [count] is
    [n + 1]. *)
Fixpoint removeDownFrom (count : nat) (paths : list string)
  (removals : list string) (w : World) : list string * World :=
  match count with
  | O => (removals, w)
  | S n =>
      match paths !! n with
      | None => (removals, w)                  (* out of range: not reached *)
      | Some path =>
          let '(_, w') := os_Remove path w in
          removeDownFrom n paths (removals ++ [path]) w'
      end
  end.

(** [RemoveDirAndLogErrors] (start.go 143-166): the paths [os.Remove] was
    called on, in the order of the calls, and the world after them. *)
Definition RemoveDirAndLogErrors (topPath : string) (w : World)
  : list string * World :=
  let '(paths, err) := walkFn (filepath_Walk topPath w) [] in
  match err with
  | Some _ => ([], w)
  | None => removeDownFrom (length paths) paths [] w
  end.

End package.
End mebroutines.

(** ** Package start (start.go, lines 1 to 47) *)

Module start.

(** What [Server] does to the outside, in the order it does it. *)
Inductive Action : Type :=
| CleanUpTrashVMDirectories
| Installed
| Running
| StartCurrentBox
| ShowErrorMessage (message : string).

Definition isShowErrorMessage (a : Action) : bool :=
  match a with
  | ShowErrorMessage _ => true
  | _ => false
  end.

Section package.

Context {World : Type}.

(** [vboxmanage.CleanUpTrashVMDirectories()], [box.Installed()],
    [box.Running()], [box.StartCurrentBox()]: not under src/. *)
Variable vboxmanage_CleanUpTrashVMDirectories : World -> World.
Variable box_Installed : World -> (bool * option error) * World.
Variable box_Running : World -> (bool * option error) * World.
Variable box_StartCurrentBox : World -> option error * World.

(** [xlate.GetRaw(str)] and [xlate.Get(str, err)], the translation filled
    in with the error. *)
Variable xlate_GetRaw : string -> string.
Variable xlate_Get : string -> error -> string.

Definition generalErrorString : string :=
  xlate_GetRaw "Failed to start server: %v".

(** [mebroutines.ShowTranslatedErrorMessageAndPassError] (start.go 307-310)
    with [ShowTranslatedErrorMessage] (300-302): one [ShowErrorMessage],
    and the error is handed back as it came. *)
Definition ShowTranslatedErrorMessageAndPassError (str : string) (err : error)
  (actions : list Action) : error * list Action :=
  (err, actions ++ [ShowErrorMessage (xlate_Get str err)]).

(** [Server] (start.go 16-47) *)
Definition Server (w : World) : option error * (list Action * World) :=
  let w := vboxmanage_CleanUpTrashVMDirectories w in
  let actions := [CleanUpTrashVMDirectories] in
  let '((isInstalled, err), w) := box_Installed w in
  let actions := actions ++ [Installed] in
  match err with
  | Some e =>
      (Some (Errorf1 "could not detect whether an existing vm is installed: "
                     (Error e) EmptyString),
       (actions ++
          [ShowErrorMessage
             ("Could not start server as we could not detect whether existing VM is installed: "
              +:+ Error e)], w))
  | None =>
      if negb isInstalled then
        (Some (errors_New "no server has been installed"),
         (actions ++ [ShowErrorMessage "No server has been installed."], w))
      else
        let '((isRunning, err), w) := box_Running w in
        let actions := actions ++ [Running] in
        match err with
        | Some e =>
            (Some (Errorf1 "could not detect whether the server is running: "
                           (Error e) EmptyString),
             (actions ++
                [ShowErrorMessage
                   ("Could not start server as we could not detect whether existing VM is running: "
                    +:+ Error e)], w))
        | None =>
            if isRunning then
              (Some (errors_New "the server is already running"),
               (actions ++ [ShowErrorMessage "The server is already running."],
                w))
            else
              let '(err, w) := box_StartCurrentBox w in
              let actions := actions ++ [StartCurrentBox] in
              match err with
              | Some e =>
                  let '(err, actions) :=
                    ShowTranslatedErrorMessageAndPassError generalErrorString
                      e actions in
                  (Some err, (actions, w))
              | None => (None, (actions, w))
              end
        end
  end.

End package.
End start.

(** ** Package networkstatus (networkstatus.go) *)

Module networkstatus.

(** [ui.TextColor{R, G, B, A}] *)
Record Attribute : Type := TextColor { R : Z; G : Z; B : Z; A : Z }.

(** [ui.AttributedString]: the text, and the attributes with the byte
    range [start, end) each of them covers. *)
Record AttributedString : Type :=
  { text : string;
    attributes : list (Attribute * nat * nat) }.

Definition NewAttributedString (initial : string) : AttributedString :=
  {| text := initial; attributes := [] |}.

Definition AppendUnattributed (a : AttributedString) (str : string)
  : AttributedString :=
  {| text := text a +:+ str; attributes := attributes a |}.

Definition SetAttribute (a : AttributedString) (attr : Attribute)
  (start end_ : nat) : AttributedString :=
  {| text := text a; attributes := attributes a ++ [(attr, start, end_)] |}.

(** The package variables: the string on show, and the area, of which only
    the number of queued redraws matters here; nil is [None]. *)
Record State : Type :=
  { networkStatusString : option AttributedString;
    networkStatusArea : option nat }.

(** [appendWithAttributes] (networkstatus.go 43-50) *)
Definition appendWithAttributes (attributedString : AttributedString)
  (text_ : string) (attrs : list Attribute) : AttributedString :=
  let start := String.length (text attributedString) in
  let end_ := (start + String.length text_)%nat in
  let attributedString := AppendUnattributed attributedString text_ in
  fold_left (fun s a => SetAttribute s a start end_) attrs attributedString.

(** [ensureUIComponentsInitialized] (networkstatus.go 52-59) *)
Definition ensureUIComponentsInitialized (st : State) : State :=
  let st :=
    match networkStatusArea st with
    | None => {| networkStatusString := networkStatusString st;
                 networkStatusArea := Some O |}
    | Some _ => st
    end in
  match networkStatusString st with
  | None => {| networkStatusString := Some (NewAttributedString EmptyString);
               networkStatusArea := networkStatusArea st |}
  | Some _ => st
  end.

Section package.

Context {World : Type}.

(** [network.UsingWirelessInterface()], [network.CurrentLinkSpeed()],
    [xlate.Get(str)], and [fmt.Sprintf(format, linkSpeedMbit)] for a
    format that comes out of the translation. *)
Variable network_UsingWirelessInterface : World -> bool.
Variable network_CurrentLinkSpeed : World -> Z.
Variable xlate_Get : string -> string.
Variable Sprintf : string -> Z -> string.

(** [showNetworkStatus] (networkstatus.go 78-87) *)
Definition showNetworkStatus (text_ : string) (warning : bool) (st : State)
  : State :=
  let st := ensureUIComponentsInitialized st in
  let s := NewAttributedString (xlate_Get "Network status: ") in
  let s :=
    if warning then
      appendWithAttributes s text_
        [{| R := 1; G := 0; B := 0; A := 1 |}]
    else AppendUnattributed s text_ in
  {| networkStatusString := Some s;
     networkStatusArea := option_map S (networkStatusArea st) |}.

(** [Update] (networkstatus.go 62-76) *)
Definition Update (w : World) (st : State) : State :=
  if network_UsingWirelessInterface w then
    showNetworkStatus (xlate_Get "Wireless connection") true st
  else
    let linkSpeedMbit := network_CurrentLinkSpeed w in
    if linkSpeedMbit =? 0 then
      showNetworkStatus (xlate_Get "No network connection") true st
    else if linkSpeedMbit <? 1000 then
      let statusText :=
        Sprintf (xlate_Get "Network speed is too low (%d Mbit/s)")
                linkSpeedMbit in
      showNetworkStatus statusText true st
    else showNetworkStatus (xlate_Get "OK") false st.

End package.
End networkstatus.

(** ** Package config (src/unnamed/part_000) *)

Module config.

(** [*ini.File], as far as the package uses it: the value of every key of
    every section.  Looking a section up creates it; an empty section has
    no influence on what the package reads. *)
Abbreviation File := (gmap (string * string) string).

(** [ini.Empty()] *)
Definition Empty : File := ∅.

(** [cfg.Section(section).HasKey(key)] *)
Definition HasKey (f : File) (section key : string) : bool :=
  match f !! (section, key) with
  | Some _ => true
  | None => false
  end.

(** [cfg.Section(section).Key(key)]: a key that is not there is created
    with the empty value. *)
Definition Key (f : File) (section key : string) : File :=
  match f !! (section, key) with
  | Some _ => f
  | None => <[(section, key) := EmptyString]> f
  end.

(** [key.SetValue(value)] *)
Definition SetValue (f : File) (section key value : string) : File :=
  <[(section, key) := value]> f.

(** The raw value of a key. *)
Definition raw (f : File) (section key : string) : string :=
  match f !! (section, key) with
  | Some v => v
  | None => EmptyString
  end.

(** [parseBool] of the ini library, behind [key.Bool()]. *)
Definition ini_parseBool (str : string) : option bool :=
  if existsb (String.eqb str)
       ["1"; "t"; "T"; "true"; "TRUE"; "True"; "YES"; "yes"; "Yes"; "y";
        "ON"; "on"; "On"]
  then Some true
  else if existsb (String.eqb str)
            ["0"; "f"; "F"; "false"; "FALSE"; "False"; "NO"; "no"; "No"; "n";
             "OFF"; "off"; "Off"]
  then Some false
  else None.

(** [strconv.ParseBool] and [strconv.FormatBool] *)
Definition ParseBool (str : string) : option bool :=
  if existsb (String.eqb str) ["1"; "t"; "T"; "TRUE"; "true"; "True"]
  then Some true
  else if existsb (String.eqb str) ["0"; "f"; "F"; "FALSE"; "false"; "False"]
  then Some false
  else None.

Definition FormatBool (b : bool) : string := if b then "true" else "false".

(** How a call ends: it returns, or it panics. *)
Inductive Result (A : Type) : Type :=
| Ok (a : A)
| Panic (message : string).

Arguments Ok {A} _.
Arguments Panic {A} _.

Record defaultValue : Type :=
  { section : string; key : string; value : string }.

(** [strconv.FormatInt(1, 10)] is "1", [strconv.FormatBool(false)] is
    "false". *)
Definition defaults : list defaultValue :=
  [ {| section := "common"; key := "iniVersion"; value := "1" |};
    {| section := "common"; key := "language"; value := "fi" |};
    {| section := "selfupdate"; key := "disabled";
       value := FormatBool false |} ].

(** The keys of the map [languages]. *)
Definition languages : list string := ["en"; "fi"; "sv"].

Definition inLanguages (value : string) : bool :=
  existsb (String.eqb value) languages.

(** [getDefault] (part_000 35-42) *)
Fixpoint getDefaultIn (ds : list defaultValue) (section_ key_ : string)
  : Result string :=
  match ds with
  | [] =>
      Panic ("Default for " +:+ section_ +:+ " / " +:+ key_
             +:+ " is not defined!")
  | d :: ds' =>
      if String.eqb (section d) section_ && String.eqb (key d) key_
      then Ok (value d)
      else getDefaultIn ds' section_ key_
  end.

Definition getDefault (section_ key_ : string) : Result string :=
  getDefaultIn defaults section_ key_.

Section package.

Context {World : Type}.

(** [ini.Load(name)]: the file, or [None] for an error;
    [cfg.SaveTo(name)]. *)
Variable ini_Load : string -> World -> option File.
Variable SaveTo : File -> string -> World -> option error * World.

(** [key.String()]: the raw value with its references to other keys
    filled in by the library. *)
Variable transformValue : File -> string -> string -> string.

(** The package variable [cfg], nil until [Load], and the world. *)
Record State : Type :=
  { cfg : option File;
    world : World }.

Definition M (A : Type) : Type := State -> Result (A * State).

Definition ret {A : Type} (a : A) : M A := fun s => Ok (a, s).

Definition bind {A B : Type} (m : M A) (f : A -> M B) : M B :=
  fun s =>
    match m s with
    | Ok (a, s') => f a s'
    | Panic message => Panic message
    end.

Definition panic {A : Type} (message : string) : M A :=
  fun _ => Panic message.

Local Notation "'let*' p ':=' m 'in' k" := (bind m (fun p => k))
  (at level 10, p pattern, m at level 100, k at level 200).
Local Notation "m ;;; k" := (bind m (fun _ => k))
  (at level 100, right associativity).

(** A method call on [cfg]: a nil pointer is dereferenced when [cfg] is
    nil. *)
Definition withCfg {A : Type} (f : File -> A * File) : M A :=
  fun s =>
    match cfg s with
    | None => Panic "invalid memory address or nil pointer dereference"
    | Some file =>
        let '(a, file') := f file in
        Ok (a, {| cfg := Some file'; world := world s |})
    end.

(** [setIfMissing] (part_000 13-17) *)
Definition setIfMissing (section_ key_ defaultValue_ : string) : M unit :=
  let* has := withCfg (fun f => (HasKey f section_ key_, f)) in
  if negb has then
    withCfg (fun f => (tt, SetValue (Key f section_ key_) section_ key_
                             defaultValue_))
  else ret tt.

(** [fillDefaults] (part_000 29-33) *)
Fixpoint fillDefaultsFrom (ds : list defaultValue) : M unit :=
  match ds with
  | [] => ret tt
  | d :: ds' =>
      setIfMissing (section d) (key d) (value d) ;;; fillDefaultsFrom ds'
  end.

Definition fillDefaults : M unit := fillDefaultsFrom defaults.

(** [save] (part_000 96-101): a failure is logged and forgotten. *)
Definition save : M unit :=
  fun s =>
    match cfg s with
    | None => Panic "invalid memory address or nil pointer dereference"
    | Some file =>
        let '(_, w) := SaveTo file "naksu.ini" (world s) in
        Ok (tt, {| cfg := Some file; world := w |})
    end.

(** [setValue] (part_000 66-69) *)
Definition setValue (section_ key_ value_ : string) : M unit :=
  withCfg (fun f => (tt, SetValue (Key f section_ key_) section_ key_ value_))
  ;;; save.

(** [getString] (part_000 62-64), with [getIniKey] (44-46) *)
Definition getString (section_ key_ : string) : M string :=
  withCfg (fun f =>
             let f := Key f section_ key_ in
             (transformValue f section_ (raw f section_ key_), f)).

(** [getBoolean] (part_000 48-60) *)
Definition getBoolean (section_ key_ : string) : M bool :=
  let* parsed :=
    withCfg (fun f =>
               let f := Key f section_ key_ in
               (ini_parseBool (transformValue f section_ (raw f section_ key_)),
                f)) in
  match parsed with
  | Some value_ => ret value_
  | None =>
      match getDefault section_ key_ with
      | Panic message => panic message
      | Ok defaultValue_ =>
          match ParseBool defaultValue_ with
          | None =>
              panic ("Default boolean parsing for " +:+ section_ +:+ " / "
                     +:+ key_ +:+ " (" +:+ defaultValue_
                     +:+ ") failed to parse to boolean!")
          | Some value_ =>
              setValue section_ key_ defaultValue_ ;;; ret value_
          end
      end
  end.

(** [Load] (part_000 72-81) *)
Definition Load : M unit :=
  fun s =>
    let loaded :=
      match ini_Load "naksu.ini" (world s) with
      | Some file => file
      | None => Empty
      end in
    (fillDefaults ;;; save) {| cfg := Some loaded; world := world s |}.

(** [validateStringChoice] (part_000 83-93): [choices] is not looked at,
    the value is checked against [languages]. *)
Definition validateStringChoice (section_ key_ : string)
  (choices : list string) : M string :=
  let* value_ := getString section_ key_ in
  if inLanguages value_ then ret value_
  else
    match getDefault section_ key_ with
    | Panic message => panic message
    | Ok defaultValue_ =>
        setValue section_ key_ defaultValue_ ;;; ret defaultValue_
    end.

(** [GetLanguage] (part_000 110-112) *)
Definition GetLanguage : M string :=
  validateStringChoice "common" "language" languages.

(** [SetLanguage] (part_000 115-122) *)
Definition SetLanguage (language : string) : M unit :=
  if inLanguages language then setValue "common" "language" language
  else
    match getDefault "common" "language" with
    | Panic message => panic message
    | Ok defaultValue_ => setValue "common" "language" defaultValue_
    end.

(** [IsSelfUpdateDisabled] (part_000 125-127) *)
Definition IsSelfUpdateDisabled : M bool :=
  getBoolean "selfupdate" "disabled".

(** [SetSelfUpdateDisabled] (part_000 130-132) *)
Definition SetSelfUpdateDisabled (isSelfUpdateDisabled : bool) : M unit :=
  setValue "selfupdate" "disabled" (FormatBool isSelfUpdateDisabled).

End package.

Arguments cfg {World} _.
Arguments world {World} _.

End config.

(** ** Package progress (dialog.go) *)

Module progress.

(** The widgets of the ui library the dialog is made of, each known by
    its handle: whether a window is on show, the value of a progress bar,
    the text of a label, and the windows whose [Show] waits for the main
    loop. *)
Record UI : Type :=
  { visible : gmap nat bool;
    barValue : gmap nat Z;
    labelText : gmap nat string;
    destroyed : list nat;
    queued : list nat;
    next : nat }.

(** [Dialog]: the pointers are handles, nil is [None]. *)
Record Dialog : Type :=
  { Window : option nat;
    Progress : option nat;
    Message : option nat;
    MessageString : string }.

(** How a call ends: it returns, or it panics on a nil pointer. *)
Inductive Result (A : Type) : Type :=
| Ok (a : A)
| Panic.

Arguments Ok {A} _.
Arguments Panic {A}.

(** [strconv.Itoa] *)
Definition Itoa (i : Z) : string :=
  if i <? 0 then "-" +:+ semver.FormatUint (Z.to_N (- i))
  else semver.FormatUint (Z.to_N i).

(** [window.Visible()] *)
Definition Visible (ui : UI) (window : nat) : bool :=
  match visible ui !! window with
  | Some v => v
  | None => false
  end.

(** [bar.SetValue(n)], [label.SetText(text)],
    [window.ControlBase.Destroy()] *)
Definition SetValue (bar : nat) (n : Z) (ui : UI) : UI :=
  {| visible := visible ui; barValue := <[bar := n]> (barValue ui);
     labelText := labelText ui; destroyed := destroyed ui;
     queued := queued ui; next := next ui |}.

Definition SetText (label : nat) (text : string) (ui : UI) : UI :=
  {| visible := visible ui; barValue := barValue ui;
     labelText := <[label := text]> (labelText ui);
     destroyed := destroyed ui; queued := queued ui; next := next ui |}.

Definition Destroy (window : nat) (ui : UI) : UI :=
  {| visible := delete window (visible ui); barValue := barValue ui;
     labelText := labelText ui; destroyed := window :: destroyed ui;
     queued := queued ui; next := next ui |}.

(** [ShowProgressDialog] (dialog.go 20-35): a window, a progress bar and a
    label with the message are made; the window is put on show when the
    main loop gets to the queued [Show], not before. *)
Definition ShowProgressDialog (message : string) (ui : UI) : Dialog * UI :=
  let progressWindow := next ui in
  let progressBar := S (next ui) in
  let status := S (S (next ui)) in
  ({| Window := Some progressWindow; Progress := Some progressBar;
      Message := Some status; MessageString := message |},
   {| visible := visible ui;
      barValue := barValue ui;
      labelText := <[status := message]> (labelText ui);
      destroyed := destroyed ui;
      queued := queued ui ++ [progressWindow];
      next := S (S (S (next ui))) |}).

(** [UpdateProgressDialog] (dialog.go 43-53).  [dialog] is the callee's
    copy of the struct: the assignment to [dialog.MessageString] ends with
    the call. *)
Definition UpdateProgressDialog (dialog : Dialog) (progress : Z)
  (message : option string) (ui : UI) : Result UI :=
  match Window dialog with
  | Some window =>
      if Visible ui window then
        match Progress dialog, Message dialog with
        | Some bar, Some label =>
            let ui := SetValue bar progress ui in
            match message with
            | Some m =>
                Ok (SetText label (m +:+ " (" +:+ Itoa progress +:+ "%)") ui)
            | None =>
                Ok (SetText label
                      (MessageString dialog +:+ " (" +:+ Itoa progress
                       +:+ "%)") ui)
            end
        | _, _ => Panic
        end
      else Ok ui
  | None => Ok ui
  end.

(** [CloseProgressDialog] (dialog.go 68-72) *)
Definition CloseProgressDialog (dialog : Dialog) (ui : UI) : UI :=
  match Window dialog with
  | Some window => if Visible ui window then Destroy window ui else ui
  | None => ui
  end.

Section package.

(** [xlate.Get(message)] *)
Variable xlate_Get : string -> string.

(** [TranslateAndUpdateProgressDialog] (dialog.go 56-59): [*message] is
    read before anything else. *)
Definition TranslateAndUpdateProgressDialog (dialog : Dialog) (progress : Z)
  (message : option string) (ui : UI) : Result UI :=
  match message with
  | None => Panic
  | Some m =>
      let translatedMessage := xlate_Get m in
      UpdateProgressDialog dialog progress (Some translatedMessage) ui
  end.

(** [TranslateAndUpdateProgressDialogWithMessage] (dialog.go 62-65) *)
Definition TranslateAndUpdateProgressDialogWithMessage (dialog : Dialog)
  (progress : Z) (message : string) (ui : UI) : Result UI :=
  let translatedMessage := xlate_Get message in
  UpdateProgressDialog dialog progress (Some translatedMessage) ui.

End package.
End progress.

(** ** A scripted world, for running the package on concrete inputs

    The process runner answers from a list of prepared replies, the
    remediator from a list of prepared verdicts; every process start takes
    one second. *)

Module script.

Record World : Type :=
  { clock : Z;
    replies : list (string * option error);
    verdicts : list (bool * option error) }.

Definition Now (w : World) : Z := clock w.

Definition Sleep (d : Z) (w : World) : World :=
  {| clock := clock w + d; replies := replies w; verdicts := verdicts w |}.

Definition getVBoxManagePath (_ : World) : string := "VBoxManage".

Definition RunAndGetOutput (_ : list string) (_ : bool) (w : World)
  : (string * option error) * World :=
  match replies w with
  | r :: rs =>
      (r, {| clock := clock w + 1000000000; replies := rs;
             verdicts := verdicts w |})
  | [] => ((EmptyString, Some (errors_New "exit status 1")), w)
  end.

Definition RunVBoxManage (args : list string) (w : World)
  : (string * option error) * World :=
  RunAndGetOutput args true w.

Definition detectAndFixDuplicateHardDiskProblem (_ : string) (w : World)
  : (bool * option error) * World :=
  match verdicts w with
  | v :: vs =>
      (v, {| clock := clock w; replies := replies w; verdicts := vs |})
  | [] => ((false, None), w)
  end.

(** Ten minutes and two seconds. *)
Definition VBoxManageCacheTimeout : Z := 600 * 1000000000.
Definition VBoxRunningCacheTimeout : Z := 2 * 1000000000.

(** The package at start-up in a world with the given script. *)
Definition start (rs : list (string * option error))
  (vs : list (bool * option error)) : State World :=
  {| vBoxResponseCache := memory_cache.New;
     vBoxManageStarted := 0;
     calls := [];
     world := {| clock := 1700000000 * 1000000000;
                 replies := rs; verdicts := vs |} |}.

(** Prepared scenarios. *)
Definition exitStatus1 : error := errors_New "exit status 1".

Definition showvminfo : list string :=
  ["showvminfo"; "--machinereadable"; "NaksuAbittiKTP"].

Definition guestproperty : list string :=
  ["guestproperty"; "get"; "NaksuAbittiKTP"; "mode"].

Definition duplicateDiskOutput : string :=
  "VBoxManage: error: Cannot register the hard disk '/vm/old/box.vmdk' {0a1b} because a hard disk '/vm/new/box.vmdk' with UUID {0a1b} already exists".

Definition notInstalledOutput : string :=
  "VBoxManage: error: Could not find a registered machine named 'NaksuAbittiKTP'".

(** The duplicate-disk failure is repaired, the retry fails all the same. *)
Definition retryFails : State World :=
  start [(duplicateDiskOutput, Some exitStatus1);
         ("VBoxManage: error: The machine is locked", Some (errors_New "exit status 2"))]
        [(true, None)].

(** The duplicate-disk failure is seen but cannot be repaired. *)
Definition remediationFails : State World :=
  start [(duplicateDiskOutput, Some exitStatus1)]
        [(false, Some (errors_New "could not parse the disk path"))].

(** The next process fails for a reason the remediator does not know. *)
Definition processFails : State World :=
  start [("VBoxManage: error: E_ACCESSDENIED", Some exitStatus1)] [].

(** The next process succeeds with the given output. *)
Definition prints (output : string) : State World :=
  start [(output, None)] [].

(** What showvminfo prints for a running VM, in part. *)
Definition runningOutput : string :=
  "name=" +:+ String DQ ("NaksuAbittiKTP" +:+ String DQ (String LF
  ("VMState=" +:+ String DQ ("running" +:+ String DQ (String LF
  ("VMStateChangeTime=" +:+ String DQ ("2021-03-01T10:00:00" +:+
   String DQ (String LF EmptyString)))))))).

(** The VM is not registered: the process fails with the diagnostic. *)
Definition notInstalled : State World :=
  start [(notInstalledOutput, Some exitStatus1)] [].

Definition runVBoxManage :=
  vboxmanage.runVBoxManage getVBoxManagePath RunAndGetOutput
    detectAndFixDuplicateHardDiskProblem.

Definition RunCommand :=
  vboxmanage.RunCommand Now Sleep getVBoxManagePath RunAndGetOutput
    detectAndFixDuplicateHardDiskProblem.

Definition GetVMInfoByRegexp :=
  vboxmanage.GetVMInfoByRegexp Now Sleep getVBoxManagePath RunAndGetOutput
    detectAndFixDuplicateHardDiskProblem VBoxManageCacheTimeout.

Definition GetVBoxManageVersion :=
  vboxmanage.GetVBoxManageVersion Now Sleep getVBoxManagePath RunAndGetOutput
    detectAndFixDuplicateHardDiskProblem VBoxManageCacheTimeout.

Definition GetVMProperty :=
  vboxmanage.GetVMProperty Now Sleep getVBoxManagePath RunAndGetOutput
    detectAndFixDuplicateHardDiskProblem VBoxManageCacheTimeout.

Definition getVMState :=
  vboxmanage.getVMState Now Sleep getVBoxManagePath RunAndGetOutput
    detectAndFixDuplicateHardDiskProblem VBoxRunningCacheTimeout.

Definition IsVMRunning :=
  vboxmanage.IsVMRunning Now Sleep getVBoxManagePath RunAndGetOutput
    detectAndFixDuplicateHardDiskProblem VBoxRunningCacheTimeout.

Definition IsVMInstalled :=
  vboxmanage.IsVMInstalled Now Sleep getVBoxManagePath RunAndGetOutput
    detectAndFixDuplicateHardDiskProblem.

Definition GetBoxProperty :=
  vboxmanage_old.GetBoxProperty Now Sleep RunVBoxManage VBoxManageCacheTimeout.

Definition runCommand :=
  vboxmanage.runCommand Now Sleep getVBoxManagePath RunAndGetOutput
    detectAndFixDuplicateHardDiskProblem.

Definition IsInstalled :=
  vboxmanage.IsInstalled Now Sleep getVBoxManagePath RunAndGetOutput
    detectAndFixDuplicateHardDiskProblem.

(** A caller that never came back left the flag set; the next process
    succeeds with the given output. *)
Definition staleFlag (output : string) : State World :=
  {| vBoxResponseCache := memory_cache.New;
     vBoxManageStarted := 1699999000;
     calls := [];
     world := {| clock := 1700000000 * 1000000000;
                 replies := [(output, None)]; verdicts := [] |} |}.

(** What the guest property mode holds, and what VBoxManage prints when a
    property is not set. *)
Definition valueOutput : string := "Value: exam" +:+ String LF EmptyString.
Definition noValueOutput : string := "No value set!" +:+ String LF EmptyString.

(** What [--version] prints. *)
Definition versionOutput : string := "6.1.26r145957" +:+ String LF EmptyString.

(** Free bytes of the directories of this host; one of them is gone. *)
Definition GetDiskFree (path : string) : N + error :=
  if String.eqb path "/home/abitti/ktp" then inl 52428800000%N
  else if String.eqb path "/home/abitti/VirtualBox VMs" then inl 1048576%N
  else inr (errors_New "no such file or directory").

End script.

(** ** Files, a configuration and widgets, for running the other packages
    on concrete inputs *)

Module fixtures.

(** An open file is known by its path.  The image is a regular file and
    latest.zip a symbolic link to it; on the memory stick, synchronising
    fails and so does closing. *)
Definition image : string := "/home/abitti/ktp/naksu_last_image.zip".
Definition link : string := "/home/abitti/ktp/latest.zip".
Definition backup : string := "/media/usb/naksu_last_image.zip".

Definition os_Lstat (path : string) (_ : unit) : Z + error :=
  if String.eqb path image then inl 420
  else if String.eqb path link then inl (Z.lor mebroutines.ModeSymlink 511)
  else inr (errors_New "no such file or directory").

Definition os_Open (path : string) (w : unit) : (string + error) * unit :=
  (inl path, w).

Definition os_Create (path : string) (w : unit) : (string + error) * unit :=
  (inl path, w).

Definition io_Copy (dst src : string) (w : unit) : option error * unit :=
  (None, w).

Definition Sync (f : string) (w : unit) : option error * unit :=
  if String.eqb f backup then (Some (errors_New "input/output error"), w)
  else (None, w).

Definition file_Close (f : string) (w : unit) : option error * unit :=
  if String.eqb f backup then (Some (errors_New "disk quota exceeded"), w)
  else (None, w).

Definition CopyFile :=
  mebroutines.CopyFile os_Lstat os_Open os_Create io_Copy Sync file_Close.

(** The configuration file is what was written last; nothing is written
    yet.  Values are taken as they stand. *)
Definition ini_Load (name : string) (w : list config.File)
  : option config.File :=
  head w.

Definition SaveTo (f : config.File) (name : string) (w : list config.File)
  : option error * list config.File :=
  (None, f :: w).

Definition transformValue (f : config.File) (section_ value_ : string)
  : string :=
  value_.

Definition swedish : config.File := {[ ("common", "language") := "sv" ]}.

Definition SetLanguage := config.SetLanguage SaveTo.
Definition GetLanguage := config.GetLanguage SaveTo transformValue.
Definition SetSelfUpdateDisabled := config.SetSelfUpdateDisabled SaveTo.
Definition IsSelfUpdateDisabled :=
  config.IsSelfUpdateDisabled SaveTo transformValue.

(** No widgets yet; and the dialog of a download once the main loop has put
    its window on show. *)
Definition noWidgets : progress.UI :=
  {| progress.visible := ∅; progress.barValue := ∅; progress.labelText := ∅;
     progress.destroyed := []; progress.queued := []; progress.next := O |}.

Definition downloading : progress.Dialog :=
  fst (progress.ShowProgressDialog "Downloading" noWidgets).

Definition onShow : progress.UI :=
  let ui := snd (progress.ShowProgressDialog "Downloading" noWidgets) in
  {| progress.visible := <[O := true]> (progress.visible ui);
     progress.barValue := progress.barValue ui;
     progress.labelText := progress.labelText ui;
     progress.destroyed := progress.destroyed ui;
     progress.queued := [];
     progress.next := progress.next ui |}.

End fixtures.

(** ** Runs of one character class

    What the repetition of a class amounts to: it takes the longest run of
    characters of the class and gives back one character at a time until
    the rest of the pattern matches. *)

Module runs.

(** The text does not go on with a character of the class. *)
Definition stopsAt (cls : ascii -> bool) (s : string) : bool :=
  match s with
  | String c _ => negb (cls c)
  | EmptyString => true
  end.

(** Every character of the text is of the class. *)
Fixpoint allOf (cls : ascii -> bool) (s : string) : bool :=
  match s with
  | EmptyString => true
  | String c s' => cls c && allOf cls s'
  end.

(** The last character of [w], or [before] when [w] is empty. *)
Fixpoint lastOr (before : option ascii) (w : string) : option ascii :=
  match w with
  | EmptyString => before
  | String c w' => lastOr (Some c) w'
  end.

(** Try the continuation after all of [l] first, then after ever shorter
    beginnings of it. *)
Fixpoint greedy (k : regexp.Cont) (pos : nat) (before : option ascii)
  (l rest : string) (caps : regexp.Caps) : option (nat * regexp.Caps) :=
  match l with
  | EmptyString => k pos before rest caps
  | String c l' =>
      match greedy k (S pos) (Some c) l' rest caps with
      | Some m => Some m
      | None => k pos before (String c l' +:+ rest) caps
      end
  end.

(** Any character but the double quote. *)
Definition notDQ (c : ascii) : bool := negb (Ascii.eqb DQ c).

End runs.

(** ** Decimal numerals and plain versions *)

Module numerals.

(** The value of a decimal numeral, read from the most significant digit
    on, [acc] being the value of the digits read so far. *)
Fixpoint uintValue (acc : N) (d : Decimal.uint) : N :=
  match d with
  | Decimal.Nil => acc
  | Decimal.D0 d => uintValue (10 * acc + 0) d
  | Decimal.D1 d => uintValue (10 * acc + 1) d
  | Decimal.D2 d => uintValue (10 * acc + 2) d
  | Decimal.D3 d => uintValue (10 * acc + 3) d
  | Decimal.D4 d => uintValue (10 * acc + 4) d
  | Decimal.D5 d => uintValue (10 * acc + 5) d
  | Decimal.D6 d => uintValue (10 * acc + 6) d
  | Decimal.D7 d => uintValue (10 * acc + 7) d
  | Decimal.D8 d => uintValue (10 * acc + 8) d
  | Decimal.D9 d => uintValue (10 * acc + 9) d
  end%N.

(** The version major.minor.patch, without pre-release and build parts. *)
Definition numeric (major minor patch : N) : semver.Version :=
  {| semver.Major := major; semver.Minor := minor; semver.Patch := patch;
     semver.Pre := []; semver.Build := [] |}.

(** The text of that version. *)
Definition triple (major minor patch : N) : string :=
  semver.FormatUint major +:+ "." +:+ semver.FormatUint minor +:+ "."
  +:+ semver.FormatUint patch.

End numerals.

(** * Properties *)

(** ** Matching against the empty text *)

Module regexp_facts.
Import regexp.

Lemma substring_of_empty (n m : nat) :
  String.substring n m EmptyString = EmptyString.
Proof. destruct n, m; reflexivity. Qed.

Lemma getCap_allEmpty (i : nat) (caps : Caps) :
  allEmpty caps -> getCap i caps = EmptyString.
Proof.
  induction 1 as [|[j v] caps Hv _ IH]; cbn; [reflexivity|].
  cbn in Hv. subst v. destruct (Nat.eqb i j); [reflexivity | exact IH].
Qed.

(** On the empty text nothing can be consumed, so whatever a pattern
    captures is empty. *)
Lemma run_on_empty (r : Regexp) :
  forall (pos : nat) (before : option ascii) (caps : Caps) (k : Cont),
    allEmpty caps ->
    (forall pos' before' caps',
        allEmpty caps' -> resEmpty (k pos' before' EmptyString caps')) ->
    resEmpty (run r pos before EmptyString caps k).
Proof.
  induction r as [|class|r1 IH1 r2 IH2|r1 IH1 r2 IH2|r1 IH1|r1 IH1|i r1 IH1|cond];
    intros pos before caps k Hcaps Hk; cbn.
  - apply Hk, Hcaps.
  - exact I.
  - apply IH1; [exact Hcaps|]. intros pos' before' caps' Hcaps'.
    apply IH2; assumption.
  - specialize (IH1 pos before caps k Hcaps Hk).
    destruct (run r1 pos before EmptyString caps k) as [[p c]|]; [exact IH1|].
    apply IH2; assumption.
  - apply Hk, Hcaps.
  - apply Hk, Hcaps.
  - apply IH1; [exact Hcaps|]. intros pos' before' caps' Hcaps'.
    apply Hk. constructor; [|exact Hcaps'].
    cbn. destruct (pos' - pos)%nat; reflexivity.
  - destruct (cond before None); [apply Hk, Hcaps | exact I].
Qed.

Lemma FindStringSubmatch_on_empty (r : Regexp) (result : list string) :
  FindStringSubmatch r EmptyString = Some result ->
  Forall (fun g => g = EmptyString) result.
Proof.
  unfold FindStringSubmatch. cbn [search].
  pose proof (run_on_empty r O None []
                (fun pos1 _ _ caps1 => Some (pos1, caps1))
                (List.Forall_nil _) (fun _ _ _ H => H)) as Hrun.
  destruct (run r O None EmptyString [] _) as [[pos1 caps1]|]; [|discriminate].
  cbn in Hrun. intros [= <-]. constructor.
  - destruct (pos1 - 0)%nat; reflexivity.
  - apply List.Forall_forall. intros g Hg. apply List.in_map_iff in Hg.
    destruct Hg as (i & <- & _). apply getCap_allEmpty, Hrun.
Qed.

Lemma firstGroup_on_empty (r : Regexp) :
  firstGroup (FindStringSubmatch r EmptyString) = None
  \/ firstGroup (FindStringSubmatch r EmptyString) = Some EmptyString.
Proof.
  destruct (FindStringSubmatch r EmptyString) as [result|] eqn:E;
    [|left; reflexivity].
  apply FindStringSubmatch_on_empty in E.
  destruct result as [|whole [|g1 rest]]; cbn; auto.
  inversion E as [|? ? _ E']. inversion E' as [|? ? -> _]. auto.
Qed.

(** *** Where a match starts

    A pattern sees the character before it and the text after it, not how
    much text lies before it. *)

Lemma run_shift (r : Regexp) :
  forall (d pos : nat) (before : option ascii) (s : string) (caps : Caps)
         (k k' : Cont),
    (forall p b s' c,
        k (d + p)%nat b s' c = option_map (shift d) (k' p b s' c)) ->
    run r (d + pos) before s caps k
    = option_map (shift d) (run r pos before s caps k').
Proof.
  induction r as [|class|r1 IH1 r2 IH2|r1 IH1 r2 IH2|r1 IH1|r1 IH1|i r1 IH1|cond];
    intros d pos before s caps k k' Hk; cbn [run].
  - apply Hk.
  - destruct s as [|c s']; [reflexivity|].
    destruct (class c); [|reflexivity].
    rewrite <- Nat.add_succ_r. apply Hk.
  - apply IH1. intros p b s' c. apply IH2; assumption.
  - rewrite (IH1 d pos before s caps k k' Hk).
    destruct (run r1 pos before s caps k') as [m|]; [reflexivity|].
    apply IH2; assumption.
  - generalize (String.length s) as n. intros n. revert pos before s caps.
    induction n as [|n IHn]; intros pos before s caps; [apply Hk|].
    rewrite (IH1 d pos before s caps _
               (fun pos1 before1 s1 caps1 =>
                  if Nat.ltb pos pos1
                  then (fix loop (n : nat) (pos : nat) (before : option ascii)
                          (s : string) (caps : Caps) : option (nat * Caps) :=
                          match n with
                          | O => k' pos before s caps
                          | S n' =>
                              match run r1 pos before s caps
                                      (fun pos1 before1 s1 caps1 =>
                                         if Nat.ltb pos pos1
                                         then loop n' pos1 before1 s1 caps1
                                         else None) with
                              | Some m => Some m
                              | None => k' pos before s caps
                              end
                          end) n pos1 before1 s1 caps1
                  else None)).
    + destruct (run r1 pos before s caps _) as [m|]; [reflexivity|]. apply Hk.
    + intros p b s' c.
      replace (Nat.ltb (d + pos) (d + p)) with (Nat.ltb pos p).
      * destruct (Nat.ltb pos p); [apply IHn | reflexivity].
      * destruct (Nat.ltb_spec pos p), (Nat.ltb_spec (d + pos) (d + p));
          (reflexivity || lia).
  - generalize (String.length s) as n. intros n. revert pos before s caps.
    induction n as [|n IHn]; intros pos before s caps; [apply Hk|].
    rewrite Hk. destruct (k' pos before s caps) as [m|]; [reflexivity|].
    cbn [option_map].
    apply IH1. intros p b s' c.
    replace (Nat.ltb (d + pos) (d + p)) with (Nat.ltb pos p).
    + destruct (Nat.ltb pos p); [apply IHn | reflexivity].
    + destruct (Nat.ltb_spec pos p), (Nat.ltb_spec (d + pos) (d + p));
        (reflexivity || lia).
  - apply IH1. intros p b s' c.
    replace (d + p - (d + pos))%nat with (p - pos)%nat by lia. apply Hk.
  - destruct (cond before (peek s)); [apply Hk | reflexivity].
Qed.

Lemma search_shift (r : Regexp) :
  forall (s : string) (d : nat) (before : option ascii),
    search r d before s = search r O before s.
Proof.
  induction s as [|c s IH]; intros d before; cbn [search].
  - rewrite <- (Nat.add_0_r d) at 1.
    rewrite (run_shift r d O before EmptyString [] _
               (fun pos1 _ _ caps1 => Some (pos1, caps1)))
      by (intros; reflexivity).
    destruct (run r O before EmptyString [] _) as [[p c]|]; [|reflexivity].
    cbn. destruct (d + p - d)%nat, (p - 0)%nat; reflexivity.
  - rewrite <- (Nat.add_0_r d) at 1.
    rewrite (run_shift r d O before (String c s) [] _
               (fun pos1 _ _ caps1 => Some (pos1, caps1)))
      by (intros; reflexivity).
    destruct (run r O before (String c s) [] _) as [[p caps]|].
    + cbn [option_map shift fst snd].
      replace (d + p - d)%nat with (p - 0)%nat by lia. reflexivity.
    + cbn [option_map]. rewrite (IH (S d)), (IH 1%nat). reflexivity.
Qed.

(** A pattern that begins with a literal fails where the text does not
    begin with it. *)
Lemma run_Lit_no_prefix (l : string) :
  forall (pos : nat) (before : option ascii) (s : string) (caps : Caps)
         (k : Cont),
    strings.HasPrefix s l = false -> run (Lit l) pos before s caps k = None.
Proof.
  induction l as [|p l IH]; intros pos before s caps k H.
  - destruct s; discriminate H.
  - destruct s as [|c s']; [reflexivity|]. cbn in H |- *.
    rewrite (Ascii.eqb_sym p c).
    destruct (Ascii.eqb c p); [apply IH, H | reflexivity].
Qed.

(** A pattern that begins with a character does not look at what comes
    before it. *)
Lemma search_literal_first (a : ascii) (l : string) (r : Regexp) (x : string)
  (pos : nat) (before before' : option ascii) :
  search (Cat (Lit (String a l)) r) pos before x
  = search (Cat (Lit (String a l)) r) pos before' x.
Proof. destruct x; reflexivity. Qed.

(** The text before the first occurrence of the literal is skipped: when
    [pre] has no occurrence of [l], and none begins in [pre] and ends in
    [x], the search in [pre ++ x] finds what the search in [x] finds. *)
Lemma search_skips_prefix (a : ascii) (l : string) (r : Regexp) (x : string) :
  (forall c p, strings.HasPrefix (String c p) (String a l) = false ->
               strings.HasPrefix (String c p +:+ x) (String a l) = false) ->
  forall (pre : string) (before : option ascii),
    strings.Contains pre (String a l) = false ->
    search (Cat (Lit (String a l)) r) O before (pre +:+ x)
    = search (Cat (Lit (String a l)) r) O None x.
Proof.
  intros Hstraddle. induction pre as [|c pre IH]; intros before Hpre.
  - apply search_literal_first.
  - cbn [strings.Contains] in Hpre.
    apply orb_false_elim in Hpre as [Hhere Hlater].
    change (String c pre +:+ x) with (String c (pre +:+ x)).
    cbn [search]. cbn [run].
    rewrite run_Lit_no_prefix by (apply (Hstraddle c pre Hhere)).
    rewrite search_shift. apply IH, Hlater.
Qed.

End regexp_facts.

Section properties.

Context {World : Type}.
Variable Now : World -> Z.
Variable Sleep : Z -> World -> World.
Variable getVBoxManagePath : World -> string.
Variable RunAndGetOutput :
  list string -> bool -> World -> (string * option error) * World.
Variable detectAndFixDuplicateHardDiskProblem :
  string -> World -> (bool * option error) * World.
Variable RunVBoxManage :
  list string -> World -> (string * option error) * World.
Variable VBoxManageCacheTimeout : Z.
Variable VBoxRunningCacheTimeout : Z.

Local Abbreviation CallRunVBoxManage :=
  (vboxmanage_old.CallRunVBoxManage Now Sleep RunVBoxManage).
Local Abbreviation GetBoxProperty :=
  (vboxmanage_old.GetBoxProperty Now Sleep RunVBoxManage
     VBoxManageCacheTimeout).
Local Abbreviation runVBoxManage :=
  (vboxmanage.runVBoxManage getVBoxManagePath RunAndGetOutput
     detectAndFixDuplicateHardDiskProblem).
Local Abbreviation runCommand :=
  (vboxmanage.runCommand Now Sleep getVBoxManagePath RunAndGetOutput
     detectAndFixDuplicateHardDiskProblem).
Local Abbreviation RunCommand :=
  (vboxmanage.RunCommand Now Sleep getVBoxManagePath RunAndGetOutput
     detectAndFixDuplicateHardDiskProblem).
Local Abbreviation RunCommandWithoutLogging :=
  (vboxmanage.RunCommandWithoutLogging Now Sleep getVBoxManagePath
     RunAndGetOutput detectAndFixDuplicateHardDiskProblem).
Local Abbreviation getVMInfo :=
  (vboxmanage.getVMInfo Now Sleep getVBoxManagePath RunAndGetOutput
     detectAndFixDuplicateHardDiskProblem VBoxManageCacheTimeout).
Local Abbreviation GetVMInfoByRegexp :=
  (vboxmanage.GetVMInfoByRegexp Now Sleep getVBoxManagePath RunAndGetOutput
     detectAndFixDuplicateHardDiskProblem VBoxManageCacheTimeout).
Local Abbreviation GetVBoxManageVersion :=
  (vboxmanage.GetVBoxManageVersion Now Sleep getVBoxManagePath
     RunAndGetOutput detectAndFixDuplicateHardDiskProblem
     VBoxManageCacheTimeout).
Local Abbreviation GetVMProperty :=
  (vboxmanage.GetVMProperty Now Sleep getVBoxManagePath RunAndGetOutput
     detectAndFixDuplicateHardDiskProblem VBoxManageCacheTimeout).
Local Abbreviation getVMState :=
  (vboxmanage.getVMState Now Sleep getVBoxManagePath RunAndGetOutput
     detectAndFixDuplicateHardDiskProblem VBoxRunningCacheTimeout).
Local Abbreviation IsVMRunning :=
  (vboxmanage.IsVMRunning Now Sleep getVBoxManagePath RunAndGetOutput
     detectAndFixDuplicateHardDiskProblem VBoxRunningCacheTimeout).
Local Abbreviation IsVMInstalled :=
  (vboxmanage.IsVMInstalled Now Sleep getVBoxManagePath RunAndGetOutput
     detectAndFixDuplicateHardDiskProblem).

(** ** runVBoxManage: remediation and the single retry *)

(** C1: when the first invocation fails and the remediator reports
    fixed=true, the command line is started again exactly once and what
    that second start returns, output and error alike, is what the caller
    gets, with no second look by the remediator; when the remediator
    reports fixed=false the command is not started again. *)
Theorem runVBoxManage_retries_exactly_once
  (args : list string) (logOutput : bool) (s : State World)
  (out1 : string) (e1 : error) (w1 : World)
  (fixed : bool) (fixErr : option error) (w2 : World) :
  let runArgs := getVBoxManagePath (world s) :: args in
  RunAndGetOutput runArgs logOutput (world s) = ((out1, Some e1), w1) ->
  detectAndFixDuplicateHardDiskProblem out1 w1 = ((fixed, fixErr), w2) ->
  (fixed = true ->
     forall (retry : string * option error) (w3 : World),
       RunAndGetOutput runArgs logOutput w2 = (retry, w3) ->
       runVBoxManage args logOutput s =
         (retry,
          after s (calls s ++ [Exec runArgs; Remediate out1; Exec runArgs]) w3))
  /\
  (fixed = false ->
     snd (runVBoxManage args logOutput s) =
       after s (calls s ++ [Exec runArgs; Remediate out1]) w2).
Proof.
  intros runArgs Hrun Hfix.
  unfold vboxmanage.runVBoxManage, bind, vboxmanage.vboxmanagepath,
    vboxmanage.execProcess, vboxmanage.remediate, ret, after.
  cbn [world calls vBoxResponseCache vBoxManageStarted app].
  fold runArgs. rewrite Hrun. cbn [world calls]. rewrite Hfix.
  split.
  - intros -> retry w3 Hretry. cbn [negb andb].
    cbn [world calls vBoxResponseCache vBoxManageStarted].
    rewrite Hretry. rewrite <- !app_assoc. reflexivity.
  - intros ->. cbn [negb andb]. rewrite <- !app_assoc.
    destruct (bool_decide (fixErr <> None)); reflexivity.
Qed.

(** C2, as the code has it: when the first invocation fails and the
    remediator answers fixed=false with an error of its own, the caller
    gets an empty output and a new error made of the command line and the
    error of the invocation; the remediator's error is not part of it, and
    the command is not started again. *)
Theorem runVBoxManage_failed_remediation_reports_invocation_error
  (args : list string) (logOutput : bool) (s : State World)
  (out1 : string) (e1 : error) (w1 : World) (fixErr : error) (w2 : World) :
  let runArgs := getVBoxManagePath (world s) :: args in
  RunAndGetOutput runArgs logOutput (world s) = ((out1, Some e1), w1) ->
  detectAndFixDuplicateHardDiskProblem out1 w1 = ((false, Some fixErr), w2) ->
  runVBoxManage args logOutput s =
    ((EmptyString,
      Some (Errorf2 "failed to execute " (strings.Join runArgs " ") ": "
                    (Error e1) EmptyString)),
     after s (calls s ++ [Exec runArgs; Remediate out1]) w2).
Proof.
  intros runArgs Hrun Hfix.
  unfold vboxmanage.runVBoxManage, bind, vboxmanage.vboxmanagepath,
    vboxmanage.execProcess, vboxmanage.remediate, ret, after.
  cbn [world calls vBoxResponseCache vBoxManageStarted app].
  fold runArgs. rewrite Hrun. cbn [world calls]. rewrite Hfix.
  cbn [negb andb]. rewrite bool_decide_true by discriminate.
  rewrite <- !app_assoc. reflexivity.
Qed.

(** ** What one command leaves behind *)


Local Arguments vboxmanage.waitForVBoxManage : simpl never.



(** ** IsVMInstalled *)

(** C5, as the code has it: the diagnostic is looked for only when the
    invocation failed.  A failed invocation whose output contains it gives
    (false, nil); any other failure is handed back as it is, with false; a
    successful invocation gives (true, nil) whatever it printed. *)
Theorem IsVMInstalled_by_cases
  (vmName : string) (s : State World)
  (rawVMInfo : string) (err : option error) (s1 : State World) :
  RunCommandWithoutLogging ["showvminfo"; "--machinereadable"; vmName] s =
    ((rawVMInfo, err), s1) ->
  IsVMInstalled vmName s =
    (match err with
     | Some e =>
         if strings.Contains rawVMInfo vBoxManageOutputNoVMInstalled
         then (false, None)
         else (false, Some e)
     | None => (true, None)
     end, s1).
Proof.
  intros Hrun. unfold vboxmanage.IsVMInstalled, bind. rewrite Hrun.
  destruct err as [e|]; [|reflexivity].
  destruct (strings.Contains rawVMInfo vBoxManageOutputNoVMInstalled);
    reflexivity.
Qed.

(** ** Failures that are cached *)

(** C9: when the showvminfo invocation fails on a miss, the empty string
    goes into the cache under the key showvminfo, and for as long as that
    entry has not expired GetVMInfoByRegexp answers the empty string for
    every VM name and every pattern and leaves the state as it found it:
    no process is started. *)
Theorem getVMInfo_failure_is_served_to_every_pattern
  (vmName : string) (s : State World)
  (out : string) (e : error) (s1 : State World) :
  memory_cache.Get (vBoxResponseCache s) (Now (world s)) "showvminfo" = None ->
  RunCommandWithoutLogging ["showvminfo"; "--machinereadable"; vmName] s =
    ((out, Some e), s1) ->
  let expiry := Now (world s1) + VBoxManageCacheTimeout in
  let s2 := snd (getVMInfo vmName s) in
  fst (getVMInfo vmName s) = EmptyString
  /\ vBoxResponseCache s2 !! "showvminfo" =
       Some {| memory_cache.value := EmptyString;
               memory_cache.expiresAt := expiry |}
  /\ forall (s3 : State World) (vmName' : string) (vmRegexp : regexp.Regexp),
       vBoxResponseCache s3 !! "showvminfo" =
         vBoxResponseCache s2 !! "showvminfo" ->
       Now (world s3) < expiry ->
       GetVMInfoByRegexp vmName' vmRegexp s3 = (EmptyString, s3).
Proof.
  intros Hmiss Hrun expiry s2.
  assert (Hs2 : getVMInfo vmName s =
            (EmptyString,
             snd (vboxmanage.cacheSet Now "showvminfo" EmptyString
                    VBoxManageCacheTimeout s1))).
  { unfold vboxmanage.getVMInfo, bind, vboxmanage.cacheGet.
    rewrite Hmiss, Hrun. reflexivity. }
  assert (Hentry : vBoxResponseCache s2 !! "showvminfo" =
            Some {| memory_cache.value := EmptyString;
                    memory_cache.expiresAt := expiry |}).
  { subst s2. rewrite Hs2. cbn. unfold memory_cache.Set_.
    apply lookup_insert_eq. }
  split; [rewrite Hs2; reflexivity|]. split; [exact Hentry|].
  intros s3 vmName' vmRegexp Hsame Hfresh.
  unfold vboxmanage.GetVMInfoByRegexp, vboxmanage.getVMInfo, bind,
    vboxmanage.cacheGet, memory_cache.Get.
  rewrite Hsame, Hentry. cbn [memory_cache.expiresAt memory_cache.value].
  apply Z.ltb_lt in Hfresh. rewrite Hfresh. unfold ret.
  destruct (regexp_facts.firstGroup_on_empty vmRegexp) as [-> | ->];
    reflexivity.
Qed.

(** C7: when the guestproperty invocation fails on a miss, GetVMProperty
    answers the empty string (it has no error to return), the empty string
    goes into the cache under the property name, and for as long as that
    entry has not expired a further call answers the empty string and
    leaves the state as it found it: no process is started. *)
Theorem GetVMProperty_failure_is_cached
  (vmName property : string) (s : State World)
  (out : string) (e : error) (s1 : State World) :
  memory_cache.Get (vBoxResponseCache s) (Now (world s)) property = None ->
  RunCommand ["guestproperty"; "get"; vmName; property] s =
    ((out, Some e), s1) ->
  let expiry := Now (world s1) + VBoxManageCacheTimeout in
  let s2 := snd (GetVMProperty vmName property s) in
  fst (GetVMProperty vmName property s) = EmptyString
  /\ vBoxResponseCache s2 !! property =
       Some {| memory_cache.value := EmptyString;
               memory_cache.expiresAt := expiry |}
  /\ forall (s3 : State World) (vmName' : string),
       vBoxResponseCache s3 !! property = vBoxResponseCache s2 !! property ->
       Now (world s3) < expiry ->
       GetVMProperty vmName' property s3 = (EmptyString, s3).
Proof.
  intros Hmiss Hrun expiry s2.
  assert (Hs2 : GetVMProperty vmName property s =
            (EmptyString,
             snd (vboxmanage.cacheSet Now property EmptyString
                    VBoxManageCacheTimeout s1))).
  { unfold vboxmanage.GetVMProperty, bind, vboxmanage.cacheGet.
    rewrite Hmiss, Hrun. reflexivity. }
  assert (Hentry : vBoxResponseCache s2 !! property =
            Some {| memory_cache.value := EmptyString;
                    memory_cache.expiresAt := expiry |}).
  { subst s2. rewrite Hs2. cbn. unfold memory_cache.Set_.
    apply lookup_insert_eq. }
  split; [rewrite Hs2; reflexivity|]. split; [exact Hentry|].
  intros s3 vmName' Hsame Hfresh.
  unfold vboxmanage.GetVMProperty, bind, vboxmanage.cacheGet,
    memory_cache.Get.
  rewrite Hsame, Hentry. cbn [memory_cache.expiresAt memory_cache.value].
  apply Z.ltb_lt in Hfresh. rewrite Hfresh. reflexivity.
Qed.

(** ** The VM state *)

Lemma getVMStateFromOutput_no_match (output : string) :
  regexp.FindStringSubmatch reVMState output = None ->
  vboxmanage.getVMStateFromOutput output = EmptyString.
Proof. unfold vboxmanage.getVMStateFromOutput. intros ->. reflexivity. Qed.


(** C4: on a miss, output that carries the not-installed diagnostic gives
    the empty state and no error; output without it from which no state
    can be extracted gives a non-nil error, which IsVMRunning hands on
    instead of answering "not running". *)
Theorem getVMState_not_installed_or_error
  (vmName : string) (s : State World)
  (rawVMInfo : string) (err : option error) (s1 : State World) :
  memory_cache.Get (vBoxResponseCache s) (Now (world s)) "vmstate" = None ->
  RunCommandWithoutLogging ["showvminfo"; "--machinereadable"; vmName] s =
    ((rawVMInfo, err), s1) ->
  (strings.Contains rawVMInfo vBoxManageOutputNoVMInstalled = true ->
     getVMState vmName s = ((EmptyString, None), s1))
  /\
  (strings.Contains rawVMInfo vBoxManageOutputNoVMInstalled = false ->
     vboxmanage.getVMStateFromOutput rawVMInfo = EmptyString ->
     exists e : error,
       getVMState vmName s = ((EmptyString, Some e), s1)
       /\ IsVMRunning vmName s = ((false, Some e), s1)).
Proof.
  intros Hmiss Hrun.
  unfold vboxmanage.IsVMRunning, vboxmanage.getVMState, bind,
    vboxmanage.cacheGet.
  rewrite Hmiss, Hrun. split.
  - intros ->. reflexivity.
  - intros -> Hnone. destruct err as [e|].
    + exists e. split; reflexivity.
    + rewrite Hnone. cbn. eexists. split; reflexivity.
Qed.


(** ** Guest properties *)

Ltac split_char :=
  match goal with
  | |- context [Ascii.eqb ?a ?b] =>
      is_var a; destruct (Ascii.eqb_spec a b) as [->|_]
  end.

(** No occurrence of [Value:] begins before the text [Value: exam-mode] and
    ends inside it. *)
Lemma no_Value_across (rest : string) (c : ascii) (p : string) :
  strings.HasPrefix (String c p) "Value:" = false ->
  strings.HasPrefix (String c p +:+ ("Value: exam-mode" +:+ rest)) "Value:"
    = false.
Proof.
  destruct p as [|c2 [|c3 [|c4 [|c5 [|c6 p]]]]];
    cbv [strings.HasPrefix String.append]; intros H;
    repeat (split_char; [|reflexivity]); first [exact H | reflexivity].
Qed.

Lemma no_Value_blank_across (rest : string) (c : ascii) (p : string) :
  strings.HasPrefix (String c p) "Value: " = false ->
  strings.HasPrefix (String c p +:+ ("Value: exam-mode" +:+ rest)) "Value: "
    = false.
Proof.
  destruct p as [|c2 [|c3 [|c4 [|c5 [|c6 [|c7 p]]]]]];
    cbv [strings.HasPrefix String.append]; intros H;
    repeat (split_char; [|reflexivity]); first [exact H | reflexivity].
Qed.

Lemma rePropertyValue_exam_mode (pre rest : string) :
  strings.Contains pre "Value:" = false ->
  regexp.FindStringSubmatch rePropertyValue
    (pre +:+ ("Value: exam-mode" +:+ rest)) = Some ["Value: exam"; "exam"].
Proof.
  intros Hpre. unfold regexp.FindStringSubmatch, rePropertyValue.
  change (regexp.Lit "Value:") with (regexp.Lit (String "V" "alue:")).
  rewrite (regexp_facts.search_skips_prefix "V" "alue:" _ _
             (no_Value_across rest) pre None Hpre).
  vm_compute. reflexivity.
Qed.

Lemma reBoxPropertyValue_exam_mode (pre rest : string) :
  strings.Contains pre "Value: " = false ->
  rest = EmptyString \/ (exists rest', rest = String LF rest') ->
  regexp.FindStringSubmatch reBoxPropertyValue
    (pre +:+ ("Value: exam-mode" +:+ rest))
  = Some ["Value: exam-mode"; "exam-mode"].
Proof.
  intros Hpre Hrest. unfold regexp.FindStringSubmatch, reBoxPropertyValue.
  change (regexp.Lit "Value: ") with (regexp.Lit (String "V" "alue: ")).
  rewrite (regexp_facts.search_skips_prefix "V" "alue: " _ _
             (no_Value_blank_across rest) pre None Hpre).
  destruct Hrest as [-> | [rest' ->]]; vm_compute; reflexivity.
Qed.

(** C3, as the code has it: on a miss, when the invocation succeeds and the
    first [Value:] of its output is the text [Value: exam-mode],
    GetVMProperty answers "exam", the word characters after [Value:] up to
    the hyphen, and caches that; GetBoxProperty of the older copy takes the
    rest of the line and answers "exam-mode" when the line ends there. *)
Theorem property_value_stops_at_the_hyphen
  (vmName property : string) (s : State World) (pre rest : string) :
  memory_cache.Get (vBoxResponseCache s) (Now (world s)) property = None ->
  let output := pre +:+ ("Value: exam-mode" +:+ rest) in
  (forall s1 : State World,
      RunCommand ["guestproperty"; "get"; vmName; property] s =
        ((output, None), s1) ->
      strings.Contains pre "Value:" = false ->
      GetVMProperty vmName property s =
        ("exam",
         snd (vboxmanage.cacheSet Now property "exam"
                VBoxManageCacheTimeout s1)))
  /\
  (forall s1 : State World,
      CallRunVBoxManage ["guestproperty"; "get"; vmName; property] s =
        ((output, None), s1) ->
      strings.Contains pre "Value: " = false ->
      rest = EmptyString \/ (exists rest', rest = String LF rest') ->
      GetBoxProperty vmName property s =
        ("exam-mode",
         snd (vboxmanage.cacheSet Now property "exam-mode"
                VBoxManageCacheTimeout s1))).
Proof.
  intros Hmiss output. split.
  - intros s1 Hrun Hpre.
    unfold vboxmanage.GetVMProperty, bind, vboxmanage.cacheGet.
    rewrite Hmiss, Hrun. subst output.
    rewrite (rePropertyValue_exam_mode pre rest Hpre). reflexivity.
  - intros s1 Hrun Hpre Hrest.
    unfold vboxmanage_old.GetBoxProperty,
      vboxmanage_old.ensureVBoxResponseCacheInitialised, bind, ret,
      vboxmanage.cacheGet.
    rewrite Hmiss, Hrun. subst output.
    rewrite (reBoxPropertyValue_exam_mode pre rest Hpre Hrest). reflexivity.
Qed.

(** ** The version of the hypervisor CLI *)


End properties.

(** ** The serializer under two callers *)

(** A caller that finds the flag set sleeps instead of going on. *)
Lemma serializer_second_caller_waits :
  serializer.callers
    (serializer.run [0; 0; 1; 1; 1]%nat serializer.twoCallers)
  = [serializer.Invoking 0; serializer.AtSleep 1].
Proof. reflexivity. Qed.

(** Behind a flag that is never cleared a caller polls 240 times, 500 ms
    apart, and then goes on all the same: two minutes after it came. *)
Lemma serializer_ceiling :
  let c := serializer.run (repeat O 480) serializer.behindStuckProcess in
  serializer.callers c = [serializer.AtLoopTest 240]
  /\ serializer.clock c =
       serializer.clock serializer.behindStuckProcess + 120 * 1000000000
  /\ serializer.callers (serializer.run [0; 0]%nat c) = [serializer.Invoking 240].
Proof. vm_compute. auto. Qed.

(** C8 fails on the code: the test of the flag (line 129) and the store to
    it (line 135) are separate steps.  Two callers that both test before
    either stores find the flag clear, both go on without a single poll, and
    both run VBoxManage at the same time. *)
Theorem serializer_two_callers_both_hold_the_slot :
  let c := serializer.run [0; 1; 0; 1]%nat serializer.twoCallers in
  serializer.callers c = [serializer.Invoking 0; serializer.Invoking 0]
  /\ ~ serializer.exclusive c.
Proof.
  split; [reflexivity|].
  unfold serializer.exclusive. intros H. vm_compute in H. lia.
Qed.

(** * The package on concrete inputs *)

(** The patterns on output of the kind VBoxManage prints. *)
Lemma patterns_examples :
  vboxmanage.getVMStateFromOutput script.runningOutput = "running"
  /\ regexp.FindStringSubmatch reVersion "6.1.26r145957"
     = Some ["6.1.26"; "6.1.26"]
  /\ regexp.FindStringSubmatch reVersion "VirtualBox 6.1.26" = None
  /\ regexp.FindStringSubmatch rePropertyValue "Value:   17"
     = Some ["Value:   17"; "17"]
  /\ regexp.FindStringSubmatch rePropertyValue "No value set!" = None.
Proof. vm_compute. repeat split. Qed.

(** The assertions: \bcat\b, (?m)^(\w+)= and (\w+)$. *)
Lemma assertions_examples :
  regexp.FindStringSubmatch
    (regexp.Cat regexp.WordBoundary
       (regexp.Cat (regexp.Group 1 (regexp.Lit "cat")) regexp.WordBoundary))
    "concat cat" = Some ["cat"; "cat"]
  /\ regexp.FindStringSubmatch
       (regexp.Cat regexp.BolLine
          (regexp.Cat (regexp.Group 1 (regexp.Plus (regexp.Chr regexp.word)))
                      (regexp.Lit "=")))
       script.runningOutput = Some ["name="; "name"]
  /\ regexp.FindStringSubmatch
       (regexp.Cat (regexp.Group 1 (regexp.Plus (regexp.Chr regexp.word)))
                   regexp.Eol)
       "power off" = Some ["off"; "off"].
Proof. vm_compute. repeat split. Qed.

(** A running VM: the state is extracted and cached, and the next query is
    answered from the cache without a process. *)
Lemma IsVMRunning_running_example :
  let s := script.prints script.runningOutput in
  let s1 := snd (script.IsVMRunning "NaksuAbittiKTP" s) in
  fst (script.IsVMRunning "NaksuAbittiKTP" s) = (true, None)
  /\ script.IsVMRunning "NaksuAbittiKTP" s1 = ((true, None), s1)
  /\ calls s1 = [Exec ("VBoxManage" :: script.showvminfo)].
Proof. vm_compute. repeat split. Qed.

(** C1 at work: the first start fails on the duplicate disk, the remediator
    repairs it, the second start fails for another reason; that second
    failure is what comes back, after two starts and one remediation. *)
Lemma runVBoxManage_retry_that_fails_again :
  script.runVBoxManage script.showvminfo true script.retryFails =
    (("VBoxManage: error: The machine is locked",
      Some (errors_New "exit status 2")),
     after script.retryFails
       [Exec ("VBoxManage" :: script.showvminfo);
        Remediate script.duplicateDiskOutput;
        Exec ("VBoxManage" :: script.showvminfo)]
       {| script.clock := 1700000002 * 1000000000;
          script.replies := []; script.verdicts := [] |}).
Proof.
  refine (proj1 (runVBoxManage_retries_exactly_once
                   script.getVBoxManagePath script.RunAndGetOutput
                   script.detectAndFixDuplicateHardDiskProblem
                   script.showvminfo true script.retryFails
                   _ _ _ true _ _ eq_refl eq_refl) eq_refl _ _ eq_refl).
Defined.

(** C2 fails on the code: the invocation fails with the duplicate-disk
    diagnostic, the remediator answers (false, error), and the error the
    caller gets is not the remediator's. *)
Lemma runVBoxManage_does_not_return_remediation_error :
  let s := script.remediationFails in
  let runArgs := "VBoxManage" :: script.showvminfo in
  let fixErr := errors_New "could not parse the disk path" in
  exists w1 w2 : script.World,
    script.RunAndGetOutput runArgs true (world s) =
      ((script.duplicateDiskOutput, Some script.exitStatus1), w1)
    /\ script.detectAndFixDuplicateHardDiskProblem
         script.duplicateDiskOutput w1 = ((false, Some fixErr), w2)
    /\ snd (fst (script.runVBoxManage script.showvminfo true s)) <> Some fixErr.
Proof.
  do 2 eexists. split; [reflexivity|]. split; [reflexivity|].
  vm_compute. discriminate.
Qed.

(** The same run under the theorem of C2: the error names the command line
    and the exit status of the invocation. *)
Lemma runVBoxManage_failed_remediation_example :
  script.runVBoxManage script.showvminfo true script.remediationFails =
    ((EmptyString,
      Some (errors_New
              "failed to execute VBoxManage showvminfo --machinereadable NaksuAbittiKTP: exit status 1")),
     after script.remediationFails
       [Exec ("VBoxManage" :: script.showvminfo);
        Remediate script.duplicateDiskOutput]
       {| script.clock := 1700000001 * 1000000000;
          script.replies := []; script.verdicts := [] |}).
Proof.
  exact (runVBoxManage_failed_remediation_reports_invocation_error
           script.getVBoxManagePath script.RunAndGetOutput
           script.detectAndFixDuplicateHardDiskProblem
           script.showvminfo true script.remediationFails
           _ _ _ _ _ eq_refl eq_refl).
Defined.

(** C3 fails on the code: the invocation succeeds with exactly
    [Value: exam-mode] and GetVMProperty answers "exam". *)
Lemma GetVMProperty_exam_mode_gives_exam :
  let s := script.prints "Value: exam-mode" in
  fst (script.RunCommand script.guestproperty s) = ("Value: exam-mode", None)
  /\ strings.Contains "Value: exam-mode" "Value: exam-mode" = true
  /\ fst (script.GetVMProperty "NaksuAbittiKTP" "mode" s) = "exam"
  /\ fst (script.GetVMProperty "NaksuAbittiKTP" "mode" s) <> "exam-mode".
Proof.
  repeat split; try (vm_compute; reflexivity). vm_compute. discriminate.
Qed.

(** The same output under the theorem of C3, for both copies. *)
Lemma property_value_example :
  let s := script.prints "Value: exam-mode" in
  fst (script.GetVMProperty "NaksuAbittiKTP" "mode" s) = "exam"
  /\ fst (script.GetBoxProperty "NaksuAbittiKTP" "mode" s) = "exam-mode".
Proof.
  intros s.
  pose proof (property_value_stops_at_the_hyphen script.Now script.Sleep
                script.getVBoxManagePath script.RunAndGetOutput
                script.detectAndFixDuplicateHardDiskProblem
                script.RunVBoxManage script.VBoxManageCacheTimeout
                "NaksuAbittiKTP" "mode" s EmptyString EmptyString eq_refl)
    as [Hnew Hold].
  split.
  - unfold script.GetVMProperty.
    erewrite Hnew; [reflexivity| |reflexivity]. vm_compute. reflexivity.
  - unfold script.GetBoxProperty.
    erewrite Hold; [reflexivity| |reflexivity|left; reflexivity].
    vm_compute. reflexivity.
Defined.

(** C4 at work: a VM that is not registered has the empty state and no
    error; output without a state line is an error. *)
Lemma getVMState_example :
  script.getVMState "NaksuAbittiKTP" script.notInstalled =
    ((EmptyString, None),
     snd (script.RunCommand script.showvminfo script.notInstalled))
  /\ exists e : error,
       fst (script.getVMState "NaksuAbittiKTP"
              (script.prints "name=NaksuAbittiKTP")) = (EmptyString, Some e).
Proof.
  split.
  - refine (proj1 (getVMState_not_installed_or_error script.Now script.Sleep
                     script.getVBoxManagePath script.RunAndGetOutput
                     script.detectAndFixDuplicateHardDiskProblem
                     script.VBoxRunningCacheTimeout
                     "NaksuAbittiKTP" script.notInstalled
                     script.notInstalledOutput (Some script.exitStatus1) _
                     eq_refl _) eq_refl).
    vm_compute. reflexivity.
  - destruct (proj2 (getVMState_not_installed_or_error script.Now script.Sleep
                       script.getVBoxManagePath script.RunAndGetOutput
                       script.detectAndFixDuplicateHardDiskProblem
                       script.VBoxRunningCacheTimeout
                       "NaksuAbittiKTP" (script.prints "name=NaksuAbittiKTP")
                       "name=NaksuAbittiKTP" None _ eq_refl eq_refl)
                eq_refl eq_refl) as (e & He & _).
    exists e. unfold script.getVMState. rewrite He. reflexivity.
Defined.

(** C5 fails on the code: the invocation succeeds, its output contains the
    diagnostic, and IsVMInstalled answers (true, nil). *)
Lemma IsVMInstalled_ignores_diagnostic_on_success :
  let s := script.prints script.notInstalledOutput in
  fst (script.RunCommand script.showvminfo s) = (script.notInstalledOutput, None)
  /\ strings.Contains script.notInstalledOutput
       "Could not find a registered machine named" = true
  /\ fst (script.IsVMInstalled "NaksuAbittiKTP" s) = (true, None)
  /\ fst (script.IsVMInstalled "NaksuAbittiKTP" s) <> (false, None).
Proof.
  repeat split; try (vm_compute; reflexivity). vm_compute. discriminate.
Qed.

(** The theorem of C5 on a VM that is not registered. *)
Lemma IsVMInstalled_example :
  fst (script.IsVMInstalled "NaksuAbittiKTP" script.notInstalled) =
    (false, None).
Proof.
  unfold script.IsVMInstalled.
  erewrite (IsVMInstalled_by_cases script.Now script.Sleep
              script.getVBoxManagePath script.RunAndGetOutput
              script.detectAndFixDuplicateHardDiskProblem
              "NaksuAbittiKTP" script.notInstalled).
  2: { vm_compute. reflexivity. }
  reflexivity.
Defined.


(** C7 at work: the failed read is answered with the empty string, and the
    next read changes nothing. *)
Lemma GetVMProperty_failure_example :
  let s := script.processFails in
  let s2 := snd (script.GetVMProperty "NaksuAbittiKTP" "mode" s) in
  fst (script.GetVMProperty "NaksuAbittiKTP" "mode" s) = EmptyString
  /\ script.GetVMProperty "NaksuAbittiKTP" "mode" s2 = (EmptyString, s2).
Proof.
  intros s s2.
  destruct (GetVMProperty_failure_is_cached script.Now script.Sleep
              script.getVBoxManagePath script.RunAndGetOutput
              script.detectAndFixDuplicateHardDiskProblem
              script.VBoxManageCacheTimeout
              "NaksuAbittiKTP" "mode" s
              "VBoxManage: error: E_ACCESSDENIED" script.exitStatus1
              (snd (script.RunCommand script.guestproperty s)) eq_refl)
    as (H1 & _ & H3).
  { vm_compute. reflexivity. }
  split; [exact H1|]. apply H3; [reflexivity|]. vm_compute. reflexivity.
Defined.

(** C9 at work: after a failed showvminfo, a query with another pattern is
    answered with the empty string and changes nothing. *)
Lemma GetVMInfoByRegexp_failure_example :
  let s := script.processFails in
  let s2 := snd (script.GetVMInfoByRegexp "NaksuAbittiKTP" reVMState s) in
  script.GetVMInfoByRegexp "NaksuAbittiKTP" reVersion s2 = (EmptyString, s2).
Proof.
  intros s s2.
  destruct (getVMInfo_failure_is_served_to_every_pattern
              script.Now script.Sleep
              script.getVBoxManagePath script.RunAndGetOutput
              script.detectAndFixDuplicateHardDiskProblem
              script.VBoxManageCacheTimeout
              "NaksuAbittiKTP" s
              "VBoxManage: error: E_ACCESSDENIED" script.exitStatus1
              (snd (script.RunCommand script.showvminfo s)) eq_refl)
    as (_ & _ & H3).
  { vm_compute. reflexivity. }
  apply H3; [|vm_compute; reflexivity]. vm_compute. reflexivity.
Defined.


(** * Further properties of the package *)

Section more_properties.

Context {World : Type}.
Variable Now : World -> Z.
Variable Sleep : Z -> World -> World.
Variable getVBoxManagePath : World -> string.
Variable RunAndGetOutput :
  list string -> bool -> World -> (string * option error) * World.
Variable detectAndFixDuplicateHardDiskProblem :
  string -> World -> (bool * option error) * World.
Variable VBoxManageCacheTimeout : Z.
Variable VBoxRunningCacheTimeout : Z.

Local Abbreviation runVBoxManage :=
  (vboxmanage.runVBoxManage getVBoxManagePath RunAndGetOutput
     detectAndFixDuplicateHardDiskProblem).
Local Abbreviation runCommand :=
  (vboxmanage.runCommand Now Sleep getVBoxManagePath RunAndGetOutput
     detectAndFixDuplicateHardDiskProblem).
Local Abbreviation RunCommand :=
  (vboxmanage.RunCommand Now Sleep getVBoxManagePath RunAndGetOutput
     detectAndFixDuplicateHardDiskProblem).
Local Abbreviation RunCommandWithoutLogging :=
  (vboxmanage.RunCommandWithoutLogging Now Sleep getVBoxManagePath
     RunAndGetOutput detectAndFixDuplicateHardDiskProblem).
Local Abbreviation RunCommands :=
  (vboxmanage.RunCommands Now Sleep getVBoxManagePath RunAndGetOutput
     detectAndFixDuplicateHardDiskProblem).
Local Abbreviation GetVMInfoByRegexp :=
  (vboxmanage.GetVMInfoByRegexp Now Sleep getVBoxManagePath RunAndGetOutput
     detectAndFixDuplicateHardDiskProblem VBoxManageCacheTimeout).
Local Abbreviation GetVBoxManageVersion :=
  (vboxmanage.GetVBoxManageVersion Now Sleep getVBoxManagePath
     RunAndGetOutput detectAndFixDuplicateHardDiskProblem
     VBoxManageCacheTimeout).
Local Abbreviation GetVMProperty :=
  (vboxmanage.GetVMProperty Now Sleep getVBoxManagePath RunAndGetOutput
     detectAndFixDuplicateHardDiskProblem VBoxManageCacheTimeout).
Local Abbreviation getVMState :=
  (vboxmanage.getVMState Now Sleep getVBoxManagePath RunAndGetOutput
     detectAndFixDuplicateHardDiskProblem VBoxRunningCacheTimeout).
Local Abbreviation IsVMRunning :=
  (vboxmanage.IsVMRunning Now Sleep getVBoxManagePath RunAndGetOutput
     detectAndFixDuplicateHardDiskProblem VBoxRunningCacheTimeout).
Local Abbreviation IsInstalled :=
  (vboxmanage.IsInstalled Now Sleep getVBoxManagePath RunAndGetOutput
     detectAndFixDuplicateHardDiskProblem).

(** ** One command *)

(** What [runVBoxManage] adds to the record of calls: the command line is
    started once, or once with a look by the remediator, or twice with that
    look in between. *)
Lemma runVBoxManage_calls (args : list string) (logOutput : bool)
  (s : State World) :
  let s' := snd (runVBoxManage args logOutput s) in
  let argv := getVBoxManagePath (world s) :: args in
  vBoxResponseCache s' = vBoxResponseCache s
  /\ vBoxManageStarted s' = vBoxManageStarted s
  /\ (calls s' = calls s ++ [Exec argv]
      \/ exists out,
          calls s' = calls s ++ [Exec argv; Remediate out]
          \/ calls s' = calls s ++ [Exec argv; Remediate out; Exec argv]).
Proof.
  unfold vboxmanage.runVBoxManage, bind, vboxmanage.vboxmanagepath,
    vboxmanage.execProcess, vboxmanage.remediate, ret.
  cbn [world calls vBoxResponseCache vBoxManageStarted app].
  destruct (RunAndGetOutput _ logOutput (world s)) as [[out1 [e1|]] w1];
    cbn [world calls vBoxResponseCache vBoxManageStarted snd].
  - destruct (detectAndFixDuplicateHardDiskProblem out1 w1)
      as [[fixed fixErr] w2].
    destruct (negb fixed && bool_decide (fixErr <> None)); cbn.
    + repeat split. right. exists out1. left.
      rewrite <- app_assoc. reflexivity.
    + destruct fixed; cbn.
      * destruct (RunAndGetOutput _ logOutput w2) as [r2 w3]; cbn.
        repeat split. right. exists out1. right.
        rewrite <- !app_assoc. reflexivity.
      * repeat split. right. exists out1. left.
        rewrite <- app_assoc. reflexivity.
  - repeat split. left. reflexivity.
Qed.

(** The wait of [runCommand], run by one caller: nothing happens when the
    flag is clear, and behind a flag that stays set the caller sleeps the
    number of times it was given. *)
Lemma waitForVBoxManage_alone (left : nat) (s : State World) :
  vboxmanage.waitForVBoxManage Sleep left s =
    (tt,
     if vBoxManageStarted s =? 0 then s
     else after s (calls s) (Nat.iter left (Sleep pollInterval) (world s))).
Proof.
  revert s. induction left as [|left IH]; intros s.
  - cbn. destruct (vBoxManageStarted s =? 0); destruct s; reflexivity.
  - cbn [vboxmanage.waitForVBoxManage]. unfold bind, vboxmanage.getStarted.
    destruct (vBoxManageStarted s =? 0) eqn:E; cbn [negb]; [reflexivity|].
    unfold vboxmanage.timeSleep. rewrite IH.
    cbn [vBoxManageStarted]. rewrite E. unfold after.
    cbn [vBoxResponseCache vBoxManageStarted calls world].
    rewrite Nat.iter_succ_r. reflexivity.
Qed.

Local Arguments vboxmanage.waitForVBoxManage : simpl never.

Lemma runCommand_effect
  (args : list string) (logOutput : bool) (s : State World) :
  let s' := snd (runCommand args logOutput s) in
  vBoxResponseCache s' = vBoxResponseCache s
  /\ vBoxManageStarted s' = 0
  /\ exists path,
      let argv := path :: args in
      calls s' = calls s ++ [Exec argv]
      \/ exists out,
          calls s' = calls s ++ [Exec argv; Remediate out]
          \/ calls s' = calls s ++ [Exec argv; Remediate out; Exec argv].
Proof.
  unfold vboxmanage.runCommand, bind.
  rewrite waitForVBoxManage_alone.
  set (s0 := if vBoxManageStarted s =? 0 then s else _).
  assert (Hc : vBoxResponseCache s0 = vBoxResponseCache s)
    by (subst s0; destruct (vBoxManageStarted s =? 0); reflexivity).
  assert (Hl : calls s0 = calls s)
    by (subst s0; destruct (vBoxManageStarted s =? 0); reflexivity).
  unfold vboxmanage.timeNow, vboxmanage.setStarted.
  pose proof (runVBoxManage_calls args logOutput
                {| vBoxResponseCache := vBoxResponseCache s0;
                   vBoxManageStarted := Unix (Now (world s0));
                   calls := calls s0; world := world s0 |}) as Hr.
  destruct (runVBoxManage args logOutput _) as [[out err] s2].
  cbn [snd world calls vBoxResponseCache vBoxManageStarted] in *.
  destruct Hr as (Hc1 & _ & Hcalls).
  unfold ret. cbn [snd world calls vBoxResponseCache vBoxManageStarted].
  rewrite Hc1, Hc. repeat split.
  exists (getVBoxManagePath (world s0)). cbn zeta.
  rewrite <- Hl. exact Hcalls.
Qed.

(** X1: whatever the command and however it ends, [runCommand] leaves the
    cache as it was and the flag cleared, and it starts the command line
    once or twice, never more often, with at most one look by the
    remediator in between. *)
Theorem runCommand_clears_flag_and_starts_at_most_twice
  (args : list string) (logOutput : bool) (s : State World) :
  let s' := snd (runCommand args logOutput s) in
  vBoxResponseCache s' = vBoxResponseCache s
  /\ vBoxManageStarted s' = 0
  /\ exists path,
      let argv := path :: args in
      calls s' = calls s ++ [Exec argv]
      \/ exists out,
          calls s' = calls s ++ [Exec argv; Remediate out]
          \/ calls s' = calls s ++ [Exec argv; Remediate out; Exec argv].
Proof. apply runCommand_effect. Qed.

(** X2: entered by one caller while the flag is set and stays set,
    [runCommand] sleeps 240 times 500 ms and then does exactly what it does
    from the clear flag in the world after those sleeps. *)
Theorem runCommand_behind_stale_flag
  (args : list string) (logOutput : bool) (s : State World) :
  vBoxManageStarted s <> 0 ->
  runCommand args logOutput s =
    runCommand args logOutput
      {| vBoxResponseCache := vBoxResponseCache s;
         vBoxManageStarted := 0;
         calls := calls s;
         world := Nat.iter 240 (Sleep pollInterval) (world s) |}.
Proof.
  intros Hset. unfold vboxmanage.runCommand, bind.
  rewrite !waitForVBoxManage_alone.
  cbn [vBoxManageStarted]. apply Z.eqb_neq in Hset. rewrite Hset.
  change (0 =? 0) with true. cbn iota. reflexivity.
Qed.

(** Every command is recorded. *)
Lemma runCommand_records_exec (args : list string) (logOutput : bool)
  (s : State World) :
  exists path rest,
    calls (snd (runCommand args logOutput s)) =
      calls s ++ Exec (path :: args) :: rest.
Proof.
  destruct (runCommand_effect args logOutput s)
    as (_ & _ & path & H).
  exists path. cbn zeta in H.
  destruct H as [-> | [out [-> | ->]]]; eauto.
Qed.

(** ** Several commands *)

(** X3: [RunCommands] runs its commands in order and stops at the first one
    that fails: a list that continues a failed list fails with the same
    error in the same state, so nothing after the failure is started; a
    list that continues a successful list goes on from where that ended. *)
Theorem RunCommands_stops_at_first_error
  (commands1 commands2 : list (list string)) (s : State World) :
  RunCommands (commands1 ++ commands2) s =
    match RunCommands commands1 s with
    | (Some e, s1) => (Some e, s1)
    | (None, s1) => RunCommands commands2 s1
    end.
Proof.
  revert s. induction commands1 as [|c commands1 IH]; intros s.
  - reflexivity.
  - cbn [app vboxmanage.RunCommands]. unfold bind.
    destruct (RunCommand c s) as [[out [e|]] s1]; [reflexivity|].
    apply IH.
Qed.

(** A list of commands leaves the cache alone. *)
Lemma RunCommands_cache (commands : list (list string)) (s : State World) :
  vBoxResponseCache (snd (RunCommands commands s)) = vBoxResponseCache s.
Proof.
  revert s. induction commands as [|c commands IH]; intros s; [reflexivity|].
  cbn [vboxmanage.RunCommands]. unfold bind.
  pose proof (runCommand_effect c true s) as (Hc & _).
  fold (RunCommand c s) in Hc.
  destruct (RunCommand c s) as [[out [e|]] s1]; cbn [snd] in *; [exact Hc|].
  rewrite IH. exact Hc.
Qed.

(** ** The cache between two queries *)

(** X4: [ResetVBoxResponseCache] forgets every entry and changes nothing
    else; the next read of any guest property starts VBoxManage, whatever
    had been cached. *)
Theorem ResetVBoxResponseCache_forgets_everything (s : State World) :
  let s' := snd (vboxmanage.ResetVBoxResponseCache s) in
  (forall (now : Z) (key : string),
      memory_cache.Get (vBoxResponseCache s') now key = None)
  /\ vBoxManageStarted s' = vBoxManageStarted s
  /\ calls s' = calls s
  /\ world s' = world s
  /\ forall vmName property : string,
      exists path rest,
        calls (snd (GetVMProperty vmName property s')) =
          calls s ++ Exec [path; "guestproperty"; "get"; vmName; property]
                  :: rest.
Proof.
  cbn. repeat split.
  intros vmName property.
  unfold vboxmanage.GetVMProperty, bind, vboxmanage.cacheGet,
    memory_cache.Get, memory_cache.New.
  cbn [vBoxResponseCache]. rewrite lookup_empty.
  pose proof (runCommand_records_exec
                ["guestproperty"; "get"; vmName; property] true
                {| vBoxResponseCache := ∅;
                   vBoxManageStarted := vBoxManageStarted s;
                   calls := calls s; world := world s |})
    as (path & rest & H).
  fold (RunCommand ["guestproperty"; "get"; vmName; property]) in H.
  destruct (RunCommand _ _) as [[out err] s1]. cbn [snd calls] in *.
  exists path, rest. exact H.
Qed.

(** X5: what [GetVMProperty] answers on a miss, found value or empty
    string, it answers again for every VM name until the entry expires,
    leaving the state as it is; from the instant of expiry on it starts
    VBoxManage again. *)
Theorem GetVMProperty_is_served_until_expiry
  (vmName property : string) (s : State World) :
  memory_cache.Get (vBoxResponseCache s) (Now (world s)) property = None ->
  let propertyValue := fst (GetVMProperty vmName property s) in
  let s2 := snd (GetVMProperty vmName property s) in
  let expiry := Now (world s2) + VBoxManageCacheTimeout in
  forall (s3 : State World) (vmName' : string),
    vBoxResponseCache s3 !! property = vBoxResponseCache s2 !! property ->
    (Now (world s3) < expiry ->
       GetVMProperty vmName' property s3 = (propertyValue, s3))
    /\
    (expiry <= Now (world s3) ->
       exists path rest,
         calls (snd (GetVMProperty vmName' property s3)) =
           calls s3 ++ Exec [path; "guestproperty"; "get"; vmName'; property]
                    :: rest).
Proof.
  intros Hmiss propertyValue s2 expiry s3 vmName' Hsame.
  assert (Hentry : vBoxResponseCache s2 !! property =
            Some {| memory_cache.value := propertyValue;
                    memory_cache.expiresAt := expiry |}).
  { subst propertyValue expiry s2.
    unfold vboxmanage.GetVMProperty, bind, vboxmanage.cacheGet.
    rewrite Hmiss.
    destruct (RunCommand _ s) as [[out err] s1].
    cbn. unfold memory_cache.Set_. apply lookup_insert_eq. }
  rewrite Hentry in Hsame. split.
  - intros Hfresh.
    unfold vboxmanage.GetVMProperty, bind, vboxmanage.cacheGet,
      memory_cache.Get.
    rewrite Hsame. cbn [memory_cache.expiresAt memory_cache.value].
    apply Z.ltb_lt in Hfresh. rewrite Hfresh. reflexivity.
  - intros Hstale.
    unfold vboxmanage.GetVMProperty, bind, vboxmanage.cacheGet,
      memory_cache.Get.
    rewrite Hsame. cbn [memory_cache.expiresAt memory_cache.value].
    apply Z.ltb_ge in Hstale. rewrite Hstale.
    pose proof (runCommand_records_exec
                  ["guestproperty"; "get"; vmName'; property] true s3)
      as (path & rest & H).
    fold (RunCommand ["guestproperty"; "get"; vmName'; property]) in H.
    destruct (RunCommand _ s3) as [[out err] s1]. cbn [snd calls] in *.
    exists path, rest. exact H.
Qed.



(** X7: the VM state is cached for [VBoxRunningCacheTimeout]: after a miss
    that found the state, [IsVMRunning] answers whether that state is
    "running", and until the entry expires it gives the same answer without
    starting VBoxManage, whatever the VM does meanwhile. *)
Theorem IsVMRunning_is_served_until_expiry
  (vmName : string) (s : State World)
  (rawVMInfo : string) (s1 : State World) :
  memory_cache.Get (vBoxResponseCache s) (Now (world s)) "vmstate" = None ->
  RunCommandWithoutLogging ["showvminfo"; "--machinereadable"; vmName] s =
    ((rawVMInfo, None), s1) ->
  strings.Contains rawVMInfo vBoxManageOutputNoVMInstalled = false ->
  vboxmanage.getVMStateFromOutput rawVMInfo <> EmptyString ->
  let running :=
    String.eqb (vboxmanage.getVMStateFromOutput rawVMInfo) "running" in
  let s2 := snd (IsVMRunning vmName s) in
  fst (IsVMRunning vmName s) = (running, None)
  /\ forall (s3 : State World) (vmName' : string),
      vBoxResponseCache s3 !! "vmstate" = vBoxResponseCache s2 !! "vmstate" ->
      Now (world s3) < Now (world s1) + VBoxRunningCacheTimeout ->
      IsVMRunning vmName' s3 = ((running, None), s3).
Proof.
  intros Hmiss Hrun Hdiag Hstate running s2.
  assert (Hs2 : IsVMRunning vmName s =
            ((running, None),
             snd (vboxmanage.cacheSet Now "vmstate"
                    (vboxmanage.getVMStateFromOutput rawVMInfo)
                    VBoxRunningCacheTimeout s1))).
  { unfold vboxmanage.IsVMRunning, vboxmanage.getVMState, bind,
      vboxmanage.cacheGet.
    rewrite Hmiss, Hrun, Hdiag.
    destruct (String.eqb_spec (vboxmanage.getVMStateFromOutput rawVMInfo)
                EmptyString) as [Heq|_]; [contradiction|].
    reflexivity. }
  split; [rewrite Hs2; reflexivity|].
  intros s3 vmName' Hsame Hfresh.
  unfold vboxmanage.IsVMRunning, vboxmanage.getVMState, bind,
    vboxmanage.cacheGet, memory_cache.Get.
  rewrite Hsame. subst s2. rewrite Hs2. cbn. unfold memory_cache.Set_.
  rewrite lookup_insert_eq. cbn.
  apply Z.ltb_lt in Hfresh. rewrite Hfresh. reflexivity.
Qed.

(** X8: guest properties and the fixed entries live in one key space: a
    read of the guest property named vmstate stores its value under the key
    of the VM state, and until that entry expires [getVMState] hands out
    the property's value as the state of the VM without asking
    VBoxManage. *)
Theorem property_named_vmstate_is_taken_for_the_state
  (vmName : string) (s : State World)
  (output whole propertyValue : string) (s1 : State World) :
  memory_cache.Get (vBoxResponseCache s) (Now (world s)) "vmstate" = None ->
  RunCommand ["guestproperty"; "get"; vmName; "vmstate"] s =
    ((output, None), s1) ->
  regexp.FindStringSubmatch rePropertyValue output
    = Some [whole; propertyValue] ->
  let s2 := snd (GetVMProperty vmName "vmstate" s) in
  forall (s3 : State World) (vmName' : string),
    vBoxResponseCache s3 !! "vmstate" = vBoxResponseCache s2 !! "vmstate" ->
    Now (world s3) < Now (world s1) + VBoxManageCacheTimeout ->
    getVMState vmName' s3 = ((propertyValue, None), s3)
    /\ IsVMRunning vmName' s3 =
         ((String.eqb propertyValue "running", None), s3).
Proof.
  intros Hmiss Hrun Hmatch s2 s3 vmName' Hsame Hfresh.
  assert (Hentry : vBoxResponseCache s2 !! "vmstate" =
            Some {| memory_cache.value := propertyValue;
                    memory_cache.expiresAt :=
                      Now (world s1) + VBoxManageCacheTimeout |}).
  { subst s2.
    unfold vboxmanage.GetVMProperty, bind, vboxmanage.cacheGet.
    rewrite Hmiss, Hrun, Hmatch. cbn. unfold memory_cache.Set_.
    apply lookup_insert_eq. }
  rewrite Hentry in Hsame.
  unfold vboxmanage.IsVMRunning, vboxmanage.getVMState, bind,
    vboxmanage.cacheGet, memory_cache.Get.
  rewrite Hsame. cbn [memory_cache.expiresAt memory_cache.value].
  apply Z.ltb_lt in Hfresh. rewrite Hfresh. split; reflexivity.
Qed.

(** ** Is VBoxManage there at all *)

(** X15: [IsInstalled] answers false without starting anything when there
    is no path to VBoxManage; with a path it starts [--version] every time
    it is asked, whatever the cache holds, answers whether that run ended
    without error, and leaves the cache as it was. *)
Theorem IsInstalled_asks_VBoxManage_every_time (s : State World) :
  if String.eqb (getVBoxManagePath (world s)) EmptyString
  then IsInstalled s = (false, s)
  else
    let (r, s1) := RunCommand ["--version"] s in
    IsInstalled s =
      (match snd r with None => true | Some _ => false end, s1)
    /\ vBoxResponseCache s1 = vBoxResponseCache s
    /\ exists path rest,
        calls s1 = calls s ++ Exec [path; "--version"] :: rest.
Proof.
  unfold vboxmanage.IsInstalled, bind, vboxmanage.vboxmanagepath.
  destruct (String.eqb (getVBoxManagePath (world s)) EmptyString);
    [reflexivity|].
  pose proof (runCommand_effect ["--version"] true s) as (Hcache & _).
  pose proof (runCommand_records_exec ["--version"] true s)
    as (path & rest & Hcalls).
  fold (RunCommand ["--version"] s) in Hcache, Hcalls.
  destruct (RunCommand ["--version"] s) as [[out err] s1].
  cbn [snd] in *. split; [destruct err; reflexivity|].
  split; [exact Hcache|]. exists path, rest. exact Hcalls.
Qed.

End more_properties.

(** ** Free disk space *)

Section free_disk.

Variable GetDiskFree : string -> N + error.

Local Abbreviation CheckFreeDisk := (host.CheckFreeDisk GetDiskFree).

(** X9: [CheckFreeDisk] answers [nil] exactly when every listed directory
    whose free space can be read has at least [limit] bytes free; a
    directory whose free space cannot be read is passed over and never
    makes the check fail. *)
Theorem CheckFreeDisk_nil_iff (limit : N) (directories : list string) :
  CheckFreeDisk limit directories = None <->
  forall (d : string) (freeDisk : N),
    List.In d directories -> GetDiskFree d = inl freeDisk ->
    (limit <= freeDisk)%N.
Proof.
  induction directories as [|d0 directories IH]; cbn [host.CheckFreeDisk].
  - split; [intros _ d freeDisk [] | reflexivity].
  - destruct (GetDiskFree d0) as [free0|e0] eqn:E0.
    + destruct (N.ltb_spec free0 limit) as [Hlow|Hok].
      * split; [discriminate|]. intros H.
        specialize (H d0 free0 (or_introl eq_refl) E0). lia.
      * rewrite IH. split.
        -- intros H d freeDisk [<- | Hin] Hd; [|eauto].
           rewrite E0 in Hd. injection Hd as <-. exact Hok.
        -- intros H d freeDisk Hin. apply H. right. exact Hin.
    + rewrite IH. split.
      * intros H d freeDisk [<- | Hin] Hd; [|eauto].
        rewrite E0 in Hd. discriminate.
      * intros H d freeDisk Hin. apply H. right. exact Hin.
Qed.

(** X10: the error of [CheckFreeDisk] names the first directory of the
    list that is short of space, with the free bytes that were read for it:
    all directories before it pass the check, and the directories after it
    are not looked at. *)
Theorem CheckFreeDisk_reports_first_low_directory
  (limit : N) (directories : list string) (e : host.LowDiskSizeError) :
  CheckFreeDisk limit directories = Some e ->
  exists before behind : list string,
    directories = before ++ host.LowPath e :: behind
    /\ CheckFreeDisk limit before = None
    /\ GetDiskFree (host.LowPath e) = inl (host.LowSize e)
    /\ (host.LowSize e < limit)%N
    /\ forall others : list string,
        CheckFreeDisk limit (before ++ host.LowPath e :: others) = Some e.
Proof.
  induction directories as [|d0 directories IH]; cbn [host.CheckFreeDisk];
    [discriminate|].
  destruct (GetDiskFree d0) as [free0|e0] eqn:E0.
  - destruct (N.ltb_spec free0 limit) as [Hlow|Hok].
    + intros [= <-]. exists [], directories. cbn.
      repeat split; try assumption.
      intros others. rewrite E0.
      destruct (N.ltb_spec free0 limit); [reflexivity | lia].
    + intros H. destruct (IH H) as (before & behind & -> & Hb & Hd & Hl & Ho).
      exists (d0 :: before), behind. cbn [app host.CheckFreeDisk].
      rewrite E0. destruct (N.ltb_spec free0 limit); [lia|].
      repeat split; try assumption.
  - intros H. destruct (IH H) as (before & behind & -> & Hb & Hd & Hl & Ho).
    exists (d0 :: before), behind. cbn [app host.CheckFreeDisk].
    rewrite E0. repeat split; try assumption.
Qed.

End free_disk.

(** * The patterns on every text of the expected shape *)

Module runs_facts.
Import regexp runs.

Lemma app_cons (c : ascii) (a b : string) :
  String c a +:+ b = String c (a +:+ b).
Proof. reflexivity. Qed.

Lemma length_app (a b : string) :
  String.length (a +:+ b) = (String.length a + String.length b)%nat.
Proof.
  induction a as [|c a IH]; [reflexivity|].
  rewrite app_cons. cbn [String.length]. rewrite IH. reflexivity.
Qed.

Lemma app_nil_r (a : string) : a +:+ EmptyString = a.
Proof.
  induction a as [|c a IH]; [reflexivity|].
  rewrite app_cons, IH. reflexivity.
Qed.

Lemma app_assoc (a b c : string) : (a +:+ b) +:+ c = a +:+ (b +:+ c).
Proof.
  induction a as [|x a IH]; [reflexivity|].
  rewrite !app_cons, IH. reflexivity.
Qed.

Lemma substring_prefix (a b : string) :
  String.substring 0 (String.length a) (a +:+ b) = a.
Proof.
  induction a as [|c a IH].
  - change (EmptyString +:+ b) with b. destruct b; reflexivity.
  - rewrite app_cons. cbn [String.length String.substring].
    rewrite IH. reflexivity.
Qed.

(** A literal at the head of the text is consumed. *)
Lemma run_Lit_prefix (l : string) :
  forall (y : string) (pos : nat) (before : option ascii) (caps : Caps)
         (k : Cont),
    run (Lit l) pos before (l +:+ y) caps k
    = k (pos + String.length l)%nat (lastOr before l) y caps.
Proof.
  induction l as [|c l IH]; intros y pos before caps k.
  - cbn. rewrite Nat.add_0_r. reflexivity.
  - change (String c l +:+ y) with (String c (l +:+ y)).
    cbn [Lit run]. rewrite Ascii.eqb_refl. rewrite IH.
    cbn [String.length lastOr]. rewrite Nat.add_succ_r. reflexivity.
Qed.

(** The repetition of a class is the greedy choice over the run. *)
Lemma star_class_is_greedy (cls : ascii -> bool) (l rest : string) :
  allOf cls l = true -> stopsAt cls rest = true ->
  forall (pos : nat) (before : option ascii) (caps : Caps) (k : Cont),
    run (Star (Chr cls)) pos before (l +:+ rest) caps k
    = greedy k pos before l rest caps.
Proof.
  intros Hl Hrest pos before caps k. cbn [run].
  assert (Hn : (String.length l <= String.length (l +:+ rest))%nat)
    by (rewrite length_app; lia).
  revert Hn. generalize (String.length (l +:+ rest)) as n.
  revert pos before. induction l as [|c l IH]; intros pos before n Hn.
  - change (EmptyString +:+ rest) with rest. cbn [greedy].
    destruct n as [|n]; [reflexivity|].
    destruct rest as [|c rest]; [reflexivity|].
    cbn in Hrest. cbn [run]. apply negb_true_iff in Hrest. rewrite Hrest.
    reflexivity.
  - cbn in Hl. apply andb_prop in Hl as [Hc Hl].
    destruct n as [|n]; [cbn in Hn; lia|].
    change (String c l +:+ rest) with (String c (l +:+ rest)).
    cbn [greedy run]. rewrite Hc.
    replace (Nat.ltb pos (S pos)) with true
      by (symmetry; apply Nat.ltb_lt; lia).
    rewrite (IH Hl (S pos) (Some c) n) by (cbn in Hn; lia).
    reflexivity.
Qed.

(** When the rest of the pattern matches after [w], with more of the run
    to come or not, that or a longer match is what the greedy choice
    finds; it is this one when nothing longer matches. *)
Lemma greedy_after (k : Cont) (w u rest : string) :
  forall (pos : nat) (before : option ascii) (caps : Caps)
         (m : nat * Caps),
    greedy k (pos + String.length w)%nat (lastOr before w) u rest caps
      = Some m ->
    greedy k pos before (w +:+ u) rest caps = Some m.
Proof.
  induction w as [|c w IH]; intros pos before caps m H.
  - cbn in H. rewrite Nat.add_0_r in H. exact H.
  - change (String c w +:+ u) with (String c (w +:+ u)). cbn [greedy].
    rewrite (IH (S pos) (Some c) caps m); [reflexivity|].
    cbn [String.length lastOr] in H. rewrite Nat.add_succ_r in H. exact H.
Qed.

(** A continuation that needs a character of [f] next fails all along a
    run without such a character. *)
Lemma greedy_none (f : ascii -> bool) (k : Cont) (u rest : string) :
  (forall p b s c, stopsAt f s = true -> k p b s c = None) ->
  allOf (fun c => negb (f c)) u = true -> stopsAt f rest = true ->
  forall (pos : nat) (before : option ascii) (caps : Caps),
    greedy k pos before u rest caps = None.
Proof.
  intros Hk Hu Hrest. induction u as [|c u IH]; intros pos before caps.
  - cbn. apply Hk, Hrest.
  - cbn in Hu. apply andb_prop in Hu as [Hc Hu]. cbn [greedy].
    rewrite (IH Hu). apply Hk. cbn. exact Hc.
Qed.

Lemma run_Cat r1 r2 pos before s caps k :
  run (Cat r1 r2) pos before s caps k
  = run r1 pos before s caps
      (fun pos1 before1 s1 caps1 => run r2 pos1 before1 s1 caps1 k).
Proof. reflexivity. Qed.

Lemma run_Group i r1 pos before s caps k :
  run (Group i r1) pos before s caps k
  = run r1 pos before s caps
      (fun pos1 before1 s1 caps1 =>
         k pos1 before1 s1 ((i, String.substring 0 (pos1 - pos) s) :: caps1)).
Proof. reflexivity. Qed.

Lemma run_Chr cls pos before c s caps k :
  cls c = true ->
  run (Chr cls) pos before (String c s) caps k = k (S pos) (Some c) s caps.
Proof. intros H. cbn [run]. rewrite H. reflexivity. Qed.

Lemma greedy_all (k : Cont) (w rest : string) (pos : nat)
  (before : option ascii) (caps : Caps) (m : nat * Caps) :
  k (pos + String.length w)%nat (lastOr before w) rest caps = Some m ->
  greedy k pos before w rest caps = Some m.
Proof.
  intros H. rewrite <- (app_nil_r w). apply greedy_after. exact H.
Qed.

Lemma word_not_space (c : ascii) : word c = true -> space c = false.
Proof.
  destruct c as [[] [] [] [] [] [] [] []]; vm_compute; congruence.
Qed.

Lemma rePropertyValue_word_run (sp v rest : string) :
  allOf space sp = true -> v <> EmptyString -> allOf word v = true ->
  stopsAt word rest = true ->
  run rePropertyValue 0 None ("Value:" +:+ sp +:+ v +:+ rest) []
      (fun pos1 _ _ caps1 => Some (pos1, caps1))
  = Some ((6 + String.length sp + String.length v)%nat, [(1%nat, v)]).
Proof.
  intros Hsp Hv Hword Hrest.
  destruct v as [|c v]; [contradiction|]. cbn in Hword.
  apply andb_prop in Hword as [Hc Hword].
  unfold rePropertyValue. rewrite run_Cat, run_Lit_prefix, run_Cat.
  rewrite star_class_is_greedy;
    [|exact Hsp
     |rewrite app_cons; cbn [stopsAt]; rewrite (word_not_space c Hc);
      reflexivity].
  apply greedy_all.
  rewrite run_Group. unfold Plus.
  rewrite run_Cat, app_cons, run_Chr by exact Hc.
  rewrite star_class_is_greedy by assumption.
  apply greedy_all.
  match goal with
  | |- context [String.substring 0 ?n _] =>
      replace n with (String.length (String c v))
        by (cbn [String.length]; lia)
  end.
  rewrite <- (app_cons c v rest), substring_prefix.
  cbn [String.length]. do 2 f_equal. lia.
Qed.

Lemma search_found (r : Regexp) (pos : nat) (before : option ascii)
  (s : string) (pos1 : nat) (caps1 : Caps) :
  run r pos before s [] (fun pos1 _ _ caps1 => Some (pos1, caps1))
    = Some (pos1, caps1) ->
  search r pos before s = Some (String.substring 0 (pos1 - pos) s, caps1).
Proof. intros H. destruct s; cbn [search]; rewrite H; reflexivity. Qed.

Lemma no_literal_across_Value (y : string) (c : ascii) (p : string) :
  strings.HasPrefix (String c p) "Value:" = false ->
  strings.HasPrefix (String c p +:+ ("Value:" +:+ y)) "Value:" = false.
Proof.
  destruct p as [|c2 [|c3 [|c4 [|c5 [|c6 p]]]]];
    cbv [strings.HasPrefix String.append]; intros H;
    repeat (match goal with
            | |- context [Ascii.eqb ?a ?b] =>
                is_var a; destruct (Ascii.eqb_spec a b) as [->|_]
            end; [|reflexivity]); first [exact H | reflexivity].
Qed.

Lemma rePropertyValue_word (pre sp v rest : string) :
  strings.Contains pre "Value:" = false ->
  allOf space sp = true -> v <> EmptyString -> allOf word v = true ->
  stopsAt word rest = true ->
  FindStringSubmatch rePropertyValue
    (pre +:+ "Value:" +:+ sp +:+ v +:+ rest)
  = Some ["Value:" +:+ sp +:+ v; v].
Proof.
  intros Hpre Hsp Hv Hword Hrest. unfold FindStringSubmatch.
  change (search rePropertyValue)
    with (search (Cat (Lit (String "V" "alue:"))
                    (Cat (Star (Chr space)) (Group 1 (Plus (Chr word)))))).
  rewrite (regexp_facts.search_skips_prefix "V" "alue:" _ _
             (no_literal_across_Value _) pre None Hpre).
  change (Cat (Lit (String "V" "alue:")) _) with rePropertyValue.
  rewrite (search_found _ _ _ _ _ _
             (rePropertyValue_word_run sp v rest Hsp Hv Hword Hrest)).
  cbn [NumSubexp rePropertyValue Plus Lit Nat.max seq map getCap Nat.eqb].
  do 2 f_equal.
  replace (6 + String.length sp + String.length v - 0)%nat
    with (String.length ("Value:" +:+ sp +:+ v))
    by (rewrite !length_app; cbn [String.length]; lia).
  replace ("Value:" +:+ sp +:+ v +:+ rest)
    with (("Value:" +:+ sp +:+ v) +:+ rest)
    by (rewrite !app_assoc; reflexivity).
  apply substring_prefix.
Qed.


Lemma run_Chr_stops cls pos before s caps k :
  stopsAt cls s = true -> run (Chr cls) pos before s caps k = None.
Proof.
  destruct s as [|c s]; [reflexivity|]. cbn. intros H.
  apply negb_true_iff in H. rewrite H. reflexivity.
Qed.

Lemma allOf_app cls a b :
  allOf cls a = true -> allOf cls b = true -> allOf cls (a +:+ b) = true.
Proof.
  intros Ha Hb. induction a as [|c a IH]; [exact Hb|].
  rewrite app_cons. cbn in Ha |- *. apply andb_prop in Ha as [Hc Ha].
  rewrite Hc, (IH Ha). reflexivity.
Qed.

Lemma reVMState_run (st junk tail : string) :
  st <> EmptyString -> allOf anyNoNL st = true ->
  allOf anyNoNL junk = true -> allOf notDQ junk = true ->
  stopsAt anyNoNL tail = true ->
  run reVMState 0 None
      ("VMState=" +:+ String DQ (st +:+ String DQ (junk +:+ tail))) []
      (fun pos1 _ _ caps1 => Some (pos1, caps1))
  = Some ((10 + String.length st)%nat, [(1%nat, st)]).
Proof.
  intros Hst Hany Hjunk HnoDQ Htail.
  destruct st as [|c st]; [contradiction|]. cbn in Hany.
  apply andb_prop in Hany as [Hc Hany].
  assert (HtailDQ : stopsAt (Ascii.eqb DQ) tail = true).
  { destruct tail as [|t tail]; [reflexivity|]. cbn [stopsAt] in Htail |- *.
    unfold anyNoNL in Htail. rewrite negb_involutive in Htail.
    apply N.eqb_eq in Htail.
    apply negb_true_iff, Ascii.eqb_neq. intros <-. discriminate Htail. }
  unfold reVMState. rewrite run_Cat, run_Lit_prefix, run_Cat.
  rewrite run_Chr by apply Ascii.eqb_refl.
  rewrite run_Cat, run_Group. unfold Plus.
  rewrite run_Cat, app_cons, run_Chr by exact Hc.
  replace (st +:+ String DQ (junk +:+ tail))
    with ((st +:+ String DQ junk) +:+ tail)
    by (rewrite app_assoc; reflexivity).
  rewrite star_class_is_greedy;
    [|apply allOf_app; [exact Hany|cbn; rewrite Hjunk; reflexivity]
     |exact Htail].
  apply greedy_after. cbn [greedy].
  rewrite (greedy_none (Ascii.eqb DQ));
    [|intros p b s caps Hs; apply run_Chr_stops, Hs|exact HnoDQ|exact HtailDQ].
  rewrite app_cons, run_Chr by apply Ascii.eqb_refl.
  replace (String c ((st +:+ String DQ junk) +:+ tail))
    with (String c st +:+ (String DQ junk +:+ tail))
    by (rewrite app_cons, app_assoc; reflexivity).
  match goal with
  | |- context [String.substring 0 ?n _] =>
      replace n with (String.length (String c st))
        by (cbn [String.length]; lia)
  end.
  rewrite substring_prefix. cbn [String.length]. do 2 f_equal.
Qed.

Lemma no_literal_across_VMState (y : string) (c : ascii) (p : string) :
  strings.HasPrefix (String c p) "VMState=" = false ->
  strings.HasPrefix (String c p +:+ ("VMState=" +:+ y)) "VMState=" = false.
Proof.
  destruct p as [|c2 [|c3 [|c4 [|c5 [|c6 [|c7 [|c8 p]]]]]]];
    cbv [strings.HasPrefix String.append]; intros H;
    repeat (match goal with
            | |- context [Ascii.eqb ?a ?b] =>
                is_var a; destruct (Ascii.eqb_spec a b) as [->|_]
            end; [|reflexivity]); first [exact H | reflexivity].
Qed.

Lemma getVMStateFromOutput_line (pre st junk tail : string) :
  strings.Contains pre "VMState=" = false ->
  st <> EmptyString -> allOf anyNoNL st = true ->
  allOf anyNoNL junk = true -> allOf notDQ junk = true ->
  stopsAt anyNoNL tail = true ->
  vboxmanage.getVMStateFromOutput
    (pre +:+ "VMState=" +:+ String DQ (st +:+ String DQ (junk +:+ tail)))
  = st.
Proof.
  intros Hpre Hst Hany Hjunk HnoDQ Htail.
  unfold vboxmanage.getVMStateFromOutput, FindStringSubmatch.
  change (search reVMState)
    with (search (Cat (Lit (String "V" "MState="))
                    (Cat (Chr (Ascii.eqb DQ))
                       (Cat (Group 1 (Plus (Chr anyNoNL)))
                            (Chr (Ascii.eqb DQ)))))).
  rewrite (regexp_facts.search_skips_prefix "V" "MState=" _ _
             (no_literal_across_VMState _) pre None Hpre).
  change (Cat (Lit (String "V" "MState=")) _) with reVMState.
  rewrite (search_found _ _ _ _ _ _
             (reVMState_run st junk tail Hst Hany Hjunk HnoDQ Htail)).
  reflexivity.
Qed.

Lemma run_Assert cond pos before s caps k :
  cond before (peek s) = true ->
  run (Assert cond) pos before s caps k = k pos before s caps.
Proof. intros H. cbn [run]. rewrite H. reflexivity. Qed.

Lemma digit_not_dot (c : ascii) : digit c = true -> Ascii.eqb c "." = false.
Proof.
  destruct c as [[] [] [] [] [] [] [] []]; vm_compute; congruence.
Qed.

Lemma reVersion_run (a b c rest : string) :
  a <> EmptyString -> b <> EmptyString -> c <> EmptyString ->
  allOf digit a = true -> allOf digit b = true -> allOf digit c = true ->
  stopsAt digit rest = true ->
  let triple := a +:+ "." +:+ b +:+ "." +:+ c in
  run reVersion 0 None (triple +:+ rest) []
      (fun pos1 _ _ caps1 => Some (pos1, caps1))
  = Some (String.length triple, [(1%nat, triple)]).
Proof.
  intros Ha Hb Hc Hda Hdb Hdc Hrest triple.
  destruct a as [|a0 a]; [contradiction|].
  destruct b as [|b0 b]; [contradiction|].
  destruct c as [|c0 c]; [contradiction|].
  cbn in Hda, Hdb, Hdc.
  apply andb_prop in Hda as [Ha0 Hda].
  apply andb_prop in Hdb as [Hb0 Hdb].
  apply andb_prop in Hdc as [Hc0 Hdc].
  assert (Hdot : forall y, stopsAt digit ("." +:+ y) = true) by reflexivity.
  subst triple.
  replace ((String a0 a +:+ "." +:+ String b0 b +:+ "." +:+ String c0 c) +:+ rest)
    with (String a0 (a +:+ ("." +:+ String b0 (b +:+ ("." +:+ String c0 (c +:+ rest))))))
    by (rewrite !app_assoc, !app_cons; reflexivity).
  unfold reVersion. rewrite run_Cat. unfold Bol at 1.
  rewrite run_Assert by reflexivity.
  rewrite run_Group. unfold Plus.
  rewrite run_Cat, run_Cat, run_Chr by exact Ha0.
  rewrite star_class_is_greedy by (exact Hda || apply Hdot).
  apply greedy_all.
  rewrite run_Cat, run_Lit_prefix, run_Cat, run_Cat, run_Chr by exact Hb0.
  rewrite star_class_is_greedy by (exact Hdb || apply Hdot).
  apply greedy_all.
  rewrite run_Cat, run_Lit_prefix, run_Cat, run_Chr by exact Hc0.
  rewrite star_class_is_greedy by assumption.
  apply greedy_all.
  set (triple := String a0 a +:+ "." +:+ String b0 b +:+ "." +:+ String c0 c).
  replace (String a0
             (a +:+ "." +:+ String b0 (b +:+ "." +:+ String c0 (c +:+ rest))))
    with (triple +:+ rest)
    by (subst triple; rewrite !app_assoc, !app_cons; reflexivity).
  assert (Hlen : String.length triple =
            (S (S (1 + String.length a + String.length ".")
                + String.length b + String.length ".")
             + String.length c)%nat).
  { subst triple. rewrite !length_app. cbn [String.length]. lia. }
  rewrite <- Hlen, Nat.sub_0_r, substring_prefix. reflexivity.
Qed.

Lemma reVersion_triple (a b c rest : string) :
  a <> EmptyString -> b <> EmptyString -> c <> EmptyString ->
  allOf digit a = true -> allOf digit b = true -> allOf digit c = true ->
  stopsAt digit rest = true ->
  let triple := a +:+ "." +:+ b +:+ "." +:+ c in
  FindStringSubmatch reVersion (triple +:+ rest) = Some [triple; triple].
Proof.
  intros Ha Hb Hc Hda Hdb Hdc Hrest triple.
  unfold FindStringSubmatch.
  pose proof (reVersion_run a b c rest Ha Hb Hc Hda Hdb Hdc Hrest) as Hrun.
  cbn zeta in Hrun. fold triple in Hrun.
  rewrite (search_found _ _ _ _ _ _ Hrun).
  rewrite Nat.sub_0_r, substring_prefix. reflexivity.
Qed.

(** A pattern that begins with a literal finds nothing in a text without
    the literal. *)
Lemma search_no_literal (a : ascii) (l : string) (r : Regexp) :
  forall (s : string) (pos : nat) (before : option ascii),
    strings.Contains s (String a l) = false ->
    search (Cat (Lit (String a l)) r) pos before s = None.
Proof.
  induction s as [|c s IH]; intros pos before H; [reflexivity|].
  cbn [strings.Contains] in H. apply orb_false_elim in H as [Hhere Hlater].
  cbn [search]. rewrite run_Cat.
  rewrite regexp_facts.run_Lit_no_prefix by exact Hhere.
  apply IH, Hlater.
Qed.

Lemma rePropertyValue_no_Value (output : string) :
  strings.Contains output "Value:" = false ->
  FindStringSubmatch rePropertyValue output = None.
Proof.
  intros H. unfold FindStringSubmatch.
  change (search rePropertyValue)
    with (search (Cat (Lit (String "V" "alue:"))
                    (Cat (Star (Chr space)) (Group 1 (Plus (Chr word)))))).
  rewrite (search_no_literal "V" "alue:" _ output O None H). reflexivity.
Qed.

Lemma reBoxPropertyValue_run (v tail : string) :
  v <> EmptyString -> allOf anyNoNL v = true ->
  stopsAt anyNoNL tail = true ->
  run reBoxPropertyValue 0 None ("Value: " +:+ v +:+ tail) []
      (fun pos1 _ _ caps1 => Some (pos1, caps1))
  = Some ((7 + String.length v)%nat, [(1%nat, v)]).
Proof.
  intros Hv Hany Htail.
  destruct v as [|c v]; [contradiction|]. cbn in Hany.
  apply andb_prop in Hany as [Hc Hany].
  unfold reBoxPropertyValue. rewrite run_Cat, run_Lit_prefix, run_Group.
  unfold Plus. rewrite run_Cat, app_cons, run_Chr by exact Hc.
  rewrite star_class_is_greedy by assumption.
  apply greedy_all.
  match goal with
  | |- context [String.substring 0 ?n _] =>
      replace n with (String.length (String c v))
        by (cbn [String.length]; lia)
  end.
  rewrite <- (app_cons c v tail), substring_prefix.
  cbn [String.length]. do 2 f_equal.
Qed.

Lemma no_literal_across_Value_blank (y : string) (c : ascii) (p : string) :
  strings.HasPrefix (String c p) "Value: " = false ->
  strings.HasPrefix (String c p +:+ ("Value: " +:+ y)) "Value: " = false.
Proof.
  destruct p as [|c2 [|c3 [|c4 [|c5 [|c6 [|c7 p]]]]]];
    cbv [strings.HasPrefix String.append]; intros H;
    repeat (match goal with
            | |- context [Ascii.eqb ?a ?b] =>
                is_var a; destruct (Ascii.eqb_spec a b) as [->|_]
            end; [|reflexivity]); first [exact H | reflexivity].
Qed.

Lemma reBoxPropertyValue_line (pre v tail : string) :
  strings.Contains pre "Value: " = false ->
  v <> EmptyString -> allOf anyNoNL v = true ->
  stopsAt anyNoNL tail = true ->
  FindStringSubmatch reBoxPropertyValue (pre +:+ "Value: " +:+ v +:+ tail)
  = Some ["Value: " +:+ v; v].
Proof.
  intros Hpre Hv Hany Htail. unfold FindStringSubmatch.
  change (search reBoxPropertyValue)
    with (search (Cat (Lit (String "V" "alue: "))
                    (Group 1 (Plus (Chr anyNoNL))))).
  rewrite (regexp_facts.search_skips_prefix "V" "alue: " _ _
             (no_literal_across_Value_blank _) pre None Hpre).
  change (Cat (Lit (String "V" "alue: ")) _) with reBoxPropertyValue.
  rewrite (search_found _ _ _ _ _ _
             (reBoxPropertyValue_run v tail Hv Hany Htail)).
  cbn [NumSubexp reBoxPropertyValue Plus Lit Nat.max seq map getCap Nat.eqb].
  do 2 f_equal.
  replace (7 + String.length v - 0)%nat
    with (String.length ("Value: " +:+ v))
    by (rewrite !length_app; cbn [String.length]; lia).
  replace ("Value: " +:+ v +:+ tail)
    with (("Value: " +:+ v) +:+ tail)
    by (rewrite !app_assoc; reflexivity).
  apply substring_prefix.
Qed.

Lemma word_is_anyNoNL (c : ascii) : word c = true -> anyNoNL c = true.
Proof.
  destruct c as [[] [] [] [] [] [] [] []]; vm_compute; congruence.
Qed.

End runs_facts.

(** * Decimal numerals: what is printed is read back *)

Module numerals_facts.
Import regexp runs runs_facts numerals.

Lemma digitsValue_string_of_uint (d : Decimal.uint) (acc : N) :
  semver.digitsValue acc (NilEmpty.string_of_uint d) = uintValue acc d.
Proof.
  revert acc. induction d; intros acc; cbn [NilEmpty.string_of_uint semver.digitsValue uintValue];
    try reflexivity; rewrite IHd; reflexivity.
Qed.

Lemma uintValue_of_uint_acc (d : Decimal.uint) (acc : positive) :
  uintValue (Npos acc) d = Npos (Pos.of_uint_acc d acc).
Proof.
  revert acc. induction d; intros acc; cbn [uintValue Pos.of_uint_acc];
    try reflexivity; rewrite <- IHd; f_equal; lia.
Qed.

Lemma uintValue_of_uint (d : Decimal.uint) :
  uintValue 0 d = N.of_uint d.
Proof.
  unfold N.of_uint.
  induction d; cbn [uintValue Pos.of_uint]; try reflexivity;
    try exact IHd; apply (uintValue_of_uint_acc d).
Qed.

Lemma allOf_string_of_uint (d : Decimal.uint) :
  allOf digit (NilEmpty.string_of_uint d) = true.
Proof. induction d; cbn; try reflexivity; exact IHd. Qed.

Lemma FormatUint_to_uint (n : N) :
  semver.FormatUint n = NilEmpty.string_of_uint (N.to_uint n).
Proof.
  unfold semver.FormatUint, NilZero.string_of_uint.
  destruct (N.to_uint n) eqn:E; try reflexivity.
  exfalso. destruct n; cbn in E; [discriminate|].
  exact (DecimalPos.Unsigned.to_uint_nonnil _ E).
Qed.

Lemma FormatUint_digits (n : N) : allOf digit (semver.FormatUint n) = true.
Proof. rewrite FormatUint_to_uint. apply allOf_string_of_uint. Qed.

Lemma FormatUint_value (n : N) :
  semver.digitsValue 0 (semver.FormatUint n) = n.
Proof.
  rewrite FormatUint_to_uint, digitsValue_string_of_uint, uintValue_of_uint.
  apply DecimalN.Unsigned.of_to.
Qed.

Lemma FormatUint_nonempty (n : N) : semver.FormatUint n <> EmptyString.
Proof.
  rewrite FormatUint_to_uint.
  destruct (N.to_uint n) eqn:E; cbn; try discriminate.
  exfalso. destruct n; cbn in E; [discriminate|].
  exact (DecimalPos.Unsigned.to_uint_nonnil _ E).
Qed.

Lemma to_uint_normal (n : N) (d : Decimal.uint) :
  N.to_uint n = Decimal.D0 d -> d = Decimal.Nil.
Proof.
  intros E.
  pose proof (DecimalN.Unsigned.to_of (N.to_uint n)) as H.
  rewrite DecimalN.Unsigned.of_to, E in H.
  unfold Decimal.unorm in H.
  destruct (Decimal.nzhead (Decimal.D0 d)) eqn:Hz; try discriminate H.
  - injection H as ->. reflexivity.
  - exfalso. exact (nzhead_nonzero _ _ Hz).
Qed.

Lemma FormatUint_no_leading_zero (n : N) :
  semver.hasLeadingZeroes (semver.FormatUint n) = false.
Proof.
  rewrite FormatUint_to_uint.
  destruct (N.to_uint n) eqn:E; cbn; try reflexivity;
    try (destruct (NilEmpty.string_of_uint u); reflexivity).
  apply to_uint_normal in E. subst. reflexivity.
Qed.

Lemma containsOnly_allOf (s : string) (cls : ascii -> bool) :
  semver.containsOnly s cls = allOf cls s.
Proof. induction s as [|c s IH]; cbn; [reflexivity | rewrite IH; reflexivity]. Qed.

Lemma parseNumber_FormatUint (what : string) (n : N) :
  (n < 2 ^ 64)%N -> semver.parseNumber what (semver.FormatUint n) = inl n.
Proof.
  intros Hn. unfold semver.parseNumber, semver.ParseUint.
  rewrite containsOnly_allOf.
  change semver.isNumber with digit.
  rewrite FormatUint_digits, FormatUint_no_leading_zero. cbn [negb].
  pose proof (FormatUint_nonempty n) as Hne.
  rewrite FormatUint_value.
  apply N.ltb_lt in Hn. rewrite Hn.
  destruct (semver.FormatUint n); [contradiction|reflexivity].
Qed.

Lemma cut_at_sep (sep : ascii) (a b : string) :
  allOf (fun c => negb (Ascii.eqb c sep)) a = true ->
  semver.cut sep (a +:+ String sep b) = (a, Some b).
Proof.
  intros Ha. induction a as [|c a IH].
  - change (EmptyString +:+ String sep b) with (String sep b).
    cbn [semver.cut]. rewrite Ascii.eqb_refl. reflexivity.
  - rewrite app_cons. cbn [semver.cut allOf] in Ha |- *.
    apply andb_prop in Ha as [Hc Ha].
    apply negb_true_iff in Hc. rewrite Hc, (IH Ha). reflexivity.
Qed.

Lemma cut_no_sep (sep : ascii) (a : string) :
  allOf (fun c => negb (Ascii.eqb c sep)) a = true ->
  semver.cut sep a = (a, None).
Proof.
  intros Ha. induction a as [|c a IH]; [reflexivity|].
  cbn [semver.cut allOf] in Ha |- *. apply andb_prop in Ha as [Hc Ha].
  apply negb_true_iff in Hc. rewrite Hc, (IH Ha). reflexivity.
Qed.

Lemma allOf_weaken (cls cls' : ascii -> bool) (s : string) :
  (forall c, cls c = true -> cls' c = true) ->
  allOf cls s = true -> allOf cls' s = true.
Proof.
  intros H. induction s as [|c s IH]; [reflexivity|]. cbn.
  intros Hs. apply andb_prop in Hs as [Hc Hs].
  rewrite (H c Hc), (IH Hs). reflexivity.
Qed.

Lemma digit_not (sep : ascii) :
  digit sep = false -> forall c, digit c = true -> negb (Ascii.eqb c sep) = true.
Proof.
  intros Hsep c Hc. apply negb_true_iff, Ascii.eqb_neq. intros ->. congruence.
Qed.

Lemma String_numeric (major minor patch : N) :
  semver.String_ (numeric major minor patch) = triple major minor patch.
Proof.
  unfold semver.String_, numeric. cbn [semver.Major semver.Minor semver.Patch semver.Pre semver.Build].
  rewrite !app_nil_r. reflexivity.
Qed.

Lemma Make_triple (major minor patch : N) :
  (major < 2 ^ 64)%N -> (minor < 2 ^ 64)%N -> (patch < 2 ^ 64)%N ->
  semver.Make (triple major minor patch) = inl (numeric major minor patch).
Proof.
  intros HM Hm Hp. unfold semver.Make, triple.
  pose proof (FormatUint_nonempty major) as Hne.
  destruct (semver.FormatUint major +:+ _) eqn:E.
  { destruct (semver.FormatUint major); [contradiction|discriminate E]. }
  rewrite <- E. clear E.
  assert (Hsep : forall (sep : ascii) (n : N), digit sep = false ->
            allOf (fun c => negb (Ascii.eqb c sep)) (semver.FormatUint n) = true).
  { intros sep n Hsep. eapply allOf_weaken; [apply (digit_not sep Hsep)|].
    apply FormatUint_digits. }
  change ("." +:+ semver.FormatUint minor +:+ "." +:+ semver.FormatUint patch)
    with (String "." (semver.FormatUint minor +:+
                      String "." (semver.FormatUint patch))).
  rewrite (cut_at_sep "." _ _ (Hsep "."%char major eq_refl)).
  rewrite (cut_at_sep "." _ _ (Hsep "."%char minor eq_refl)).
  rewrite !parseNumber_FormatUint by assumption.
  rewrite (cut_no_sep "+" _ (Hsep "+"%char patch eq_refl)).
  rewrite (cut_no_sep "-" _ (Hsep "-"%char patch eq_refl)).
  rewrite parseNumber_FormatUint by assumption.
  reflexivity.
Qed.

End numerals_facts.

(** * What the package reads out of well-formed output *)

Section shapes.

Context {World : Type}.
Variable Now : World -> Z.
Variable Sleep : Z -> World -> World.
Variable getVBoxManagePath : World -> string.
Variable RunAndGetOutput :
  list string -> bool -> World -> (string * option error) * World.
Variable detectAndFixDuplicateHardDiskProblem :
  string -> World -> (bool * option error) * World.
Variable VBoxManageCacheTimeout : Z.
Variable VBoxRunningCacheTimeout : Z.

Local Abbreviation RunCommand :=
  (vboxmanage.RunCommand Now Sleep getVBoxManagePath RunAndGetOutput
     detectAndFixDuplicateHardDiskProblem).
Local Abbreviation RunCommandWithoutLogging :=
  (vboxmanage.RunCommandWithoutLogging Now Sleep getVBoxManagePath
     RunAndGetOutput detectAndFixDuplicateHardDiskProblem).
Local Abbreviation GetVBoxManageVersion :=
  (vboxmanage.GetVBoxManageVersion Now Sleep getVBoxManagePath
     RunAndGetOutput detectAndFixDuplicateHardDiskProblem
     VBoxManageCacheTimeout).
Local Abbreviation GetVMProperty :=
  (vboxmanage.GetVMProperty Now Sleep getVBoxManagePath RunAndGetOutput
     detectAndFixDuplicateHardDiskProblem VBoxManageCacheTimeout).
Local Abbreviation getVMState :=
  (vboxmanage.getVMState Now Sleep getVBoxManagePath RunAndGetOutput
     detectAndFixDuplicateHardDiskProblem VBoxRunningCacheTimeout).
Local Abbreviation IsVMRunning :=
  (vboxmanage.IsVMRunning Now Sleep getVBoxManagePath RunAndGetOutput
     detectAndFixDuplicateHardDiskProblem VBoxRunningCacheTimeout).
Local Abbreviation IsInstalled :=
  (vboxmanage.IsInstalled Now Sleep getVBoxManagePath RunAndGetOutput
     detectAndFixDuplicateHardDiskProblem).
Local Abbreviation cacheSet := (vboxmanage.cacheSet Now).

(** X11: on a miss with a successful run, [GetVMProperty] answers the run
    of word characters that follows the first [Value:] of the output and
    any white space after it, up to the first character that is not a
    letter, a digit or an underscore, and caches exactly that. *)
Theorem GetVMProperty_reads_the_word_after_Value
  (vmName property : string) (s s1 : State World)
  (pre sp v rest : string) :
  memory_cache.Get (vBoxResponseCache s) (Now (world s)) property = None ->
  RunCommand ["guestproperty"; "get"; vmName; property] s =
    ((pre +:+ "Value:" +:+ sp +:+ v +:+ rest, None), s1) ->
  strings.Contains pre "Value:" = false ->
  runs.allOf regexp.space sp = true ->
  v <> EmptyString -> runs.allOf regexp.word v = true ->
  runs.stopsAt regexp.word rest = true ->
  GetVMProperty vmName property s =
    (v, snd (cacheSet property v VBoxManageCacheTimeout s1)).
Proof.
  intros Hmiss Hrun Hpre Hsp Hv Hword Hrest.
  unfold vboxmanage.GetVMProperty, bind, vboxmanage.cacheGet.
  rewrite Hmiss, Hrun.
  rewrite (runs_facts.rePropertyValue_word pre sp v rest Hpre Hsp Hv Hword Hrest).
  reflexivity.
Qed.

(** X12: on a miss with a successful run whose output has no [Value:] in
    it, as when VBoxManage prints that no value is set, [GetVMProperty]
    answers the empty string and caches the empty string. *)
Theorem GetVMProperty_without_Value_is_empty
  (vmName property : string) (s s1 : State World) (output : string) :
  memory_cache.Get (vBoxResponseCache s) (Now (world s)) property = None ->
  RunCommand ["guestproperty"; "get"; vmName; property] s =
    ((output, None), s1) ->
  strings.Contains output "Value:" = false ->
  GetVMProperty vmName property s =
    (EmptyString,
     snd (cacheSet property EmptyString VBoxManageCacheTimeout s1)).
Proof.
  intros Hmiss Hrun Hno.
  unfold vboxmanage.GetVMProperty, bind, vboxmanage.cacheGet.
  rewrite Hmiss, Hrun, (runs_facts.rePropertyValue_no_Value output Hno).
  reflexivity.
Qed.

(** X13: on a miss with a successful showvminfo in which the first
    [VMState=] is followed by a quoted text, [getVMState] answers what
    stands between the opening quote and the last quote of that line, and
    caches it for [VBoxRunningCacheTimeout]; [IsVMRunning] answers whether
    that text is "running".  The line may go on after the closing quote as
    long as no further quote follows. *)
Theorem IsVMRunning_reads_the_VMState_line
  (vmName : string) (s s1 : State World) (pre st junk tail : string) :
  let rawVMInfo :=
    pre +:+ "VMState=" +:+ String DQ (st +:+ String DQ (junk +:+ tail)) in
  memory_cache.Get (vBoxResponseCache s) (Now (world s)) "vmstate" = None ->
  RunCommandWithoutLogging ["showvminfo"; "--machinereadable"; vmName] s =
    ((rawVMInfo, None), s1) ->
  strings.Contains rawVMInfo vBoxManageOutputNoVMInstalled = false ->
  strings.Contains pre "VMState=" = false ->
  st <> EmptyString -> runs.allOf regexp.anyNoNL st = true ->
  runs.allOf regexp.anyNoNL junk = true -> runs.allOf runs.notDQ junk = true ->
  runs.stopsAt regexp.anyNoNL tail = true ->
  let s2 := snd (cacheSet "vmstate" st VBoxRunningCacheTimeout s1) in
  getVMState vmName s = ((st, None), s2)
  /\ IsVMRunning vmName s = ((String.eqb st "running", None), s2).
Proof.
  intros rawVMInfo Hmiss Hrun Hdiag Hpre Hst Hany Hjunk HnoDQ Htail s2.
  assert (Hstate : getVMState vmName s = ((st, None), s2)).
  { unfold vboxmanage.getVMState, bind, vboxmanage.cacheGet.
    rewrite Hmiss, Hrun, Hdiag. subst rawVMInfo.
    rewrite (runs_facts.getVMStateFromOutput_line pre st junk tail
               Hpre Hst Hany Hjunk HnoDQ Htail).
    destruct (String.eqb_spec st EmptyString) as [Heq|_]; [contradiction|].
    reflexivity. }
  split; [exact Hstate|].
  unfold vboxmanage.IsVMRunning, bind. rewrite Hstate. reflexivity.
Qed.

(** X14: for every three numbers below 2^64, when [--version] prints them
    in decimal with dots in between, followed by anything that does not go
    on with a digit, [GetVBoxManageVersion] answers the version made of
    these three numbers and caches its text; until the entry expires the
    cached text is read back as the same version without starting
    VBoxManage. *)
Theorem GetVBoxManageVersion_reads_and_keeps_every_triple
  (major minor patch : N) (rest : string) (s s1 : State World) :
  (major < 2 ^ 64)%N -> (minor < 2 ^ 64)%N -> (patch < 2 ^ 64)%N ->
  runs.stopsAt regexp.digit rest = true ->
  memory_cache.Get (vBoxResponseCache s) (Now (world s)) "vboxmanageversion"
    = None ->
  RunCommand ["--version"] s =
    ((numerals.triple major minor patch +:+ rest, None), s1) ->
  let version := numerals.numeric major minor patch in
  let s2 := snd (cacheSet "vboxmanageversion"
                   (numerals.triple major minor patch)
                   VBoxManageCacheTimeout s1) in
  GetVBoxManageVersion s = ((version, None), s2)
  /\ forall s3 : State World,
      vBoxResponseCache s3 !! "vboxmanageversion" =
        vBoxResponseCache s2 !! "vboxmanageversion" ->
      Now (world s3) < Now (world s1) + VBoxManageCacheTimeout ->
      GetVBoxManageVersion s3 = ((version, None), s3).
Proof.
  intros HM Hm Hp Hrest Hmiss Hrun version s2.
  pose proof (runs_facts.reVersion_triple
                (semver.FormatUint major) (semver.FormatUint minor)
                (semver.FormatUint patch) rest
                (numerals_facts.FormatUint_nonempty major)
                (numerals_facts.FormatUint_nonempty minor)
                (numerals_facts.FormatUint_nonempty patch)
                (numerals_facts.FormatUint_digits major)
                (numerals_facts.FormatUint_digits minor)
                (numerals_facts.FormatUint_digits patch) Hrest) as Hfind.
  cbn zeta in Hfind. fold (numerals.triple major minor patch) in Hfind.
  split.
  - unfold vboxmanage.GetVBoxManageVersion,
      vboxmanage.getVBoxManageVersionSemanticPart, bind, vboxmanage.cacheGet.
    rewrite Hmiss, Hrun, Hfind. unfold ret. cbn [nth].
    rewrite (numerals_facts.Make_triple major minor patch HM Hm Hp).
    rewrite numerals_facts.String_numeric. reflexivity.
  - intros s3 Hsame Hfresh.
    unfold vboxmanage.GetVBoxManageVersion, bind, vboxmanage.cacheGet,
      memory_cache.Get.
    rewrite Hsame. subst s2. cbn. unfold memory_cache.Set_.
    rewrite lookup_insert_eq. cbn.
    apply Z.ltb_lt in Hfresh. rewrite Hfresh.
    rewrite (numerals_facts.Make_triple major minor patch HM Hm Hp).
    reflexivity.
Qed.

End shapes.

(** ** The older copy *)

Section older_copy.

Context {World : Type}.
Variable Now : World -> Z.
Variable Sleep : Z -> World -> World.
Variable RunVBoxManage :
  list string -> World -> (string * option error) * World.
Variable VBoxManageCacheTimeout : Z.

Local Abbreviation CallRunVBoxManage :=
  (vboxmanage_old.CallRunVBoxManage Now Sleep RunVBoxManage).
Local Abbreviation GetBoxProperty :=
  (vboxmanage_old.GetBoxProperty Now Sleep RunVBoxManage
     VBoxManageCacheTimeout).

(** X16: the older copy reads more than a word: on a miss with a
    successful run, [GetBoxProperty] answers everything that follows the
    first [Value: ] of the output up to the end of that line, and caches
    it. *)
Theorem GetBoxProperty_reads_the_rest_of_the_line
  (boxName property : string) (s s1 : State World) (pre v tail : string) :
  memory_cache.Get (vBoxResponseCache s) (Now (world s)) property = None ->
  CallRunVBoxManage ["guestproperty"; "get"; boxName; property] s =
    ((pre +:+ "Value: " +:+ v +:+ tail, None), s1) ->
  strings.Contains pre "Value: " = false ->
  v <> EmptyString -> runs.allOf regexp.anyNoNL v = true ->
  runs.stopsAt regexp.anyNoNL tail = true ->
  GetBoxProperty boxName property s =
    (v, snd (vboxmanage.cacheSet Now property v VBoxManageCacheTimeout s1)).
Proof.
  intros Hmiss Hrun Hpre Hv Hany Htail.
  unfold vboxmanage_old.GetBoxProperty,
    vboxmanage_old.ensureVBoxResponseCacheInitialised, bind, ret,
    vboxmanage.cacheGet.
  rewrite Hmiss, Hrun.
  rewrite (runs_facts.reBoxPropertyValue_line pre v tail Hpre Hv Hany Htail).
  reflexivity.
Qed.

End older_copy.

(** * The further properties on concrete inputs *)

(** X2 at work: behind the flag of a caller that never came back, the
    command is started two minutes later. *)
Lemma runCommand_behind_stale_flag_example :
  let s := script.staleFlag script.versionOutput in
  script.runCommand ["--version"] true s =
    script.runCommand ["--version"] true
      {| vBoxResponseCache := vBoxResponseCache s;
         vBoxManageStarted := 0;
         calls := calls s;
         world := Nat.iter 240 (script.Sleep pollInterval) (world s) |}.
Proof.
  intros s.
  refine (runCommand_behind_stale_flag script.Now script.Sleep
            script.getVBoxManagePath script.RunAndGetOutput
            script.detectAndFixDuplicateHardDiskProblem
            ["--version"] true s _).
  vm_compute. discriminate.
Defined.

(** X5 at work: the mode read for one VM is the answer for another VM
    as well, and the state stays as it is. *)
Lemma GetVMProperty_is_served_until_expiry_example :
  let s := script.prints script.valueOutput in
  let s2 := snd (script.GetVMProperty "NaksuAbittiKTP" "mode" s) in
  script.GetVMProperty "AnotherVM" "mode" s2 = ("exam", s2).
Proof.
  intros s s2.
  refine (proj1 (GetVMProperty_is_served_until_expiry script.Now script.Sleep
                   script.getVBoxManagePath script.RunAndGetOutput
                   script.detectAndFixDuplicateHardDiskProblem
                   script.VBoxManageCacheTimeout
                   "NaksuAbittiKTP" "mode" s _ s2 "AnotherVM" eq_refl) _).
  - vm_compute. reflexivity.
  - vm_compute. reflexivity.
Defined.


(** X7 at work: the VM runs, and so does, for two seconds, every other
    VM that is asked about. *)
Lemma IsVMRunning_is_served_until_expiry_example :
  let s := script.prints script.runningOutput in
  let s2 := snd (script.IsVMRunning "NaksuAbittiKTP" s) in
  fst (script.IsVMRunning "NaksuAbittiKTP" s) = (true, None)
  /\ script.IsVMRunning "AnotherVM" s2 = ((true, None), s2).
Proof.
  intros s s2.
  destruct (IsVMRunning_is_served_until_expiry
              script.Now script.Sleep
              script.getVBoxManagePath script.RunAndGetOutput
              script.detectAndFixDuplicateHardDiskProblem
              script.VBoxRunningCacheTimeout
              "NaksuAbittiKTP" s script.runningOutput
              (snd (script.RunCommand script.showvminfo s))
              eq_refl eq_refl eq_refl) as [H1 H2].
  { vm_compute. discriminate. }
  split.
  - unfold script.IsVMRunning. rewrite H1. vm_compute. reflexivity.
  - unfold script.IsVMRunning.
    rewrite (H2 s2 "AnotherVM" eq_refl); [vm_compute; reflexivity|].
    vm_compute. reflexivity.
Defined.

(** X8 at work: the guest property vmstate holds the word exam, and the VM
    is then reported in the state exam, not running. *)
Lemma property_named_vmstate_example :
  let s := script.prints script.valueOutput in
  let s2 := snd (script.GetVMProperty "NaksuAbittiKTP" "vmstate" s) in
  script.getVMState "NaksuAbittiKTP" s2 = (("exam", None), s2)
  /\ script.IsVMRunning "NaksuAbittiKTP" s2 = ((false, None), s2).
Proof.
  intros s s2.
  refine (property_named_vmstate_is_taken_for_the_state
            script.Now script.Sleep
            script.getVBoxManagePath script.RunAndGetOutput
            script.detectAndFixDuplicateHardDiskProblem
            script.VBoxManageCacheTimeout script.VBoxRunningCacheTimeout
            "NaksuAbittiKTP" s script.valueOutput "Value: exam" "exam"
            (snd (script.RunCommand
                    ["guestproperty"; "get"; "NaksuAbittiKTP"; "vmstate"] s))
            eq_refl eq_refl _ s2 "NaksuAbittiKTP" eq_refl _).
  - vm_compute. reflexivity.
  - vm_compute. reflexivity.
Defined.

(** X10 at work: the directory that is gone is passed over, the next one is
    short of space. *)
Lemma CheckFreeDisk_example :
  let directories :=
    ["/home/abitti/ktp"; "/media/usb"; "/home/abitti/VirtualBox VMs";
     "/home/abitti/ktp-jako"] in
  exists before behind : list string,
    directories = before ++ "/home/abitti/VirtualBox VMs" :: behind
    /\ host.CheckFreeDisk script.GetDiskFree 5368709120 before = None
    /\ script.GetDiskFree "/home/abitti/VirtualBox VMs" = inl 1048576%N.
Proof.
  intros directories.
  destruct (CheckFreeDisk_reports_first_low_directory script.GetDiskFree
              5368709120 directories
              {| host.Err := "disk size is too low";
                 host.LowPath := "/home/abitti/VirtualBox VMs";
                 host.LowSize := 1048576 |} eq_refl)
    as (before & behind & H1 & H2 & H3 & _).
  exists before, behind. repeat split; assumption.
Defined.

(** X11 at work: the value ends at the hyphen, and the lower-case value
    of the line before is not taken for it. *)
Lemma GetVMProperty_reads_the_word_example :
  let s := script.prints ("Name: mode, value: x" +:+ String LF
                          ("Value:   exam_2021-mode" +:+ String LF EmptyString)) in
  fst (script.GetVMProperty "NaksuAbittiKTP" "mode" s) = "exam_2021".
Proof.
  intros s. unfold script.GetVMProperty.
  rewrite (GetVMProperty_reads_the_word_after_Value
             script.Now script.Sleep
             script.getVBoxManagePath script.RunAndGetOutput
             script.detectAndFixDuplicateHardDiskProblem
             script.VBoxManageCacheTimeout
             "NaksuAbittiKTP" "mode" s
             (snd (script.RunCommand script.guestproperty s))
             ("Name: mode, value: x" +:+ String LF EmptyString) "   "
             "exam_2021" ("-mode" +:+ String LF EmptyString)
             eq_refl eq_refl eq_refl eq_refl
             ltac:(discriminate) eq_refl eq_refl).
  reflexivity.
Defined.

(** X12 at work: no value is set. *)
Lemma GetVMProperty_without_Value_example :
  let s := script.prints script.noValueOutput in
  fst (script.GetVMProperty "NaksuAbittiKTP" "mode" s) = EmptyString.
Proof.
  intros s. unfold script.GetVMProperty.
  rewrite (GetVMProperty_without_Value_is_empty
             script.Now script.Sleep
             script.getVBoxManagePath script.RunAndGetOutput
             script.detectAndFixDuplicateHardDiskProblem
             script.VBoxManageCacheTimeout
             "NaksuAbittiKTP" "mode" s
             (snd (script.RunCommand script.guestproperty s))
             script.noValueOutput eq_refl eq_refl eq_refl).
  reflexivity.
Defined.

(** X13 at work: the state is taken up to the last quote of its line. *)
Lemma IsVMRunning_reads_the_VMState_line_example :
  let s := script.prints script.runningOutput in
  fst (script.IsVMRunning "NaksuAbittiKTP" s) = (true, None)
  /\ fst (script.getVMState "NaksuAbittiKTP"
            (script.prints
               ("VMState=" +:+ String DQ
                  ("saved" +:+ String DQ (" since=" +:+ String DQ
                     ("noon" +:+ String DQ (String LF EmptyString)))))))
     = ("saved" +:+ String DQ (" since=" +:+ String DQ "noon"), None).
Proof.
  intros s. split.
  - unfold script.IsVMRunning.
    rewrite (proj2 (IsVMRunning_reads_the_VMState_line
               script.Now script.Sleep
               script.getVBoxManagePath script.RunAndGetOutput
               script.detectAndFixDuplicateHardDiskProblem
               script.VBoxRunningCacheTimeout
               "NaksuAbittiKTP" s
               (snd (script.RunCommand script.showvminfo s))
               ("name=" +:+ String DQ ("NaksuAbittiKTP" +:+ String DQ
                  (String LF EmptyString)))
               "running" EmptyString
               (String LF ("VMStateChangeTime=" +:+ String DQ
                  ("2021-03-01T10:00:00" +:+ String DQ (String LF EmptyString))))
               eq_refl eq_refl eq_refl eq_refl
               ltac:(discriminate) eq_refl eq_refl eq_refl eq_refl)).
    reflexivity.
  - vm_compute. reflexivity.
Defined.

(** X14 at work: 6.1.26r145957 is version 6.1.26, the first time from the
    output and the second time from the cache. *)
Lemma GetVBoxManageVersion_reads_and_keeps_example :
  let s := script.prints script.versionOutput in
  let s2 := snd (script.GetVBoxManageVersion s) in
  fst (script.GetVBoxManageVersion s) = (version_6_1_26, None)
  /\ script.GetVBoxManageVersion s2 = ((version_6_1_26, None), s2).
Proof.
  intros s s2.
  destruct (GetVBoxManageVersion_reads_and_keeps_every_triple
              script.Now script.Sleep
              script.getVBoxManagePath script.RunAndGetOutput
              script.detectAndFixDuplicateHardDiskProblem
              script.VBoxManageCacheTimeout
              6 1 26 ("r145957" +:+ String LF EmptyString) s
              (snd (script.RunCommand ["--version"] s))
              eq_refl eq_refl eq_refl eq_refl eq_refl eq_refl) as [H1 H2].
  split.
  - unfold script.GetVBoxManageVersion. rewrite H1. reflexivity.
  - unfold script.GetVBoxManageVersion.
    rewrite (H2 s2); [reflexivity| |]; vm_compute; reflexivity.
Defined.

(** X16 at work: the value has blanks in it and ends with its line. *)
Lemma GetBoxProperty_reads_the_rest_of_the_line_example :
  let s := script.prints ("Value: exam mode 2021" +:+ String LF "Timestamp: 1") in
  fst (script.GetBoxProperty "NaksuAbittiKTP" "mode" s) = "exam mode 2021".
Proof.
  intros s. unfold script.GetBoxProperty.
  rewrite (GetBoxProperty_reads_the_rest_of_the_line
             script.Now script.Sleep script.RunVBoxManage
             script.VBoxManageCacheTimeout
             "NaksuAbittiKTP" "mode" s
             (snd (vboxmanage_old.CallRunVBoxManage script.Now script.Sleep
                     script.RunVBoxManage script.guestproperty s))
             EmptyString "exam mode 2021" (String LF "Timestamp: 1")
             eq_refl eq_refl eq_refl ltac:(discriminate) eq_refl eq_refl).
  reflexivity.
Defined.

(** * Files *)

Module mebroutines_facts.
Import mebroutines.

(** A mode without any of the kind bits has none of them. *)
Lemma regular_has_no_kind_bit (m : Z) (k : Z) :
  Z.land m ModeType = 0 -> 0 <= k -> Z.testbit ModeType k = true ->
  Z.land m (Z.shiftl 1 k) = 0.
Proof.
  intros H Hk Hty.
  assert (Hbit : Z.testbit m k = false).
  { pose proof (Z.land_spec m ModeType k) as Hs.
    rewrite H, Z.bits_0, Hty, andb_true_r in Hs. symmetry. exact Hs. }
  apply Z.bits_inj'. intros n Hn.
  rewrite Z.land_spec, Z.bits_0, Z.shiftl_spec by lia.
  destruct (Z.eq_dec n k) as [->|Hne].
  - rewrite Hbit. reflexivity.
  - replace (Z.testbit 1 (n - k)) with false; [apply andb_false_r|].
    symmetry. destruct (Z.ltb_spec (n - k) 0) as [Hlt|Hge].
    + apply Z.testbit_neg_r. exact Hlt.
    + change 1 with (2 ^ 0). apply Z.pow2_bits_false. lia.
Qed.

Lemma IsRegular_no_kind (m : Z) :
  IsRegular m = true -> forall k, In k kinds -> Z.land m k = 0.
Proof.
  unfold IsRegular. intros H k Hk. apply Z.eqb_eq in H.
  cbn in Hk.
  destruct Hk as [<-|[<-|[<-|[<-|[<-|[<-|[<-|[]]]]]]]];
    apply regular_has_no_kind_bit; (exact H || lia || reflexivity).
Qed.

End mebroutines_facts.

Section files.

Context {World File : Type}.
Variable os_Lstat : string -> World -> Z + error.
Variable os_Open : string -> World -> (File + error) * World.
Variable os_Create : string -> World -> (File + error) * World.
Variable io_Copy : File -> File -> World -> option error * World.
Variable Sync : File -> World -> option error * World.
Variable file_Close : File -> World -> option error * World.
Variable os_Remove : string -> World -> option error * World.
Variable filepath_Walk : string -> World -> list (string * option error).

Import mebroutines.

Local Abbreviation ExistsDir := (mebroutines.ExistsDir os_Lstat).
Local Abbreviation ExistsFile := (mebroutines.ExistsFile os_Lstat).
Local Abbreviation ExistsCharDevice := (mebroutines.ExistsCharDevice os_Lstat).
Local Abbreviation CopyFile :=
  (mebroutines.CopyFile os_Lstat os_Open os_Create io_Copy Sync file_Close).
Local Abbreviation RemoveDirAndLogErrors :=
  (mebroutines.RemoveDirAndLogErrors os_Remove filepath_Walk).

(** X17: [CopyFile] copies regular files only.  When [os.Lstat] finds the
    source to be a directory, a symbolic link, a pipe, a socket, a device
    or an irregular file, [ExistsFile] is false of it, and [CopyFile]
    returns "could not find source file" without opening or creating
    anything.  Lstat does not follow links, so a link to a regular file is
    refused as well. *)
Theorem CopyFile_takes_regular_files_only
  (src dst : string) (w : World) (mode k : Z) :
  os_Lstat src w = inl mode ->
  In k kinds -> Z.land mode k <> 0 ->
  ExistsFile src w = false
  /\ CopyFile src dst w =
       (Return (Some (errors_New "could not find source file")), ([], w)).
Proof.
  intros Hstat Hk Hbit.
  assert (Hno : ExistsFile src w = false).
  { unfold mebroutines.ExistsFile, getFileMode. rewrite Hstat.
    destruct (IsRegular mode) eqn:E.
    - exfalso. apply Hbit.
      exact (mebroutines_facts.IsRegular_no_kind mode E k Hk).
    - rewrite andb_false_r. reflexivity. }
  split; [exact Hno|].
  unfold mebroutines.CopyFile. rewrite Hno. reflexivity.
Qed.

(** X30: a path is of one kind at most: what [ExistsFile] takes for a
    regular file is neither a directory for [ExistsDir] nor a character
    device for [ExistsCharDevice], and what [ExistsDir] takes for a
    directory is no regular file; a path that [os.Lstat] cannot read is
    none of the three. *)
Theorem a_path_is_of_one_kind (path : string) (w : World) :
  (ExistsFile path w = true ->
     ExistsDir path w = false /\ ExistsCharDevice path w = false)
  /\ (ExistsDir path w = true -> ExistsFile path w = false)
  /\ (forall e : error,
        os_Lstat path w = inr e ->
        ExistsFile path w = false /\ ExistsDir path w = false
        /\ ExistsCharDevice path w = false).
Proof.
  unfold mebroutines.ExistsFile, mebroutines.ExistsDir,
    mebroutines.ExistsCharDevice, getFileMode.
  destruct (os_Lstat path w) as [mode|e0].
  2: { cbn. repeat split; (discriminate || reflexivity). }
  assert (Hreg : IsRegular mode = true ->
                 Z.land mode ModeDir = 0 /\ Z.land mode ModeDevice = 0).
  { intros H. split; apply (mebroutines_facts.IsRegular_no_kind mode H);
      cbn; auto 10. }
  cbn [bool_decide decide_rel andb]. unfold IsDir.
  destruct (IsRegular mode) eqn:E.
  - destruct (Hreg eq_refl) as [Hd Hv]. rewrite Hd, Hv. cbn.
    repeat split; (discriminate || reflexivity || congruence).
  - cbn. repeat split; (discriminate || reflexivity || congruence).
Qed.

(** X18: however its steps end, [CopyFile] closes every file it opened,
    once, the destination before the source, and it closes them after
    everything else it does: the closes are the end of the record of
    operations, in the reverse order of the opens. *)
Theorem CopyFile_closes_every_file_it_opened
  (src dst : string) (w : World) :
  let ops := fst (snd (CopyFile src dst w)) in
  closed ops = rev (opened ops)
  /\ exists work : list (Op File),
      closed work = []
      /\ ops = work ++ map OpClose (rev (opened work)).
Proof.
  unfold mebroutines.CopyFile, closeOut, Close.
  destruct (ExistsFile src w); cbn [negb].
  2: { cbn. split; [reflexivity|]. exists []. split; reflexivity. }
  destruct (os_Open src w) as [[in_|e] w1].
  2: { cbn. split; [reflexivity|]. exists [OpOpen src None].
       split; reflexivity. }
  destruct (os_Create dst w1) as [[out|e] w2].
  2: { destruct (file_Close in_ w2) as [[ce|] w3]; cbn;
         (split; [reflexivity|]);
         exists [OpOpen src (Some in_); OpCreate dst None];
         split; reflexivity. }
  destruct (io_Copy out in_ w2) as [[e|] w3].
  { destruct (file_Close out w3) as [cerr w4].
    destruct (file_Close in_ w4) as [[ce|] w5]; cbn;
      (split; [reflexivity|]);
      exists [OpOpen src (Some in_); OpCreate dst (Some out); OpCopy out in_];
      split; reflexivity. }
  destruct (Sync out w3) as [[e|] w4];
    destruct (file_Close out w4) as [cerr w5];
    destruct (file_Close in_ w5) as [[ce|] w6]; cbn;
    (split; [reflexivity|]);
    exists [OpOpen src (Some in_); OpCreate dst (Some out); OpCopy out in_;
            OpSync out];
    split; reflexivity.
Qed.

(** X19: [CopyFile] returns nil exactly when the source is a regular file
    and opening it, creating the destination, copying, synchronising,
    closing the destination and closing the source all succeed, each in
    the world the step before left. *)
Theorem CopyFile_returns_nil_iff_every_step_succeeded
  (src dst : string) (w : World) :
  fst (CopyFile src dst w) = Return None <->
  ExistsFile src w = true
  /\ exists (in_ out : File) (w1 w2 w3 w4 w5 w6 : World),
      os_Open src w = (inl in_, w1)
      /\ os_Create dst w1 = (inl out, w2)
      /\ io_Copy out in_ w2 = (None, w3)
      /\ Sync out w3 = (None, w4)
      /\ file_Close out w4 = (None, w5)
      /\ file_Close in_ w5 = (None, w6).
Proof.
  unfold mebroutines.CopyFile, closeOut, Close. split.
  - destruct (ExistsFile src w); cbn [negb]; [|discriminate].
    destruct (os_Open src w) as [[in_|e] w1] eqn:Eo; [|discriminate].
    destruct (os_Create dst w1) as [[out|e] w2] eqn:Ec.
    2: { destruct (file_Close in_ w2) as [[ce|] w3]; discriminate. }
    destruct (io_Copy out in_ w2) as [[e|] w3] eqn:Ecp.
    { destruct (file_Close out w3) as [cerr w4].
      destruct (file_Close in_ w4) as [[ce|] w5]; discriminate. }
    destruct (Sync out w3) as [[e|] w4] eqn:Es.
    { destruct (file_Close out w4) as [cerr w5].
      destruct (file_Close in_ w5) as [[ce|] w6]; discriminate. }
    destruct (file_Close out w4) as [[cerr|] w5] eqn:Eout;
      destruct (file_Close in_ w5) as [[ce|] w6] eqn:Ein; try discriminate.
    intros _. split; [reflexivity|].
    exists in_, out, w1, w2, w3, w4, w5, w6. repeat split; assumption.
  - intros (Hex & in_ & out & w1 & w2 & w3 & w4 & w5 & w6
            & Ho & Hc & Hcp & Hs & Hco & Hci).
    rewrite Hex. cbn [negb]. rewrite Ho, Hc, Hcp, Hs, Hco, Hci. reflexivity.
Qed.

(** X29: when source and destination could be opened and the source is
    closed without error, [CopyFile] reports the first failure of its
    steps: a failed copy, else a failed sync, and only when both went well
    the error of closing the destination, unwrapped; after a failed copy
    or sync the result of closing the destination is dropped. *)
Theorem CopyFile_reports_the_first_failure
  (src dst : string) (w : World) (in_ out : File)
  (w1 w2 w3 w4 w5 w6 : World) (copied synced cerr : option error) :
  ExistsFile src w = true ->
  os_Open src w = (inl in_, w1) ->
  os_Create dst w1 = (inl out, w2) ->
  io_Copy out in_ w2 = (copied, w3) ->
  Sync out w3 = (synced, w4) ->
  file_Close out (match copied with Some _ => w3 | None => w4 end)
    = (cerr, w5) ->
  file_Close in_ w5 = (None, w6) ->
  fst (CopyFile src dst w) =
    Return
      match copied, synced with
      | Some e, _ =>
          Some (Errorf1 "error when copying data: " (Error e) EmptyString)
      | None, Some e =>
          Some (Errorf1 "error when syncing destination file: " (Error e)
                        EmptyString)
      | None, None => cerr
      end.
Proof.
  intros Hex Ho Hc Hcp Hs Hco Hci.
  unfold mebroutines.CopyFile, closeOut, Close.
  rewrite Hex. cbn [negb]. rewrite Ho, Hc, Hcp.
  destruct copied as [e|].
  - rewrite Hco, Hci. reflexivity.
  - rewrite Hs. destruct synced as [e|]; rewrite Hco, Hci; reflexivity.
Qed.

(** What the walk function has collected when the walk is over. *)
Lemma walkFn_collects (visits : list (string * option error)) :
  forall paths : list string,
    if forallb (fun v => regexp.isNone (snd v)) visits
    then walkFn visits paths = (paths ++ map fst visits, None)
    else exists collected e, walkFn visits paths = (collected, Some e).
Proof.
  induction visits as [|[p [e|]] visits IH]; intros paths; cbn.
  - rewrite app_nil_r. reflexivity.
  - eauto.
  - specialize (IH (paths ++ [p])).
    destruct (forallb _ visits); [|exact IH].
    rewrite IH, <- app_assoc. reflexivity.
Qed.

(** The loop removes the first [count] paths, the last of them first. *)
Lemma removeDownFrom_trace (paths : list string) :
  forall (count : nat) (removals : list string) (w : World),
    (count <= length paths)%nat ->
    fst (removeDownFrom os_Remove count paths removals w)
    = removals ++ rev (take count paths).
Proof.
  induction count as [|n IH]; intros removals w Hn.
  - cbn. rewrite app_nil_r. reflexivity.
  - cbn [removeDownFrom].
    destruct (lookup_lt_is_Some_2 paths n ltac:(lia)) as [path Hpath].
    rewrite Hpath. destruct (os_Remove path w) as [r w'].
    rewrite IH by lia.
    rewrite (take_S_r paths n path Hpath), rev_app_distr. cbn.
    rewrite <- app_assoc. reflexivity.
Qed.

(** X20: [RemoveDirAndLogErrors] removes all or nothing is tried: when
    the walk meets no error, [os.Remove] is called once on every path of
    the walk, in the reverse order of the walk, so that what is below a
    directory goes before the directory, and a removal that fails does not
    stop the ones after it; when the walk meets an error anywhere, nothing
    is removed and the world is left as it was. *)
Theorem RemoveDirAndLogErrors_removes_backwards_or_nothing
  (topPath : string) (w : World) :
  let visits := filepath_Walk topPath w in
  if forallb (fun v => regexp.isNone (snd v)) visits
  then fst (RemoveDirAndLogErrors topPath w) = rev (map fst visits)
  else RemoveDirAndLogErrors topPath w = ([], w).
Proof.
  intros visits. unfold mebroutines.RemoveDirAndLogErrors. fold visits.
  pose proof (walkFn_collects visits []) as H.
  destruct (forallb _ visits).
  - rewrite H. cbn [app].
    rewrite removeDownFrom_trace by lia.
    rewrite firstn_all. reflexivity.
  - destruct H as (collected & e & ->). reflexivity.
Qed.

End files.

(** * Starting the server *)

Section server.

Context {World : Type}.
Variable vboxmanage_CleanUpTrashVMDirectories : World -> World.
Variable box_Installed : World -> (bool * option error) * World.
Variable box_Running : World -> (bool * option error) * World.
Variable box_StartCurrentBox : World -> option error * World.
Variable xlate_GetRaw : string -> string.
Variable xlate_Get : string -> error -> string.

Local Abbreviation Server :=
  (start.Server vboxmanage_CleanUpTrashVMDirectories box_Installed
     box_Running box_StartCurrentBox xlate_GetRaw xlate_Get).

(** X21: [Server] starts the box only when it is installed and not
    running: [box.StartCurrentBox] is called exactly when [box.Installed]
    answered (true, nil) and [box.Running] answered (false, nil);
    [box.Running] is asked exactly when the box was found installed; and
    [Server] returns nil exactly when, on top of the two answers, the
    start itself returned nil. *)
Theorem Server_starts_only_an_installed_stopped_box (w : World) :
  let w0 := vboxmanage_CleanUpTrashVMDirectories w in
  let installed := fst (box_Installed w0) in
  let w1 := snd (box_Installed w0) in
  let running := fst (box_Running w1) in
  let w2 := snd (box_Running w1) in
  let actions := fst (snd (Server w)) in
  (In start.StartCurrentBox actions <->
     installed = (true, None) /\ running = (false, None))
  /\ (fst (Server w) = None <->
        installed = (true, None) /\ running = (false, None)
        /\ fst (box_StartCurrentBox w2) = None)
  /\ (In start.Running actions <-> installed = (true, None)).
Proof.
  cbn zeta. unfold start.Server.
  destruct (box_Installed _) as [[isInstalled [e|]] w1]; cbn [fst snd].
  { cbn. intuition (discriminate || congruence). }
  destruct isInstalled; cbn [negb].
  2: { cbn. intuition (discriminate || congruence). }
  destruct (box_Running w1) as [[isRunning [e|]] w2]; cbn [fst snd].
  { cbn. intuition (discriminate || congruence). }
  destruct isRunning.
  { cbn. intuition (discriminate || congruence). }
  destruct (box_StartCurrentBox w2) as [[e|] w3]; cbn;
    intuition (discriminate || congruence).
Qed.

(** X22: [Server] shows one error message for every failure and none on
    success; and when it is the start of the box that fails, the caller
    gets the error of [box.StartCurrentBox] itself. *)
Theorem Server_shows_one_message_per_failure (w : World) :
  let result := fst (Server w) in
  let actions := fst (snd (Server w)) in
  length (filter start.isShowErrorMessage actions)
  = match result with
    | Some _ => 1%nat
    | None => 0%nat
    end
  /\ (forall e : error,
        fst (box_StartCurrentBox
               (snd (box_Running
                       (snd (box_Installed
                               (vboxmanage_CleanUpTrashVMDirectories w))))))
          = Some e ->
        In start.StartCurrentBox actions -> result = Some e).
Proof.
  cbn zeta. unfold start.Server,
    start.ShowTranslatedErrorMessageAndPassError.
  destruct (box_Installed _) as [[isInstalled [e|]] w1]; cbn [fst snd].
  { cbn. split; [reflexivity|]. intuition (discriminate || congruence). }
  destruct isInstalled; cbn [negb].
  2: { cbn. split; [reflexivity|]. intuition (discriminate || congruence). }
  destruct (box_Running w1) as [[isRunning [e|]] w2]; cbn [fst snd].
  { cbn. split; [reflexivity|]. intuition (discriminate || congruence). }
  destruct isRunning.
  { cbn. split; [reflexivity|]. intuition (discriminate || congruence). }
  destruct (box_StartCurrentBox w2) as [[e|] w3]; cbn;
    (split; [reflexivity|]); intros e' He'; congruence.
Qed.

End server.

(** * The network status line *)

Module networkstatus_facts.
Import runs_facts.

Lemma substring_whole (b : string) :
  String.substring 0 (String.length b) b = b.
Proof.
  rewrite <- (app_nil_r b) at 2. apply substring_prefix.
Qed.

Lemma substring_suffix (a b : string) :
  String.substring (String.length a) (String.length b) (a +:+ b) = b.
Proof.
  induction a as [|c a IH].
  - apply substring_whole.
  - rewrite app_cons. cbn [String.length String.substring]. exact IH.
Qed.

End networkstatus_facts.

Section network_status.

Context {World : Type}.
Variable network_UsingWirelessInterface : World -> bool.
Variable network_CurrentLinkSpeed : World -> Z.
Variable xlate_Get : string -> string.
Variable Sprintf : string -> Z -> string.

Import networkstatus.

Local Abbreviation showNetworkStatus :=
  (networkstatus.showNetworkStatus xlate_Get).
Local Abbreviation Update :=
  (networkstatus.Update network_UsingWirelessInterface
     network_CurrentLinkSpeed xlate_Get Sprintf).

Lemma showNetworkStatus_shows (status : string) (warning : bool)
  (st : State) :
  let st' := showNetworkStatus status warning st in
  let prefix := xlate_Get "Network status: " in
  exists s : AttributedString,
    networkStatusString st' = Some s
    /\ text s = prefix +:+ status
    /\ attributes s =
         (if warning
          then [({| R := 1; G := 0; B := 0; A := 1 |},
                 String.length prefix,
                 (String.length prefix + String.length status)%nat)]
          else [])
    /\ networkStatusArea st' =
         Some (S (match networkStatusArea st with
                  | Some redraws => redraws
                  | None => O
                  end)).
Proof.
  cbn zeta. unfold networkstatus.showNetworkStatus.
  eexists. split; [reflexivity|].
  destruct warning; cbn; (split; [reflexivity|]); (split; [reflexivity|]);
    destruct st as [[str|] [n|]]; reflexivity.
Qed.

(** X23: after [Update] the status line is the translated prefix
    followed by the status text, and the area is asked to redraw once.
    The line is plain and says OK exactly when the interface is wired and
    the link speed is at least 1000 Mbit/s; in every other case there is
    one attribute, the red colour, and it covers exactly the status text,
    from the end of the prefix to the end of the line. *)
Theorem Update_warns_unless_wired_and_fast (w : World) (st : State) :
  let st' := Update w st in
  let prefix := xlate_Get "Network status: " in
  let fine := negb (network_UsingWirelessInterface w)
              && (1000 <=? network_CurrentLinkSpeed w) in
  exists (s : AttributedString) (status : string),
    networkStatusString st' = Some s
    /\ text s = prefix +:+ status
    /\ (if fine then attributes s = [] /\ status = xlate_Get "OK"
        else exists start end_ : nat,
            attributes s = [({| R := 1; G := 0; B := 0; A := 1 |},
                             start, end_)]
            /\ String.substring start (end_ - start) (text s) = status
            /\ end_ = String.length (text s))
    /\ networkStatusArea st' =
         Some (S (match networkStatusArea st with
                  | Some redraws => redraws
                  | None => O
                  end)).
Proof.
  cbn zeta.
  assert (Hwarn : forall status,
            exists (s : AttributedString) (status' : string),
              networkStatusString (showNetworkStatus status true st) = Some s
              /\ text s = xlate_Get "Network status: " +:+ status'
              /\ (exists start end_ : nat,
                     attributes s = [({| R := 1; G := 0; B := 0; A := 1 |},
                                      start, end_)]
                     /\ String.substring start (end_ - start) (text s)
                        = status'
                     /\ end_ = String.length (text s))
              /\ networkStatusArea (showNetworkStatus status true st) =
                   Some (S (match networkStatusArea st with
                            | Some redraws => redraws
                            | None => O
                            end))).
  { intros status.
    destruct (showNetworkStatus_shows status true st)
      as (s & Hs & Ht & Ha & Hr).
    exists s, status. split; [exact Hs|]. split; [exact Ht|].
    split; [|exact Hr].
    eexists _, _. split; [exact Ha|]. rewrite Ht. split.
    - replace (String.length (xlate_Get "Network status: ")
               + String.length status
               - String.length (xlate_Get "Network status: "))%nat
        with (String.length status) by lia.
      apply networkstatus_facts.substring_suffix.
    - rewrite runs_facts.length_app. reflexivity. }
  unfold networkstatus.Update.
  destruct (network_UsingWirelessInterface w); cbn [negb andb];
    [apply Hwarn|].
  destruct (Z.eqb_spec (network_CurrentLinkSpeed w) 0) as [H0|H0].
  { rewrite H0. cbn. apply Hwarn. }
  destruct (Z.ltb_spec (network_CurrentLinkSpeed w) 1000) as [Hlow|Hok].
  { replace (1000 <=? network_CurrentLinkSpeed w) with false
      by (symmetry; apply Z.leb_gt; exact Hlow).
    apply Hwarn. }
  replace (1000 <=? network_CurrentLinkSpeed w) with true
    by (symmetry; apply Z.leb_le; exact Hok).
  destruct (showNetworkStatus_shows (xlate_Get "OK") false st)
    as (s & Hs & Ht & Ha & Hr).
  exists s, (xlate_Get "OK"). auto.
Qed.

End network_status.

(** * The configuration file *)

Section configuration.

Context {World : Type}.
Variable ini_Load : string -> World -> option config.File.
Variable SaveTo : config.File -> string -> World -> option error * World.
Variable transformValue : config.File -> string -> string -> string.

Import config.

Local Abbreviation State := (config.State (World := World)).
Local Abbreviation save := (config.save SaveTo).
Local Abbreviation setValue := (config.setValue SaveTo).
Local Abbreviation Load := (config.Load ini_Load SaveTo).
Local Abbreviation GetLanguage := (config.GetLanguage SaveTo transformValue).
Local Abbreviation SetLanguage := (config.SetLanguage SaveTo).
Local Abbreviation IsSelfUpdateDisabled :=
  (config.IsSelfUpdateDisabled SaveTo transformValue).
Local Abbreviation SetSelfUpdateDisabled :=
  (config.SetSelfUpdateDisabled SaveTo).

(** The state with a loaded file. *)
Local Abbreviation loaded f w := ({| cfg := Some f; world := w |}).

Lemma inLanguages_In (value : string) :
  inLanguages value = true -> In value languages.
Proof.
  unfold inLanguages. intros H. apply existsb_exists in H as (l & Hl & He).
  apply String.eqb_eq in He. subst l. exact Hl.
Qed.

Lemma setValue_loaded (section_ key_ value_ : string) (f : File) (w : World) :
  setValue section_ key_ value_ (loaded f w) =
    let f' := SetValue (Key f section_ key_) section_ key_ value_ in
    Ok (tt, loaded f' (snd (SaveTo f' "naksu.ini" w))).
Proof.
  unfold config.setValue, config.bind, config.withCfg, config.save. cbn.
  destruct (SaveTo _ _ w). reflexivity.
Qed.

Lemma SetValue_Key (f : File) (section_ key_ value_ : string) :
  SetValue (Key f section_ key_) section_ key_ value_
  = <[(section_, key_) := value_]> f.
Proof.
  unfold SetValue, Key. destruct (f !! (section_, key_)); [reflexivity|].
  apply insert_insert_eq.
Qed.

Lemma insert_Key (f : File) (section_ key_ value_ : string) :
  <[(section_, key_) := value_]> (Key f section_ key_)
  = <[(section_, key_) := value_]> f.
Proof. apply SetValue_Key. Qed.

Lemma Key_lookup_other (f : File) (section_ key_ : string)
  (k : string * string) :
  k <> (section_, key_) -> Key f section_ key_ !! k = f !! k.
Proof.
  intros Hk. unfold Key. destruct (f !! (section_, key_)); [reflexivity|].
  apply lookup_insert_ne. congruence.
Qed.

(** X24: with a configuration loaded, [GetLanguage] does not panic and
    answers one of en, fi and sv, whatever the file holds.  It answers the
    value of common/language when that is one of the three, writing
    nothing; otherwise it answers fi, stores fi in the file and saves the
    file.  No other key of the file is changed. *)
Theorem GetLanguage_answers_a_supported_language (f : File) (w : World) :
  exists (language : string) (f' : File) (w' : World),
    GetLanguage (loaded f w) = Ok (language, loaded f' w')
    /\ In language languages
    /\ (forall k, k <> ("common", "language") -> f' !! k = f !! k)
    /\ let f1 := Key f "common" "language" in
       let found := transformValue f1 "common" (raw f1 "common" "language") in
       if inLanguages found
       then language = found /\ f' = f1 /\ w' = w
       else language = "fi"
            /\ f' = <[("common", "language") := "fi"]> f
            /\ w' = snd (SaveTo f' "naksu.ini" w).
Proof.
  unfold config.GetLanguage, config.validateStringChoice, config.getString,
    config.bind, config.withCfg.
  cbn [cfg world].
  set (f1 := Key f "common" "language").
  set (found := transformValue f1 "common" (raw f1 "common" "language")).
  destruct (inLanguages found) eqn:E.
  - exists found, f1, w. split; [reflexivity|].
    split; [apply inLanguages_In, E|]. split.
    + intros k Hk. apply Key_lookup_other, Hk.
    + auto.
  - cbn [getDefault getDefaultIn defaults section key value String.eqb
         Ascii.eqb Bool.eqb andb].
    rewrite setValue_loaded. cbn zeta. unfold config.ret.
    subst f1. rewrite SetValue_Key, insert_Key.
    eexists "fi", _, _. split; [reflexivity|].
    split; [right; left; reflexivity|]. split.
    + intros k Hk. apply lookup_insert_ne. congruence.
    + auto.
Qed.

(** A key that is there is not created again. *)
Lemma Key_present (f : File) (section_ key_ value_ : string) :
  f !! (section_, key_) = Some value_ -> Key f section_ key_ = f.
Proof. unfold Key. intros ->. reflexivity. Qed.

Lemma raw_insert (f : File) (section_ key_ value_ : string) :
  raw (<[(section_, key_) := value_]> f) section_ key_ = value_.
Proof. unfold raw. rewrite lookup_insert_eq. reflexivity. Qed.

Lemma languages_plain (language : string) :
  inLanguages language = true -> strings.Contains language "%" = false.
Proof.
  intros H. apply inLanguages_In in H. cbn in H.
  destruct H as [<-|[<-|[<-|[]]]]; reflexivity.
Qed.

(** X25: what [SetLanguage] stores, [GetLanguage] reads back without
    changing anything: the language given when it is one of en, fi and sv,
    and fi for any other text.  Values without a percent sign are taken
    by the ini library as they stand. *)
Theorem SetLanguage_then_GetLanguage
  (language : string) (f : File) (w : World) :
  (forall (file : File) (section_ value_ : string),
      strings.Contains value_ "%" = false ->
      transformValue file section_ value_ = value_) ->
  let stored := if inLanguages language then language else "fi" in
  exists s1 : State,
    SetLanguage language (loaded f w) = Ok (tt, s1)
    /\ cfg s1 = Some (<[("common", "language") := stored]> f)
    /\ GetLanguage s1 = Ok (stored, s1).
Proof.
  intros Hplain stored.
  assert (Hstored : inLanguages stored = true).
  { subst stored. destruct (inLanguages language) eqn:E; [exact E|reflexivity]. }
  assert (Hset : SetLanguage language (loaded f w) =
            Ok (tt, loaded (<[("common", "language") := stored]> f)
                      (snd (SaveTo (<[("common", "language") := stored]> f)
                              "naksu.ini" w)))).
  { unfold config.SetLanguage. subst stored.
    destruct (inLanguages language);
      cbn [getDefault getDefaultIn defaults section key value String.eqb
           Ascii.eqb Bool.eqb andb];
      rewrite setValue_loaded; cbn zeta; rewrite SetValue_Key; reflexivity. }
  eexists. split; [exact Hset|]. split; [reflexivity|].
  unfold config.GetLanguage, config.validateStringChoice, config.getString,
    config.bind, config.withCfg.
  cbn [cfg world].
  rewrite (Key_present _ _ _ stored) by apply lookup_insert_eq.
  rewrite raw_insert, (Hplain _ _ _ (languages_plain stored Hstored)), Hstored.
  reflexivity.
Qed.

(** What [fillDefaults] leaves in the file. *)
Lemma fillDefaultsFrom_lookup (ds : list defaultValue) :
  forall (f : File) (w : World),
    exists f' : File,
      fillDefaultsFrom ds (loaded f w) = Ok (tt, loaded f' w)
      /\ forall section_ key_ : string,
          f' !! (section_, key_) =
            match f !! (section_, key_) with
            | Some v => Some v
            | None =>
                match getDefaultIn ds section_ key_ with
                | Ok v => Some v
                | Panic _ => None
                end
            end.
Proof.
  induction ds as [|d ds IH]; intros f w.
  - exists f. split; [reflexivity|]. intros section_ key_. cbn.
    destruct (f !! (section_, key_)); reflexivity.
  - cbn [fillDefaultsFrom]. unfold config.bind at 1.
    unfold config.setIfMissing, config.bind, config.withCfg, config.ret.
    cbn [cfg world]. unfold HasKey.
    destruct (f !! (section d, key d)) as [v0|] eqn:Ed; cbn [negb].
    + destruct (IH f w) as (f' & Hrun & Hlook).
      exists f'. split; [exact Hrun|].
      intros section_ key_. rewrite Hlook.
      destruct (f !! (section_, key_)) as [v|] eqn:Ef; [reflexivity|].
      cbn [getDefaultIn].
      destruct (String.eqb_spec (section d) section_) as [<-|Hs];
        cbn [andb]; [|reflexivity].
      destruct (String.eqb_spec (key d) key_) as [<-|Hk]; [|reflexivity].
      congruence.
    + cbn [cfg world]. rewrite SetValue_Key.
      destruct (IH (<[(section d, key d) := value d]> f) w)
        as (f' & Hrun & Hlook).
      exists f'. split; [exact Hrun|].
      intros section_ key_. rewrite Hlook. cbn [getDefaultIn].
      destruct (String.eqb_spec (section d) section_) as [<-|Hs];
        cbn [andb].
      * destruct (String.eqb_spec (key d) key_) as [<-|Hk].
        -- rewrite lookup_insert_eq, Ed. reflexivity.
        -- rewrite lookup_insert_ne by congruence. reflexivity.
      * rewrite lookup_insert_ne by congruence. reflexivity.
Qed.

(** X26: whatever [cfg] was before, after [Load] the configuration holds
    every key of naksu.ini with the value it has there and, for the keys
    of [defaults] that naksu.ini lacks, the default; it holds nothing
    else, and it has been saved once.  A file that cannot be read counts
    as empty. *)
Theorem Load_fills_in_what_is_missing (previous : option File) (w : World) :
  let read := match ini_Load "naksu.ini" w with
              | Some file => file
              | None => Empty
              end in
  exists f' : File,
    Load {| cfg := previous; world := w |} =
      Ok (tt, loaded f' (snd (SaveTo f' "naksu.ini" w)))
    /\ forall section_ key_ : string,
        f' !! (section_, key_) =
          match read !! (section_, key_) with
          | Some v => Some v
          | None =>
              match getDefault section_ key_ with
              | Ok v => Some v
              | Panic _ => None
              end
          end.
Proof.
  intros read. unfold config.Load. cbn [world]. fold read.
  destruct (fillDefaultsFrom_lookup defaults read w) as (f' & Hrun & Hlook).
  exists f'. split; [|exact Hlook].
  unfold config.bind, config.fillDefaults. rewrite Hrun.
  unfold config.save. cbn [cfg world].
  destruct (SaveTo f' "naksu.ini" w). reflexivity.
Qed.

(** X27: with a configuration loaded, [IsSelfUpdateDisabled] does not
    panic, whatever the file holds; and what [SetSelfUpdateDisabled]
    stores, [IsSelfUpdateDisabled] reads back without changing
    anything. *)
Theorem IsSelfUpdateDisabled_reads_what_was_set
  (f : File) (w : World) :
  (forall (file : File) (section_ value_ : string),
      strings.Contains value_ "%" = false ->
      transformValue file section_ value_ = value_) ->
  (exists (b : bool) (s' : State),
      IsSelfUpdateDisabled (loaded f w) = Ok (b, s'))
  /\ forall isSelfUpdateDisabled : bool,
      exists s1 : State,
        SetSelfUpdateDisabled isSelfUpdateDisabled (loaded f w) = Ok (tt, s1)
        /\ IsSelfUpdateDisabled s1 = Ok (isSelfUpdateDisabled, s1).
Proof.
  intros Hplain. split.
  - unfold config.IsSelfUpdateDisabled, config.getBoolean, config.bind,
      config.withCfg.
    cbn [cfg world].
    destruct (ini_parseBool _) as [b|]; [eauto|].
    cbn [getDefault getDefaultIn defaults section key value String.eqb
         Ascii.eqb Bool.eqb andb FormatBool ParseBool existsb orb].
    rewrite setValue_loaded. cbn zeta. eauto.
  - intros b. unfold config.SetSelfUpdateDisabled.
    rewrite setValue_loaded. cbn zeta. rewrite SetValue_Key.
    eexists. split; [reflexivity|].
    unfold config.IsSelfUpdateDisabled, config.getBoolean, config.bind,
      config.withCfg.
    cbn [cfg world].
    rewrite (Key_present _ _ _ (FormatBool b)) by apply lookup_insert_eq.
    rewrite raw_insert, Hplain by (destruct b; reflexivity).
    destruct b; reflexivity.
Qed.

End configuration.

(** * The progress dialog *)

Section progress_dialog.

Import progress.

(** X28: a message given to [UpdateProgressDialog] lasts for that update
    only.  The dialog is passed by value, so the message is not kept: the
    next update without a message shows the message the dialog was opened
    with, followed by the new percentage. *)
Theorem UpdateProgressDialog_message_lasts_one_update
  (message m : string) (progress1 progress2 : Z) (ui0 ui : UI) :
  let dialog := fst (ShowProgressDialog message ui0) in
  let window := next ui0 in
  let bar := S (next ui0) in
  let label := S (S (next ui0)) in
  Visible ui window = true ->
  exists ui1 ui2 : UI,
    UpdateProgressDialog dialog progress1 (Some m) ui = Ok ui1
    /\ labelText ui1 !! label = Some (m +:+ " (" +:+ Itoa progress1 +:+ "%)")
    /\ UpdateProgressDialog dialog progress2 None ui1 = Ok ui2
    /\ labelText ui2 !! label
       = Some (message +:+ " (" +:+ Itoa progress2 +:+ "%)")
    /\ barValue ui2 !! bar = Some progress2.
Proof.
  intros dialog window bar label Hvisible.
  set (ui1 := SetText label (m +:+ " (" +:+ Itoa progress1 +:+ "%)")
                (SetValue bar progress1 ui)).
  set (ui2 := SetText label (message +:+ " (" +:+ Itoa progress2 +:+ "%)")
                (SetValue bar progress2 ui1)).
  exists ui1, ui2.
  assert (Hstill : Visible ui1 window = true) by exact Hvisible.
  unfold UpdateProgressDialog.
  cbn [dialog ShowProgressDialog fst Window Progress Message MessageString].
  fold window bar label. rewrite Hvisible, Hstill.
  repeat split; cbn; apply lookup_insert_eq.
Qed.

(** Without a window on show, nothing is updated and nothing is
    destroyed. *)
Lemma dialog_without_visible_window_is_left_alone
  (dialog : Dialog) (progress : Z) (message : option string) (ui : UI) :
  match Window dialog with
  | Some window => Visible ui window = false
  | None => True
  end ->
  UpdateProgressDialog dialog progress message ui = Ok ui
  /\ CloseProgressDialog dialog ui = ui.
Proof.
  unfold UpdateProgressDialog, CloseProgressDialog.
  destruct (Window dialog) as [window|]; [|auto].
  intros ->. auto.
Qed.

End progress_dialog.

(** * The other packages on concrete inputs *)

(** X17 at work: latest.zip is a symbolic link to the image, and it is not
    copied. *)
Lemma CopyFile_takes_regular_files_only_example :
  fixtures.CopyFile fixtures.link fixtures.backup tt =
    (mebroutines.Return (Some (errors_New "could not find source file")),
     ([], tt)).
Proof.
  refine (proj2 (CopyFile_takes_regular_files_only
                   fixtures.os_Lstat fixtures.os_Open fixtures.os_Create
                   fixtures.io_Copy fixtures.Sync fixtures.file_Close
                   fixtures.link fixtures.backup tt
                   (Z.lor mebroutines.ModeSymlink 511)
                   mebroutines.ModeSymlink eq_refl _ _)).
  - right. left. reflexivity.
  - vm_compute. discriminate.
Defined.

(** X29 at work: on the memory stick the sync fails and the close fails;
    the caller hears of the sync. *)
Lemma CopyFile_reports_the_first_failure_example :
  fst (fixtures.CopyFile fixtures.image fixtures.backup tt) =
    mebroutines.Return
      (Some (errors_New
               "error when syncing destination file: input/output error")).
Proof.
  exact (CopyFile_reports_the_first_failure
           fixtures.os_Lstat fixtures.os_Open fixtures.os_Create
           fixtures.io_Copy fixtures.Sync fixtures.file_Close
           fixtures.image fixtures.backup tt fixtures.image fixtures.backup
           tt tt tt tt tt tt None
           (Some (errors_New "input/output error"))
           (Some (errors_New "disk quota exceeded"))
           eq_refl eq_refl eq_refl eq_refl eq_refl eq_refl eq_refl).
Defined.

(** X25 at work: German is not among the languages, Finnish is stored in
    its place and read back. *)
Lemma SetLanguage_then_GetLanguage_example :
  exists s1 : config.State,
    fixtures.SetLanguage "de"
      {| config.cfg := Some fixtures.swedish; config.world := [] |}
    = config.Ok (tt, s1)
    /\ config.cfg s1 = Some (<[("common", "language") := "fi"]> fixtures.swedish)
    /\ fixtures.GetLanguage s1 = config.Ok ("fi", s1).
Proof.
  exact (SetLanguage_then_GetLanguage fixtures.SaveTo fixtures.transformValue
           "de" fixtures.swedish [] (fun _ _ _ _ => eq_refl)).
Defined.

(** X27 at work: the self-update is switched off and found switched
    off. *)
Lemma IsSelfUpdateDisabled_reads_what_was_set_example :
  exists s1 : config.State,
    fixtures.SetSelfUpdateDisabled true
      {| config.cfg := Some fixtures.swedish; config.world := [] |}
    = config.Ok (tt, s1)
    /\ fixtures.IsSelfUpdateDisabled s1 = config.Ok (true, s1).
Proof.
  exact (proj2 (IsSelfUpdateDisabled_reads_what_was_set
                  fixtures.SaveTo fixtures.transformValue
                  fixtures.swedish [] (fun _ _ _ _ => eq_refl)) true).
Defined.

(** X28 at work: the download is at 40 percent under the message of the
    unpacking, and at 60 percent under its own message again. *)
Lemma UpdateProgressDialog_message_lasts_one_update_example :
  exists ui1 ui2 : progress.UI,
    progress.UpdateProgressDialog fixtures.downloading 40 (Some "Unpacking")
      fixtures.onShow = progress.Ok ui1
    /\ progress.labelText ui1 !! 2%nat = Some "Unpacking (40%)"
    /\ progress.UpdateProgressDialog fixtures.downloading 60 None ui1
       = progress.Ok ui2
    /\ progress.labelText ui2 !! 2%nat = Some "Downloading (60%)"
    /\ progress.barValue ui2 !! 1%nat = Some 60.
Proof.
  exact (UpdateProgressDialog_message_lasts_one_update
           "Downloading" "Unpacking" 40 60 fixtures.noWidgets fixtures.onShow
           eq_refl).
Defined.
